(** * Error boundary of the code-review agent front end

    A shallow embedding of the TypeScript error-handling library
    ([lib/errors/http-errors.ts], [lib/errors/api-error-handler.ts],
    [lib/errors/backend-error-handler.ts]), of the CopilotKit route
    ([app/api/copilotkit/route.ts]) and of the four-stage analysis pipeline
    the specification describes, together with the properties the
    specification states about them.  The state handlers of the page
    ([app/page.tsx]: file tree, tabs, projects, issue tracker) and of the
    toast list ([components/Toast.tsx]) are embedded as well, with the
    properties their code shows.

    Conventions of the embedding:
    - a JavaScript value of static type [unknown] is a [JsValue];
    - a plain object is an association list in insertion order, the way
      property enumeration and JSON serialisation see it;
    - a call that may throw (or a promise that may reject) returns an
      [Outcome]: [Returned v] or [Thrown e]; [String(v)] is such a call;
    - a number is a safe integer, the numbers whose [String] is their
      decimal numeral; fractions, [NaN], the infinities and integers
      beyond [Number.MAX_SAFE_INTEGER] are not values of the embedding,
      nor are functions, symbols and objects without a prototype;
    - the wall clock read by [new Date()] is an explicit argument;
    - [console.error] only writes to the console and is left out: no value
      computed by the code depends on it. *)

From Stdlib Require Import ZArith List String Ascii Bool Lia DecimalString.
Import ListNotations.

#[local] Open Scope string_scope.
#[local] Open Scope Z_scope.

(* ===================================================================== *)
(** ** String primitives of the host language *)
(* ===================================================================== *)

Module JsString.

(** [String.prototype.includes]: [needle] occurs somewhere in [s]. *)
Fixpoint includes (s needle : string) : bool :=
  String.prefix needle s ||
  match s with
  | EmptyString => false
  | String _ rest => includes rest needle
  end.

(** White space as [\s] and [trim] see it, on code units below 256. *)
Definition isWhiteSpace (c : ascii) : bool :=
  let n := nat_of_ascii c in
  ((9 <=? n) && (n <=? 13) || (n =? 32) || (n =? 160))%nat.

Fixpoint trimStart (s : string) : string :=
  match s with
  | EmptyString => EmptyString
  | String c rest => if isWhiteSpace c then trimStart rest else s
  end.

(** Drops trailing white space: a character is kept when something
    that is kept follows it, or when it is not white space itself. *)
Fixpoint trimEnd (s : string) : string :=
  match s with
  | EmptyString => EmptyString
  | String c rest =>
      match trimEnd rest with
      | EmptyString => if isWhiteSpace c then EmptyString else String c EmptyString
      | kept => String c kept
      end
  end.

Definition trim (s : string) : string := trimEnd (trimStart s).

(** ASCII lower-casing, enough for header names and the [i] flag. *)
Definition toLowerAscii (c : ascii) : ascii :=
  let n := nat_of_ascii c in
  if ((65 <=? n) && (n <=? 90))%nat then ascii_of_nat (n + 32) else c.

Fixpoint toLowerCase (s : string) : string :=
  match s with
  | EmptyString => EmptyString
  | String c rest => String (toLowerAscii c) (toLowerCase rest)
  end.

(** Decimal rendering of an integer-valued number. *)
Definition ofZ (n : Z) : string := NilZero.string_of_int (Z.to_int n).

Fixpoint join (sep : string) (l : list string) : string :=
  match l with
  | [] => ""
  | [x] => x
  | x :: rest => x ++ sep ++ join sep rest
  end.

End JsString.

(* ===================================================================== *)
(** ** JavaScript values *)
(* ===================================================================== *)

(** [HttpStatusCode] of [types/index.ts]: a union of twelve literals. *)
Inductive HttpStatusCode : Type :=
| SC400 | SC401 | SC403 | SC404 | SC405 | SC409
| SC422 | SC429 | SC500 | SC502 | SC503 | SC504.

Definition statusNumber (c : HttpStatusCode) : Z :=
  match c with
  | SC400 => 400 | SC401 => 401 | SC403 => 403 | SC404 => 404
  | SC405 => 405 | SC409 => 409 | SC422 => 422 | SC429 => 429
  | SC500 => 500 | SC502 => 502 | SC503 => 503 | SC504 => 504
  end.

(** An [Error] instance that is not an [HttpException]: its [name], its
    [message] and the own properties code may have hung on it
    ([backendError], [requestId]). *)
Record ErrorOf (V : Type) : Type := mkError {
  err_name : string;
  err_message : string;
  err_props : list (string * V)
}.
Arguments mkError {V} _ _ _.
Arguments err_name {V} _.
Arguments err_message {V} _.
Arguments err_props {V} _.

(** The fields of class [HttpException] ([stack] is only ever logged). *)
Record HttpExceptionOf (V : Type) : Type := mkHttpException {
  name : string;
  statusCode : HttpStatusCode;
  message : string;
  error : string;
  details : option (list (string * V))
}.
Arguments mkHttpException {V} _ _ _ _ _.
Arguments name {V} _.
Arguments statusCode {V} _.
Arguments message {V} _.
Arguments error {V} _.
Arguments details {V} _.

(** [Number.isSafeInteger]: at most [Number.MAX_SAFE_INTEGER] in
    absolute value. *)
Definition isSafeInteger (n : Z) : bool := Z.abs n <=? 9007199254740991.

(** A number that is a safe integer. *)
Record SafeInteger : Type := mkSafeInteger {
  int_value : Z;
  int_safe : isSafeInteger int_value = true
}.

(** A status code as a number. *)
Definition statusInteger (c : HttpStatusCode) : SafeInteger :=
  match c with
  | SC400 => mkSafeInteger 400 eq_refl | SC401 => mkSafeInteger 401 eq_refl
  | SC403 => mkSafeInteger 403 eq_refl | SC404 => mkSafeInteger 404 eq_refl
  | SC405 => mkSafeInteger 405 eq_refl | SC409 => mkSafeInteger 409 eq_refl
  | SC422 => mkSafeInteger 422 eq_refl | SC429 => mkSafeInteger 429 eq_refl
  | SC500 => mkSafeInteger 500 eq_refl | SC502 => mkSafeInteger 502 eq_refl
  | SC503 => mkSafeInteger 503 eq_refl | SC504 => mkSafeInteger 504 eq_refl
  end.

#[warnings="-register-all"] Inductive JsValue : Type :=
| JUndefined
| JNull
| JBool (b : bool)
| JNum (n : SafeInteger)
| JStr (s : string)
| JArr (items : list JsValue)
| JObj (props : list (string * JsValue))
| JError (e : ErrorOf JsValue)
| JHttp (h : HttpExceptionOf JsValue).

Definition JsObject : Type := list (string * JsValue).
Definition ErrorObject : Type := ErrorOf JsValue.
Definition HttpException : Type := HttpExceptionOf JsValue.

(** The result of a call that may throw. *)
Inductive Outcome (A : Type) : Type :=
| Returned (a : A)
| Thrown (e : JsValue).
Arguments Returned {A} _.
Arguments Thrown {A} _.

(* ===================================================================== *)
(** ** Calls that may throw *)
(* ===================================================================== *)

Module Exc.

Definition bind {A B : Type} (c : Outcome A) (k : A -> Outcome B) : Outcome B :=
  match c with
  | Returned a => k a
  | Thrown e => Thrown e
  end.

(** [try { c } catch (e) { handler(e) }]. *)
Definition tryCatch {A : Type} (c : Outcome A) (handler : JsValue -> Outcome A) : Outcome A :=
  match c with
  | Returned a => Returned a
  | Thrown e => handler e
  end.

End Exc.

Notation "x <- c ;; k" := (Exc.bind c (fun x => k))
  (at level 61, c at next level, right associativity).

(* ===================================================================== *)
(** ** Operations on values *)
(* ===================================================================== *)

Module Js.

(** Own-property lookup in a plain object. *)
Fixpoint obj_get (k : string) (o : JsObject) : option JsValue :=
  match o with
  | [] => None
  | (k', v) :: rest => if String.eqb k k' then Some v else obj_get k rest
  end.

(** [o[k] = v]: overwrite in place, else append. *)
Fixpoint obj_set (k : string) (v : JsValue) (o : JsObject) : JsObject :=
  match o with
  | [] => [(k, v)]
  | (k', v') :: rest =>
      if String.eqb k k' then (k, v) :: rest else (k', v') :: obj_set k v rest
  end.

(** [{...a, ...b}]. *)
Definition spread (a b : JsObject) : JsObject :=
  fold_left (fun acc kv => obj_set (fst kv) (snd kv) acc) b a.

(** [o.k] where a missing property reads as [undefined]. *)
Definition prop (k : string) (o : JsObject) : JsValue :=
  match obj_get k o with Some v => v | None => JUndefined end.

(** [ToBoolean]. *)
Definition truthy (v : JsValue) : bool :=
  match v with
  | JUndefined | JNull => false
  | JBool b => b
  | JNum n => negb (int_value n =? 0)
  | JStr s => negb (String.eqb s "")
  | JArr _ | JObj _ | JError _ | JHttp _ => true
  end.

(** [a || b]. *)
Definition or (a b : JsValue) : JsValue := if truthy a then a else b.

(** [Error.prototype.toString]. *)
Definition errorToString (nm msg : string) : string :=
  if String.eqb nm "" then msg
  else if String.eqb msg "" then nm
  else nm ++ ": " ++ msg.

Definition typeError (msg : string) : JsValue :=
  JError (mkError "TypeError" msg []).

(** [k in o] for an own property. *)
Definition hasOwn (k : string) (o : JsObject) : bool :=
  match obj_get k o with Some _ => true | None => false end.

(** What [ToPrimitive] throws when neither [toString] nor [valueOf]
    gives a primitive. *)
Definition notPrimitive : JsValue :=
  typeError "Cannot convert object to primitive value".

(** [String(v)].  An object is converted by its [toString] method: the
    inherited one, unless an own property of that name hides it.  No
    value of the embedding is a function, so an own [toString] is never
    callable; the conversion then falls back on [valueOf], which gives
    no primitive, and throws a [TypeError].  An array joins its elements
    with commas, converting them from left to right, [null] and
    [undefined] elements rendering as the empty string. *)
Fixpoint toString (v : JsValue) : Outcome string :=
  match v with
  | JUndefined => Returned "undefined"
  | JNull => Returned "null"
  | JBool true => Returned "true"
  | JBool false => Returned "false"
  | JNum n => Returned (JsString.ofZ (int_value n))
  | JStr s => Returned s
  | JArr items =>
      parts <- (fix each (l : list JsValue) : Outcome (list string) :=
                  match l with
                  | [] => Returned []
                  | (JUndefined | JNull) :: rest =>
                      r <- each rest ;; Returned ("" :: r)
                  | x :: rest =>
                      s <- toString x ;; r <- each rest ;; Returned (s :: r)
                  end) items ;;
      Returned (JsString.join "," parts)
  | JObj props =>
      if hasOwn "toString" props then Thrown notPrimitive
      else Returned "[object Object]"
  | JError e =>
      if hasOwn "toString" (err_props e) then Thrown notPrimitive
      else Returned (errorToString (err_name e) (err_message e))
  | JHttp h => Returned (errorToString (name h) (message h))
  end.

(** [v.k] on an arbitrary value: reading a property of [null] or
    [undefined] throws a [TypeError]; primitives and arrays have no such
    property for the keys used here; an error object answers with its
    [name], [message] and own properties. *)

Definition getProp (v : JsValue) (k : string) : Outcome JsValue :=
  match v with
  | JUndefined => Thrown (typeError ("Cannot read properties of undefined (reading '" ++ k ++ "')"))
  | JNull => Thrown (typeError ("Cannot read properties of null (reading '" ++ k ++ "')"))
  | JObj o => Returned (prop k o)
  | JError e =>
      Returned (if String.eqb k "message" then JStr (err_message e)
                else if String.eqb k "name" then JStr (err_name e)
                else prop k (err_props e))
  | JHttp h =>
      Returned (if String.eqb k "message" then JStr (message h)
                else if String.eqb k "name" then JStr (name h)
                else if String.eqb k "error" then JStr (error h)
                else if String.eqb k "statusCode" then JNum (statusInteger (statusCode h))
                else if String.eqb k "details" then
                  match details h with Some d => JObj d | None => JUndefined end
                else JUndefined)
  | JBool _ | JNum _ | JStr _ | JArr _ => Returned JUndefined
  end.

End Js.

(* ===================================================================== *)
(** ** [Date]: the clock and [toISOString] *)
(* ===================================================================== *)

Module JsDate.

Definition msPerDay : Z := 86400000.
Definition maxTimeValue : Z := 8640000000000000.

(** A time value as a [Date] object holds it: milliseconds since the
    epoch, inside the range [TimeClip] accepts.  [new Date()] always
    yields one. *)
Record TimeValue : Type := mkTime {
  ms : Z;
  ms_in_range : (- maxTimeValue <=? ms) && (ms <=? maxTimeValue) = true
}.

Definition Day (t : Z) : Z := t / msPerDay.
Definition HourFromTime (t : Z) : Z := (t / 3600000) mod 24.
Definition MinFromTime (t : Z) : Z := (t / 60000) mod 60.
Definition SecFromTime (t : Z) : Z := (t / 1000) mod 60.
Definition msFromTime (t : Z) : Z := t mod 1000.

(** Months counted from March, so that the leap day comes last. *)
Definition monthFromMarch (doy : Z) : Z := (5 * doy + 2) / 153.

Definition dayOfMonth (doy : Z) : Z :=
  doy - (153 * monthFromMarch doy + 2) / 5 + 1.

Definition monthOfYear (doy : Z) : Z :=
  let mp := monthFromMarch doy in
  if mp <? 10 then mp + 3 else mp - 9.

(** Proleptic Gregorian date (year, month, day) of a day number.  The
    days since 1 March of year 0 are cut into 400-year eras, centuries,
    4-year cycles and years; the last century of an era and the last
    year of a cycle are one day longer. *)
Definition civilFromDays (days : Z) : Z * Z * Z :=
  let z := days + 719468 in
  let n400 := z / 146097 in
  let d1 := z mod 146097 in
  let n100 := Z.min 3 (d1 / 36524) in
  let d2 := d1 - 36524 * n100 in
  let n4 := d2 / 1461 in
  let d3 := d2 mod 1461 in
  let n1 := Z.min 3 (d3 / 365) in
  let doy := d3 - 365 * n1 in
  let m := monthOfYear doy in
  (400 * n400 + 100 * n100 + 4 * n4 + n1 + (if m <=? 2 then 1 else 0),
   m, dayOfMonth doy).

Definition digit (n : Z) : ascii :=
  match n mod 10 with
  | 0 => "0" | 1 => "1" | 2 => "2" | 3 => "3" | 4 => "4"
  | 5 => "5" | 6 => "6" | 7 => "7" | 8 => "8" | _ => "9"
  end%char.

(** The [k] low decimal digits of [n], most significant first. *)
Fixpoint pad (k : nat) (n : Z) : string :=
  match k with
  | O => ""
  | S k' => pad k' (n / 10) ++ String (digit n) ""
  end.

(** Four digits for years 0 to 9999, otherwise a sign and six. *)
Definition isoYear (y : Z) : string :=
  if (0 <=? y) && (y <=? 9999) then pad 4 y
  else (if y <? 0 then "-" else "+") ++ pad 6 (Z.abs y).

Definition toISOString (t : TimeValue) : string :=
  let '(y, m, d) := civilFromDays (Day (ms t)) in
  isoYear y ++ "-" ++ pad 2 m ++ "-" ++ pad 2 d ++ "T"
    ++ pad 2 (HourFromTime (ms t)) ++ ":" ++ pad 2 (MinFromTime (ms t)) ++ ":"
    ++ pad 2 (SecFromTime (ms t)) ++ "." ++ pad 3 (msFromTime (ms t)) ++ "Z".

(** *** Recognising an ISO-8601 date-time *)

Definition digitVal (c : ascii) : option Z :=
  let n := nat_of_ascii c in
  if ((48 <=? n) && (n <=? 57))%nat then Some (Z.of_nat n - 48) else None.

Definition isDigit (c : ascii) : bool :=
  match digitVal c with Some _ => true | None => false end.

(** A two-digit field with a value between [lo] and [hi]. *)
Definition field2 (lo hi : Z) (a b : ascii) : bool :=
  match digitVal a, digitVal b with
  | Some x, Some y => (lo <=? 10 * x + y) && (10 * x + y <=? hi)
  | _, _ => false
  end.

(** [-MM-DDTHH:mm:ss.sssZ] *)
Definition isIsoTail (l : list ascii) : bool :=
  match l with
  | [d1; m1; m2; d2; a1; a2; t; h1; h2; c1; n1; n2; c2; s1; s2; dot; f1; f2; f3; z] =>
      Ascii.eqb d1 "-" && field2 1 12 m1 m2 && Ascii.eqb d2 "-" && field2 1 31 a1 a2
      && Ascii.eqb t "T" && field2 0 23 h1 h2 && Ascii.eqb c1 ":" && field2 0 59 n1 n2
      && Ascii.eqb c2 ":" && field2 0 59 s1 s2 && Ascii.eqb dot "."
      && isDigit f1 && isDigit f2 && isDigit f3 && Ascii.eqb z "Z"
  | _ => false
  end.

(** A complete, extended-format UTC date-time: the year as four digits,
    or as six with a sign. *)
Definition isISO8601 (s : string) : bool :=
  match list_ascii_of_string s with
  | c :: y1 :: y2 :: y3 :: rest =>
      if Ascii.eqb c "+" || Ascii.eqb c "-" then
        match rest with
        | y4 :: y5 :: y6 :: tail =>
            isDigit y1 && isDigit y2 && isDigit y3 && isDigit y4 && isDigit y5
            && isDigit y6 && isIsoTail tail
        | _ => false
        end
      else isDigit c && isDigit y1 && isDigit y2 && isDigit y3 && isIsoTail rest
  | _ => false
  end.

End JsDate.

(* ===================================================================== *)
(** ** [lib/errors/http-errors.ts] *)
(* ===================================================================== *)

Module HttpErrors.

(** The table [errorNames] of the private method
    [HttpException.getDefaultErrorName]. *)
Definition errorNames (statusCode : HttpStatusCode) : string :=
  match statusCode with
  | SC400 => "Bad Request"
  | SC401 => "Unauthorized"
  | SC403 => "Forbidden"
  | SC404 => "Not Found"
  | SC405 => "Method Not Allowed"
  | SC409 => "Conflict"
  | SC422 => "Unprocessable Entity"
  | SC429 => "Too Many Requests"
  | SC500 => "Internal Server Error"
  | SC502 => "Bad Gateway"
  | SC503 => "Service Unavailable"
  | SC504 => "Gateway Timeout"
  end.

(** [a || b] on strings: the empty string is falsy. *)
Definition strOr (a b : string) : string :=
  if String.eqb a "" then b else a.

Definition getDefaultErrorName (statusCode : HttpStatusCode) : string :=
  strOr (errorNames statusCode) "Unknown Error".

(** [new HttpException(statusCode, message, error?, details?)]. *)
Definition newHttpException (statusCode : HttpStatusCode) (message : string)
    (error : option string) (details : option JsObject) : HttpException :=
  mkHttpException "HttpException" statusCode message
    (match error with
     | Some e => strOr e (getDefaultErrorName statusCode)
     | None => getDefaultErrorName statusCode
     end)
    details.

(** [HttpException.prototype.toJSON], the clock made explicit. *)
Definition toJSON (now : JsDate.TimeValue) (this : HttpException) : JsObject :=
  Js.spread
    [ ("error", JStr (error this));
      ("message", JStr (message this));
      ("status_code", JNum (statusInteger (statusCode this)));
      ("timestamp", JStr (JsDate.toISOString now)) ]
    (match details this with
     | Some d => [("details", JObj d)]
     | None => []
     end).

(** A predefined subclass: [super(code, message, label, details)] and
    then [this.name = className]. *)
Definition subclass (className : string) (code : HttpStatusCode) (label : string)
    (msg : string) (dts : option JsObject) : HttpException :=
  let h := newHttpException code msg (Some label) dts in
  mkHttpException className (statusCode h) (message h) (error h) (details h).

(** A parameter with a default value: [undefined] selects the default. *)
Definition orDefault (dflt : string) (arg : option string) : string :=
  match arg with Some s => s | None => dflt end.

Definition BadRequestError (message : string) (details : option JsObject) :=
  subclass "BadRequestError" SC400 "Bad Request" message details.
Definition UnauthorizedError (message : option string) (details : option JsObject) :=
  subclass "UnauthorizedError" SC401 "Unauthorized" (orDefault "Unauthorized" message) details.
Definition ForbiddenError (message : option string) (details : option JsObject) :=
  subclass "ForbiddenError" SC403 "Forbidden" (orDefault "Forbidden" message) details.
Definition NotFoundError (message : option string) (details : option JsObject) :=
  subclass "NotFoundError" SC404 "Not Found" (orDefault "Resource not found" message) details.
Definition ConflictError (message : string) (details : option JsObject) :=
  subclass "ConflictError" SC409 "Conflict" message details.
Definition UnprocessableEntityError (message : string) (details : option JsObject) :=
  subclass "UnprocessableEntityError" SC422 "Unprocessable Entity" message details.
Definition TooManyRequestsError (message : option string) (details : option JsObject) :=
  subclass "TooManyRequestsError" SC429 "Too Many Requests"
    (orDefault "Too many requests" message) details.
Definition InternalServerError (message : option string) (details : option JsObject) :=
  subclass "InternalServerError" SC500 "Internal Server Error"
    (orDefault "Internal server error" message) details.
Definition BadGatewayError (message : option string) (details : option JsObject) :=
  subclass "BadGatewayError" SC502 "Bad Gateway" (orDefault "Bad gateway" message) details.
Definition ServiceUnavailableError (message : option string) (details : option JsObject) :=
  subclass "ServiceUnavailableError" SC503 "Service Unavailable"
    (orDefault "Service unavailable" message) details.
Definition GatewayTimeoutError (message : option string) (details : option JsObject) :=
  subclass "GatewayTimeoutError" SC504 "Gateway Timeout"
    (orDefault "Gateway timeout" message) details.

(** The module-level function [getDefaultErrorName], which has a table
    of its own, written out a second time. *)
Definition moduleErrorNames (statusCode : HttpStatusCode) : string :=
  match statusCode with
  | SC400 => "Bad Request"
  | SC401 => "Unauthorized"
  | SC403 => "Forbidden"
  | SC404 => "Not Found"
  | SC405 => "Method Not Allowed"
  | SC409 => "Conflict"
  | SC422 => "Unprocessable Entity"
  | SC429 => "Too Many Requests"
  | SC500 => "Internal Server Error"
  | SC502 => "Bad Gateway"
  | SC503 => "Service Unavailable"
  | SC504 => "Gateway Timeout"
  end.

Definition moduleGetDefaultErrorName (statusCode : HttpStatusCode) : string :=
  strOr (moduleErrorNames statusCode) "Unknown Error".

(** [createErrorResponse], which calls the module-level function. *)
Definition createErrorResponse (now : JsDate.TimeValue) (statusCode : HttpStatusCode)
    (message : string) (error : option string) (details : option JsObject) : JsObject :=
  Js.spread
    [ ("error", JStr (match error with
                      | Some e => strOr e (moduleGetDefaultErrorName statusCode)
                      | None => moduleGetDefaultErrorName statusCode
                      end));
      ("message", JStr message);
      ("status_code", JNum (statusInteger statusCode));
      ("timestamp", JStr (JsDate.toISOString now)) ]
    (match details with
     | Some d => [("details", JObj d)]
     | None => []
     end).

(** [error instanceof HttpException]. *)
Definition isHttpException (error : JsValue) : bool :=
  match error with
  | JHttp _ => true
  | _ => false
  end.

(** [toHttpException]: the three branches are [isHttpException(error)],
    [error instanceof Error] and everything else.  In the last one the
    argument [String(error)] is evaluated before the exception is
    built, and what it throws leaves the function. *)
Definition toHttpException (error : JsValue) : Outcome HttpException :=
  match error with
  | JHttp h => Returned h
  | JError e =>
      Returned (InternalServerError (Some (err_message e))
                  (Some [("originalError", JStr (err_name e))]))
  | other =>
      original <- Js.toString other ;;
      Returned (InternalServerError (Some "An unknown error occurred")
                  (Some [("originalError", JStr original)]))
  end.

End HttpErrors.

(* ===================================================================== *)
(** ** [lib/errors/api-error-handler.ts] *)
(* ===================================================================== *)

Module ApiErrorHandler.
Import HttpErrors.

Record NextRequest : Type := mkRequest {
  method : string;
  url : string;
  reqHeaders : list (string * string)
}.

(** A response: its HTTP status, its headers and its body, which for
    [NextResponse.json] is the value that gets serialised. *)
Record NextResponse : Type := mkResponse {
  status : Z;
  resHeaders : list (string * string);
  body : JsValue
}.

(** [NextResponse.json(body, { status })]. *)
Definition NextResponse_json (data : JsValue) (st : Z) : NextResponse :=
  mkResponse st [("content-type", "application/json")] data.

(** [details?.key]. *)
Definition optProp (details : option JsObject) (k : string) : JsValue :=
  match details with
  | Some d => Js.prop k d
  | None => JUndefined
  end.

Definition backendRequestId (httpError : HttpException) : JsValue :=
  Js.or (optProp (details httpError) "requestId")
        (optProp (details httpError) "request_id").

(** [handleApiError].  Nothing here catches what [toHttpException] or
    [String(backendRequestId)] throws. *)
Definition handleApiError (now : JsDate.TimeValue) (error : JsValue)
    (request : option NextRequest) : Outcome NextResponse :=
  httpError <- toHttpException error ;;
  let backendRequestId := backendRequestId httpError in
  let baseResponse := toJSON now httpError in
  errorResponse <-
    (if Js.truthy backendRequestId
     then rid <- Js.toString backendRequestId ;;
          Returned (Js.spread baseResponse [("request_id", JStr rid)])
     else Returned baseResponse) ;;
  Returned (NextResponse_json (JObj errorResponse) (statusNumber (statusCode httpError))).

(** [withErrorHandler(handler)]: the wrapped route handler.  The call of
    [handleApiError] sits in the [catch] block, outside the [try]: what
    it throws rejects the promise the wrapper returns. *)
Definition withErrorHandler (now : JsDate.TimeValue)
    (handler : NextRequest -> Outcome NextResponse) (req : NextRequest)
    : Outcome NextResponse :=
  match handler req with
  | Returned response => Returned response
  | Thrown error => handleApiError now error (Some req)
  end.

Record ValidateOptions : Type := mkOptions {
  requiredMethod : option string;
  requiredBody : option bool;
  requiredHeaders : option (list string)
}.

(** [validateRequest]: returns normally or throws an [HttpException]. *)
Definition validateRequest (req : NextRequest) (options : option ValidateOptions)
    : Outcome unit :=
  match options with
  | Some o =>
      match requiredMethod o with
      | Some required =>
          if negb (String.eqb required "") && negb (String.eqb (method req) required)
          then Thrown (JHttp (newHttpException SC405
                 ("Method " ++ method req ++ " not allowed. Expected " ++ required)
                 (Some "Method Not Allowed") None))
          else Returned tt
      | None => Returned tt
      end
  | None => Returned tt
  end.

End ApiErrorHandler.

(* ===================================================================== *)
(** ** [lib/errors/backend-error-handler.ts] *)
(* ===================================================================== *)

Module BackendErrorHandler.

(** A fetch [Response] as far as the handler looks at it.  [json] is the
    outcome of [await response.json()]: the parsed body, or the
    rejection when the body is not JSON. *)
Record Response : Type := mkResponse {
  status : Z;
  statusText : string;
  headers : list (string * string);
  url : string;
  json : Outcome JsValue
}.

(** [response.ok]: the status is in the range 200 to 299. *)
Definition ok (response : Response) : bool :=
  (200 <=? status response) && (status response <=? 299).

(** [headers.get(name)]: names compare without case, the values of a
    repeated header are joined, and a missing header gives [null]. *)
Definition headers_get (name : string) (hs : list (string * string)) : option string :=
  let wanted := JsString.toLowerCase name in
  match filter (fun kv => String.eqb (JsString.toLowerCase (fst kv)) wanted) hs with
  | [] => None
  | found => Some (JsString.join ", " (map snd found))
  end.

(** [x || undefined] for a [string | null]. *)
Definition orUndefined (x : option string) : JsValue :=
  match x with
  | Some s => if String.eqb s "" then JUndefined else JStr s
  | None => JUndefined
  end.

(** The object built in the [catch] branch. *)
Definition genericError (response : Response) : JsObject :=
  [ ("error", JStr "Unknown Error");
    ("message", JStr ("HTTP " ++ JsString.ofZ (status response) ++ ": " ++ statusText response));
    ("request_id", orUndefined (headers_get "X-Request-ID" (headers response))) ].

(** [parseBackendErrorResponse]: [Some o] is the returned record,
    [None] is [null]. *)
Definition parseBackendErrorResponse (response : Response) : Outcome (option JsObject) :=
  if negb (ok response) then
    Exc.tryCatch
      (data <- json response ;;
       e <- Js.getProp data "error" ;;
       if Js.truthy e then
         m <- Js.getProp data "message" ;;
         if Js.truthy m then
           e' <- Js.getProp data "error" ;;
           m' <- Js.getProp data "message" ;;
           r <- Js.getProp data "request_id" ;;
           t <- Js.getProp data "timestamp" ;;
           d <- Js.getProp data "details" ;;
           Returned (Some [ ("error", e'); ("message", m'); ("request_id", r);
                            ("timestamp", t); ("details", d) ])
         else Returned None
       else Returned None)
      (fun _ => Returned (Some (genericError response)))
  else Returned None.

(** [handleBackendErrorResponse]: parsing, then logging when there is
    something to log; the log does not change the result. *)
Definition handleBackendErrorResponse (response : Response) (context : option JsObject)
    : Outcome (option JsObject) :=
  errorResponse <- parseBackendErrorResponse response ;;
  Returned errorResponse.

(** [new Error(message)]: no [message] when the argument is
    [undefined], its [String] otherwise. *)
Definition newError (msg : JsValue) : Outcome ErrorObject :=
  match msg with
  | JUndefined => Returned (mkError "Error" "" [])
  | _ => text <- Js.toString msg ;; Returned (mkError "Error" text [])
  end.

(** [createClientErrorFromBackend]: the error is built first and the
    two properties are then assigned to it. *)
Definition createClientErrorFromBackend (backendError : JsObject) : Outcome JsValue :=
  e <- newError (Js.prop "message" backendError) ;;
  Returned (JError (mkError (err_name e) (err_message e)
              [ ("backendError", JObj backendError);
                ("requestId", Js.prop "request_id" backendError) ])).

End BackendErrorHandler.

(* ===================================================================== *)
(** ** [app/api/copilotkit/route.ts] *)
(* ===================================================================== *)

Module Route.
Import HttpErrors ApiErrorHandler.

(** [/\{[\s\S]*\}/]: from the first opening brace to the last closing
    brace after it. *)
Fixpoint upToLastBrace (s : string) : option string :=
  match s with
  | EmptyString => None
  | String c rest =>
      match upToLastBrace rest with
      | Some t => Some (String c t)
      | None => if Ascii.eqb c "}" then Some (String c "") else None
      end
  end.

Fixpoint matchJsonBlock (s : string) : option string :=
  match s with
  | EmptyString => None
  | String c rest =>
      if Ascii.eqb c "{" then
        match upToLastBrace rest with
        | Some t => Some (String c t)
        | None => matchJsonBlock rest
        end
      else matchJsonBlock rest
  end.

(** The request-id pattern of the route, ignoring case: the word
    request_id, an optional quote, white space, a colon, white space, an
    optional quote, and then the captured run of one or more characters
    that are neither a quote, white space nor a closing brace. *)
Definition doubleQuote : ascii := ascii_of_nat 34.

Definition isQuote (c : ascii) : bool :=
  Ascii.eqb c doubleQuote || Ascii.eqb c "'".

Definition skipQuote (s : string) : string :=
  match s with
  | String c rest => if isQuote c then rest else s
  | EmptyString => s
  end.

Definition isIdChar (c : ascii) : bool :=
  negb (isQuote c || JsString.isWhiteSpace c || Ascii.eqb c "}").

Fixpoint takeId (s : string) : string :=
  match s with
  | String c rest => if isIdChar c then String c (takeId rest) else ""
  | EmptyString => ""
  end.

Definition requestIdAt (s : string) : option string :=
  if String.eqb (JsString.toLowerCase (substring 0 10 s)) "request_id" then
    match JsString.trimStart (skipQuote (substring 10 (String.length s - 10) s)) with
    | String ":" rest =>
        match takeId (skipQuote (JsString.trimStart rest)) with
        | EmptyString => None
        | id => Some id
        end
    | _ => None
    end
  else None.

Fixpoint matchRequestId (s : string) : option string :=
  match requestIdAt s with
  | Some id => Some id
  | None =>
      match s with
      | EmptyString => None
      | String _ rest => matchRequestId rest
      end
  end.

Section WithEnvironment.

(** [process.env.AGENT_URL]. *)
Variable AGENT_URL : option string.
(** [JSON.parse]. *)
Variable JSON_parse : string -> Outcome JsValue.
(** [handleRequest] of the CopilotKit endpoint. *)
Variable handleRequest : NextRequest -> Outcome NextResponse.

Definition agentUrl : string :=
  match AGENT_URL with
  | Some u => strOr u "http://localhost:8123"
  | None => "http://localhost:8123"
  end.

(** The error both the inner [catch] and the [else] branch throw. *)
Definition backendServiceError (msg : string) : JsValue :=
  JHttp (InternalServerError
           (Some "Backend service error. Please check backend logs for details.")
           (Some [ ("originalError", JStr msg);
                   ("requestId", match matchRequestId msg with
                                 | Some id => JStr id
                                 | None => JUndefined
                                 end) ])).

(** What [error instanceof Error] exposes: the message and the
    [backendError] property. *)
Definition asError (error : JsValue) : option (string * JsValue) :=
  match error with
  | JError e => Some (err_message e, Js.prop "backendError" (err_props e))
  | JHttp h => Some (message h, JUndefined)
  | _ => None
  end.

(** The [catch] block of the route: it always throws. *)
Definition onHandlerError (error : JsValue) : Outcome NextResponse :=
  match asError error with
  | Some (msg, backendError) =>
      if Js.truthy backendError then Thrown error
      else if JsString.includes msg "ECONNREFUSED" || JsString.includes msg "connect" then
        Thrown (JHttp (ServiceUnavailableError
          (Some "Unable to connect to the code review agent. Please ensure the backend service is running.")
          (Some [("agentUrl", JStr agentUrl)])))
      else if JsString.includes msg "timeout" then
        Thrown (JHttp (BadGatewayError
          (Some "Request to code review agent timed out. Please try again.")
          (Some [("timeout", JBool true)])))
      else if JsString.includes msg "HTTP 500"
              || JsString.includes msg "Internal server error"
              || JsString.includes msg "HTTP" then
        match matchJsonBlock msg with
        | Some jsonText =>
            Exc.tryCatch
              (parsed <- JSON_parse jsonText ;;
               rid <- Js.getProp parsed "request_id" ;;
               err <- Js.getProp parsed "error" ;;
               bmsg <- Js.getProp parsed "message" ;;
               dts <- Js.getProp parsed "details" ;;
               text <- Js.toString (Js.or bmsg (JStr "Backend service error occurred")) ;;
               Thrown (JHttp (InternalServerError (Some text)
                 (Some [ ("backendError", err); ("requestId", rid);
                         ("details", dts); ("originalError", JStr msg) ]))))
              (fun parseError => Thrown (backendServiceError msg))
        | None => Thrown (backendServiceError msg)
        end
      else Thrown error
  | None => Thrown error
  end.

Definition routeHandler (req : NextRequest) : Outcome NextResponse :=
  Exc.tryCatch (handleRequest req) onHandlerError.

(** [export const POST = withErrorHandler(...)]. *)
Definition POST (now : JsDate.TimeValue) (req : NextRequest) : Outcome NextResponse :=
  withErrorHandler now routeHandler req.

End WithEnvironment.

End Route.

(* ===================================================================== *)
(** ** The four-stage analysis pipeline *)
(* ===================================================================== *)

Module Pipeline.

(** Modelled from the spec: the data model of section 3.  The backend
    package that defines the run state is not among the sources. *)
Record CodeArtifact : Type := mkCode {
  text : string;
  declared_language : option string
}.

Inductive Severity : Type := critical | major | minor.

Record Finding : Type := mkFinding {
  kind : string;
  severity : Severity;
  line : Z;
  finding_message : string;
  suggested_fix : option string
}.

Record Complexity : Type := mkComplexity {
  line_count : Z;
  max_nesting_depth : Z;
  loop_count : Z;
  conditional_count : Z
}.

Record StructuralSummary : Type := mkSummary {
  imports : list string;
  functions : list string;
  classes : list string;
  complexity : Complexity
}.

Inductive StageName : Type := Entry | Validation | Analysis | Summary.

Inductive Status : Type := done | failed | skipped.

Inductive RunError : Type :=
| InputError (msg : string)
| UpstreamError (msg : string)
| InternalError (msg : string).

Record StageResult : Type := mkResult {
  stage_name : StageName;
  status : Status;
  findings : option (list Finding);
  structure : option StructuralSummary;
  narrative : option string;
  stage_error : option RunError
}.

Record PipelineRun : Type := mkRun {
  id : string;
  created_at : Z;
  code : option CodeArtifact;
  stage_results : list StageResult;
  terminal_error : option RunError
}.

(** Modelled from the spec: the inbound request of section 4.1 (the
    Entry stage that reads it is not among the sources). *)
Record Request : Type := mkRequest {
  request_id : string;
  received_at : Z;
  user_message : string;
  code_context : option string;
  language : option string
}.

(** Modelled from the spec: what a run does to the outside, which the
    missing stages would do through their tools and model client: a stage
    starting, a call of a declared tool, a call of the reasoning model. *)
Inductive Event : Type :=
| StageStarted (s : StageName)
| ToolCall (s : StageName) (tool : string)
| ModelCall (s : StageName).

Definition isToolCall (e : Event) : bool :=
  match e with ToolCall _ _ => true | _ => false end.
Definition isModelCall (e : Event) : bool :=
  match e with ModelCall _ => true | _ => false end.

(** The stages that were executed, in the order they started. *)
Definition startedStages (tr : list Event) : list StageName :=
  flat_map (fun e => match e with StageStarted s => [s] | _ => [] end) tr.

(** Modelled from the spec: the states of the run orchestrator of
    section 4.7. *)
Inductive RunState : Type :=
| pending | extracting | validating | analyzing | summarizing
| completed | run_failed.

Definition pipelineOrder : list StageName := [Entry; Validation; Analysis; Summary].

Definition stages_after (s : StageName) : list StageName :=
  match s with
  | Entry => [Validation; Analysis; Summary]
  | Validation => [Analysis; Summary]
  | Analysis => [Summary]
  | Summary => []
  end.

Definition stages_before (s : StageName) : list StageName :=
  match s with
  | Entry => []
  | Validation => [Entry]
  | Analysis => [Entry; Validation]
  | Summary => [Entry; Validation; Analysis]
  end.

Definition state_after (s : StageName) : RunState :=
  match s with
  | Entry => validating
  | Validation => analyzing
  | Analysis => summarizing
  | Summary => completed
  end.

Record Config : Type := mkConfig {
  state : RunState;
  run : PipelineRun;
  trace : list Event
}.

(** What one stage hands back to the orchestrator: its result, the code
    artifact when it extracted one, and what it did. *)
Record StageOutcome : Type := mkOutcome {
  result : StageResult;
  extracted : option CodeArtifact;
  events : list Event
}.

Definition skippedResult (s : StageName) : StageResult :=
  mkResult s skipped None None None None.

Definition wasExecuted (r : StageResult) : bool :=
  match status r with skipped => false | _ => true end.

Section Stages.

(** How the code is located in the request (message or shared
    context) is left open by the specification. *)
Variable extract : Request -> string.
(** Validation tools: parse and all heuristic detectors, the findings
    ordered by line and severity. *)
Variable run_checks : CodeArtifact -> list Finding.
(** Analysis tools: structural extraction. *)
Variable extract_structure : CodeArtifact -> StructuralSummary.
(** One reasoning-model call; [None] when it timed out or the service
    was unavailable. *)
Variable reason : StageName -> PipelineRun -> option string.

(** Modelled from the spec: the Entry stage of section 4.1. *)
Definition entryStage (req : Request) : StageOutcome :=
  let trimmed := JsString.trim (extract req) in
  if String.eqb trimmed "" then
    mkOutcome
      (mkResult Entry failed None None None (Some (InputError "no code provided")))
      None [StageStarted Entry]
  else
    mkOutcome (mkResult Entry done None None None None)
      (Some (mkCode trimmed (language req))) [StageStarted Entry].

(** Modelled from the spec: the Validation stage of section 4.4; a
    failed model call leaves the findings and drops the narrative. *)
Definition validationStage (r : PipelineRun) : StageOutcome :=
  match code r with
  | Some c =>
      mkOutcome
        (mkResult Validation done (Some (run_checks c)) None (reason Validation r) None)
        None
        [StageStarted Validation; ToolCall Validation "parse";
         ToolCall Validation "heuristic_checks"; ModelCall Validation]
  | None =>
      mkOutcome
        (mkResult Validation failed None None None (Some (InternalError "no code artifact")))
        None [StageStarted Validation]
  end.

(** Modelled from the spec: the Analysis stage of section 4.5. *)
Definition analysisStage (r : PipelineRun) : StageOutcome :=
  match code r with
  | Some c =>
      mkOutcome
        (mkResult Analysis done None (Some (extract_structure c)) (reason Analysis r) None)
        None
        [StageStarted Analysis; ToolCall Analysis "extract_structure"; ModelCall Analysis]
  | None =>
      mkOutcome
        (mkResult Analysis failed None None None (Some (InternalError "no code artifact")))
        None [StageStarted Analysis]
  end.

(** Modelled from the spec: the Summary stage of sections 4.6 and 5;
    no tools, and a failed model call fails the run. *)
Definition summaryStage (r : PipelineRun) : StageOutcome :=
  match reason Summary r with
  | Some n =>
      mkOutcome (mkResult Summary done None None (Some n) None)
        None [StageStarted Summary; ModelCall Summary]
  | None =>
      mkOutcome
        (mkResult Summary failed None None None
           (Some (UpstreamError "summary could not be generated")))
        None [StageStarted Summary; ModelCall Summary]
  end.

Definition executeStage (s : StageName) (req : Request) (r : PipelineRun) : StageOutcome :=
  match s with
  | Entry => entryStage req
  | Validation => validationStage r
  | Analysis => analysisStage r
  | Summary => summaryStage r
  end.

(** Modelled from the spec: the transition rule of section 4.7.  A
    stage that succeeds appends its result and the run advances; a
    stage that ends in an unrecoverable error appends its failed
    result, sets [terminal_error], and the remaining stages are
    recorded as skipped without being executed. *)
Definition runStage (s : StageName) (req : Request) (c : Config) : Config :=
  let o := executeStage s req (run c) in
  let r := run c in
  let newCode := match extracted o with Some a => Some a | None => code r end in
  match stage_error (result o) with
  | Some err =>
      mkConfig run_failed
        (mkRun (id r) (created_at r) newCode
           (stage_results r ++ result o :: map skippedResult (stages_after s))
           (Some err))
        (trace c ++ events o)
  | None =>
      mkConfig (state_after s)
        (mkRun (id r) (created_at r) newCode (stage_results r ++ [result o])
           (terminal_error r))
        (trace c ++ events o)
  end.

(** Modelled from the spec: one transition of the missing orchestrator,
    following the state sequence of section 4.7. *)
Definition step (req : Request) (c : Config) : Config :=
  match state c with
  | pending => mkConfig extracting (run c) (trace c)
  | extracting => runStage Entry req c
  | validating => runStage Validation req c
  | analyzing => runStage Analysis req c
  | summarizing => runStage Summary req c
  | completed | run_failed => c
  end.

(** Modelled from the spec: the run record created at request entry
    (section 3, lifecycle). *)
Definition initial (req : Request) : Config :=
  mkConfig pending (mkRun (request_id req) (received_at req) None [] None) [].

Fixpoint steps (n : nat) (req : Request) (c : Config) : Config :=
  match n with
  | O => c
  | S n' => steps n' req (step req c)
  end.

(** Modelled from the spec: a whole run of the missing orchestrator.
    Five transitions take a run from [pending] to a terminal state. *)
Definition orchestrate (req : Request) : Config := steps 5 req (initial req).

End Stages.

Definition isTerminal (s : RunState) : bool :=
  match s with completed | run_failed => true | _ => false end.

(** The number of transitions a state is away from a terminal one. *)
Definition rank (st : RunState) : nat :=
  match st with
  | pending => 5 | extracting => 4 | validating => 3
  | analyzing => 2 | summarizing => 1 | completed | run_failed => 0
  end.

(** The stages the orchestrator has dealt with when in a given state. *)
Definition processed (st : RunState) : list StageName :=
  match st with
  | pending | extracting => []
  | validating => [Entry]
  | analyzing => [Entry; Validation]
  | summarizing => [Entry; Validation; Analysis]
  | completed | run_failed => pipelineOrder
  end.

(** The invariant of the orchestrator: one result per processed stage,
    in pipeline order; the executed stages are those whose result is
    not [skipped]; [terminal_error] is set exactly in state
    [run_failed]. *)
Definition Inv (c : Config) : Prop :=
  map stage_name (stage_results (run c)) = processed (state c)
  /\ map stage_name (filter wasExecuted (stage_results (run c))) = startedStages (trace c)
  /\ (state c <> run_failed ->
        startedStages (trace c) = processed (state c) /\ terminal_error (run c) = None)
  /\ (state c = run_failed ->
        terminal_error (run c) <> None
        /\ exists rest, (startedStages (trace c) ++ rest)%list = pipelineOrder).

(** The statuses that go with it: while the run has not failed every
    result is [done]; in a failed run the stages before the failing one
    are [done], the failing one is [failed] and the last that started,
    and those after it are [skipped]. *)
Definition statusesOk (c : Config) : Prop :=
  (state c <> run_failed ->
     map status (stage_results (run c)) = map (fun _ => done) (processed (state c)))
  /\ (state c = run_failed ->
        exists s,
          startedStages (trace c) = (stages_before s ++ [s])%list
          /\ map status (stage_results (run c))
             = (map (fun _ => done) (stages_before s)
                ++ failed :: map (fun _ => skipped) (stages_after s))%list).

End Pipeline.

(* ===================================================================== *)
(** ** Concrete inputs used by the examples below *)
(* ===================================================================== *)

Module Samples.
Import ApiErrorHandler.

(** 14 November 2023, 22:13:20 UTC. *)
Definition clock : JsDate.TimeValue := JsDate.mkTime 1700000000000 eq_refl.

Definition postRequest : NextRequest := mkRequest "POST" "/api/copilotkit" [].
Definition getRequest : NextRequest := mkRequest "GET" "/api/copilotkit" [].

Definition okResponse : NextResponse := NextResponse_json (JObj [("data", JStr "ok")]) 200.

(** A route that insists on POST before answering. *)
Definition postOnly (req : NextRequest) : Outcome NextResponse :=
  _ <- validateRequest req (Some (mkOptions (Some "POST") None None)) ;;
  Returned okResponse.

(** Errors of the kinds the network layer raises. *)
Definition connectionRefused : JsValue :=
  JError (mkError "Error" "connect ECONNREFUSED 127.0.0.1:8123" []).
Definition hostUnreachable : JsValue :=
  JError (mkError "Error" "connect EHOSTUNREACH 10.0.0.5:8123" []).
Definition timedOut : JsValue :=
  JError (mkError "FetchError" "network timeout at: http://localhost:8123/explain" []).

Definition noJson (text : string) : Outcome JsValue :=
  Thrown (JError (mkError "SyntaxError" "Unexpected token" [])).

Definition one : SafeInteger := mkSafeInteger 1 eq_refl.
Definition fortyTwo : SafeInteger := mkSafeInteger 42 eq_refl.

(** A plain object with one own property, [toString], which holds the
    number 1: what [JSON.parse] makes of an object literal with that one
    member.  Its own [toString] is not a function. *)
Definition unprintable : JsValue := JObj [("toString", JNum one)].

(** A pipeline whose code is the user message, whose tools find
    nothing and whose reasoning model is down. *)
Definition extractMessage (req : Pipeline.Request) : string := Pipeline.user_message req.
Definition noFindings (c : Pipeline.CodeArtifact) : list Pipeline.Finding := [].
Definition emptyStructure (c : Pipeline.CodeArtifact) : Pipeline.StructuralSummary :=
  Pipeline.mkSummary [] [] [] (Pipeline.mkComplexity 0 0 0 0).
Definition modelDown (s : Pipeline.StageName) (r : Pipeline.PipelineRun) : option string :=
  None.
Definition modelUp (s : Pipeline.StageName) (r : Pipeline.PipelineRun) : option string :=
  Some "Looks fine.".

Definition blankRequest : Pipeline.Request :=
  Pipeline.mkRequest "run-1" 1700000000000 "    " None (Some "python").
Definition codeRequest : Pipeline.Request :=
  Pipeline.mkRequest "run-2" 1700000000000 "print(1)" None (Some "python").

End Samples.

(* ===================================================================== *)
(** ** [app/page.tsx]: the file tree *)
(* ===================================================================== *)

Module FileTree.

Inductive NodeType : Type := file | folder.

(** [FileNode] of [types/index.ts]; [children] and [content] are
    optional. *)
#[warnings="-register-all"] Inductive FileNode : Type :=
| mkFileNode (id : string) (name : string) (type : NodeType)
    (children : option (list FileNode)) (content : option string).

Definition node_id (n : FileNode) : string :=
  match n with mkFileNode id _ _ _ _ => id end.
Definition node_name (n : FileNode) : string :=
  match n with mkFileNode _ name _ _ _ => name end.
Definition node_type (n : FileNode) : NodeType :=
  match n with mkFileNode _ _ type _ _ => type end.
Definition node_children (n : FileNode) : option (list FileNode) :=
  match n with mkFileNode _ _ _ children _ => children end.
Definition node_content (n : FileNode) : option string :=
  match n with mkFileNode _ _ _ _ content => content end.

(** The loop [for (const x of l) { const r = f(x); if (r) return r; }
    return null]. *)
Definition firstSome {A B : Type} (f : A -> option B) : list A -> option B :=
  fix go (l : list A) : option B :=
    match l with
    | [] => None
    | x :: rest =>
        match f x with
        | Some y => Some y
        | None => go rest
        end
    end.

(** One turn of the loop of [findFile]. *)
Fixpoint findInNode (id : string) (node : FileNode) : option FileNode :=
  match node with
  | mkFileNode nid _ _ children _ =>
      if String.eqb nid id then Some node
      else match children with
           | Some l => firstSome (findInNode id) l
           | None => None
           end
  end.

Definition findFile (nodes : list FileNode) (id : string) : option FileNode :=
  firstSome (findInNode id) nodes.

(** The callback of [updateFileContent]. *)
Fixpoint updateContentIn (id newContent : string) (node : FileNode) : FileNode :=
  match node with
  | mkFileNode nid name type children content =>
      if String.eqb nid id then mkFileNode nid name type children (Some newContent)
      else match children with
           | Some l => mkFileNode nid name type (Some (map (updateContentIn id newContent) l)) content
           | None => node
           end
  end.

Definition updateFileContent (nodes : list FileNode) (id newContent : string) : list FileNode :=
  map (updateContentIn id newContent) nodes.

(** The callback of [renameNode]. *)
Fixpoint renameIn (id newName : string) (node : FileNode) : FileNode :=
  match node with
  | mkFileNode nid name type children content =>
      if String.eqb nid id then mkFileNode nid newName type children content
      else match children with
           | Some l => mkFileNode nid name type (Some (map (renameIn id newName) l)) content
           | None => node
           end
  end.

Definition renameNode (nodes : list FileNode) (id newName : string) : list FileNode :=
  map (renameIn id newName) nodes.

Definition isFolder (t : NodeType) : bool :=
  match t with folder => true | file => false end.

(** The callback of [addChildNode]; [node.children || []] is the list of
    children or the empty list. *)
Fixpoint addChildIn (parentId : string) (newNode : FileNode) (node : FileNode) : FileNode :=
  match node with
  | mkFileNode nid name type children content =>
      if String.eqb nid parentId && isFolder type then
        mkFileNode nid name type
          (Some (match children with Some l => l | None => [] end ++ [newNode])%list) content
      else match children with
           | Some l => mkFileNode nid name type (Some (map (addChildIn parentId newNode) l)) content
           | None => node
           end
  end.

Definition addChildNode (nodes : list FileNode) (parentId : string) (newNode : FileNode)
    : list FileNode :=
  map (addChildIn parentId newNode) nodes.

(** [deleteNode]: [filter] and [map] in one pass over the list, the
    form in which the recursion is structural;
    [deleteNode_filter_map] below shows it is the composition the
    source writes. *)
Fixpoint deleteIn (id : string) (node : FileNode) : FileNode :=
  match node with
  | mkFileNode nid name type children content =>
      mkFileNode nid name type
        (match children with
         | Some l =>
             Some ((fix go (l : list FileNode) : list FileNode :=
                      match l with
                      | [] => []
                      | n :: rest =>
                          if negb (String.eqb (node_id n) id) then deleteIn id n :: go rest
                          else go rest
                      end) l)
         | None => None
         end)
        content
  end.

Definition deleteNode (nodes : list FileNode) (id : string) : list FileNode :=
  map (deleteIn id) (filter (fun n => negb (String.eqb (node_id n) id)) nodes).

(** All nodes of a forest, parents before children. *)
Fixpoint nodesOf (node : FileNode) : list FileNode :=
  node :: match node_children node with
          | Some l => flat_map nodesOf l
          | None => []
          end.

Definition allNodes (nodes : list FileNode) : list FileNode := flat_map nodesOf nodes.

Definition allIds (nodes : list FileNode) : list string := map node_id (allNodes nodes).

(** [{...node, content: newContent}] and [{...node, name: newName}]. *)
Definition withContent (newContent : string) (n : FileNode) : FileNode :=
  mkFileNode (node_id n) (node_name n) (node_type n) (node_children n) (Some newContent).

Definition withName (newName : string) (n : FileNode) : FileNode :=
  mkFileNode (node_id n) newName (node_type n) (node_children n) (node_content n).

(** A node without its children. *)
Definition nodeLabel (n : FileNode) : string * string * NodeType * option string :=
  (node_id n, node_name n, node_type n, node_content n).

(** Some folder of the forest has the given id. *)
Definition hasFolder (id : string) (nodes : list FileNode) : bool :=
  existsb (fun n => String.eqb (node_id n) id && isFolder (node_type n)) (allNodes nodes).

(** *** Tabs and projects *)

Inductive ViewMode : Type := editor | readme | issues.

Record Project : Type := mkProject {
  project_id : string;
  project_name : string
}.

(** The part of the component state the file handlers read and write. *)
Record FilesState : Type := mkFilesState {
  projects : list Project;
  activeProjectId : string;
  projectFilesMap : list (string * list FileNode);
  files : list FileNode;
  openFiles : list FileNode;
  selectedFileId : string;
  viewMode : ViewMode
}.

(** [map[k]] and [{...map, [k]: v}] on a [Record<string, FileNode[]>]. *)
Fixpoint map_get (k : string) (m : list (string * list FileNode)) : option (list FileNode) :=
  match m with
  | [] => None
  | (k', v) :: rest => if String.eqb k k' then Some v else map_get k rest
  end.

Fixpoint map_set (k : string) (v : list FileNode) (m : list (string * list FileNode))
    : list (string * list FileNode) :=
  match m with
  | [] => [(k, v)]
  | (k', v') :: rest =>
      if String.eqb k k' then (k, v) :: rest else (k', v') :: map_set k v rest
  end.

Definition handleSwitchProject (projectId : string) (s : FilesState) : FilesState :=
  if String.eqb projectId (activeProjectId s) then s
  else
    let newMap := map_set (activeProjectId s) (files s) (projectFilesMap s) in
    let nextFiles := match map_get projectId newMap with Some f => f | None => [] end in
    mkFilesState (projects s) projectId newMap nextFiles [] "" editor.

Definition handleRenameProject (projectId newName : string) (s : FilesState) : FilesState :=
  mkFilesState
    (map (fun p => if String.eqb (project_id p) projectId
                   then mkProject (project_id p) newName else p) (projects s))
    (activeProjectId s) (projectFilesMap s) (files s) (openFiles s)
    (selectedFileId s) (viewMode s).

Definition updateFiles (newFiles : list FileNode) (s : FilesState) : FilesState :=
  mkFilesState (projects s) (activeProjectId s)
    (map_set (activeProjectId s) newFiles (projectFilesMap s))
    newFiles (openFiles s) (selectedFileId s) (viewMode s).

Definition handleRenameNode (id newName : string) (s : FilesState) : FilesState :=
  updateFiles (renameNode (files s) id newName) s.

(** [Date.now()] is the argument [now]. *)
Definition handleCreateNode (now : Z) (parentId : string) (type : NodeType) (s : FilesState)
    : FilesState :=
  let newNode :=
    mkFileNode (JsString.ofZ now)
      (match type with file => "new_file.py" | folder => "new_folder" end)
      type
      (match type with folder => Some [] | file => None end)
      (match type with file => Some "" | folder => None end) in
  updateFiles (addChildNode (files s) parentId newNode) s.

Definition handleDeleteNode (id : string) (s : FilesState) : FilesState :=
  let newFiles := deleteNode (files s) id in
  mkFilesState (projects s) (activeProjectId s)
    (map_set (activeProjectId s) newFiles (projectFilesMap s))
    newFiles
    (filter (fun f => negb (String.eqb (node_id f) id)) (openFiles s))
    (if String.eqb (selectedFileId s) id then "" else selectedFileId s)
    (viewMode s).

Definition handleSelectFile (f : FileNode) (s : FilesState) : FilesState :=
  if String.eqb (JsString.toLowerCase (node_name f)) "readme.md" then
    mkFilesState (projects s) (activeProjectId s) (projectFilesMap s) (files s)
      (openFiles s) (selectedFileId s) readme
  else
    mkFilesState (projects s) (activeProjectId s) (projectFilesMap s) (files s)
      (if existsb (fun o => String.eqb (node_id o) (node_id f)) (openFiles s)
       then openFiles s else (openFiles s ++ [f])%list)
      (node_id f) editor.

Definition handleCloseTab (fileId : string) (s : FilesState) : FilesState :=
  let newOpenFiles := filter (fun f => negb (String.eqb (node_id f) fileId)) (openFiles s) in
  mkFilesState (projects s) (activeProjectId s) (projectFilesMap s) (files s)
    newOpenFiles
    (if String.eqb (selectedFileId s) fileId then
       match last (map Some newOpenFiles) None with
       | Some f => node_id f
       | None => ""
       end
     else selectedFileId s)
    (viewMode s).

(** The selected tab is one of the open tabs, or there is none. *)
Definition selectionOpen (s : FilesState) : Prop :=
  selectedFileId s = "" \/ In (selectedFileId s) (map node_id (openFiles s)).

End FileTree.

(* ===================================================================== *)
(** ** [app/page.tsx]: the issue tracker *)
(* ===================================================================== *)

Module IssueTracker.

Inductive IssueStatus : Type := open | closed.
Inductive IssueViewMode : Type := list_view | create_view | detail_view.

Record Comment : Type := mkComment {
  comment_id : string;
  comment_author : string;
  content : string;
  comment_createdAt : Z;
  isDescription : option bool
}.

Record Issue : Type := mkIssue {
  issue_id : Z;
  title : string;
  issue_status : IssueStatus;
  comments : list Comment;
  issue_createdAt : Z;
  issue_author : string
}.

(** The part of the component state the issue handlers read and write. *)
Record IssuesState : Type := mkIssuesState {
  issues : list Issue;
  issueViewMode : IssueViewMode;
  selectedIssueId : option Z;
  editingIssueId : option Z;
  tempIssueTitle : string;
  newIssueTitle : string;
  newIssueBody : string;
  newCommentBody : string
}.

(** [!s.trim()]. *)
Definition isBlank (s : string) : bool := String.eqb (JsString.trim s) "".

(** [handleCreateIssue]; [now] is the clock. *)
Definition handleCreateIssue (now : Z) (s : IssuesState) : IssuesState :=
  if isBlank (newIssueTitle s) then s
  else
    let newId := Z.of_nat (List.length (issues s)) + 1 in
    let newIssue :=
      mkIssue newId (newIssueTitle s) open
        [mkComment (JsString.ofZ now) "user" (newIssueBody s) now (Some true)]
        now "user" in
    mkIssuesState (newIssue :: issues s) list_view (selectedIssueId s) (editingIssueId s)
      (tempIssueTitle s) "" "" (newCommentBody s).

Definition handleAddComment (now : Z) (s : IssuesState) : IssuesState :=
  match selectedIssueId s with
  | Some selected =>
      if isBlank (newCommentBody s) then s
      else
        mkIssuesState
          (map (fun issue =>
                  if issue_id issue =? selected then
                    mkIssue (issue_id issue) (title issue) (issue_status issue)
                      (comments issue
                         ++ [mkComment (JsString.ofZ now) "user" (newCommentBody s) now None])%list
                      (issue_createdAt issue) (issue_author issue)
                  else issue)
               (issues s))
          (issueViewMode s) (selectedIssueId s) (editingIssueId s) (tempIssueTitle s)
          (newIssueTitle s) (newIssueBody s) ""
  | None => s
  end.

Definition startEditingIssueTitle (issue : Issue) (s : IssuesState) : IssuesState :=
  mkIssuesState (issues s) (issueViewMode s) (selectedIssueId s) (Some (issue_id issue))
    (title issue) (newIssueTitle s) (newIssueBody s) (newCommentBody s).

(** [saveIssueTitle]: an editing id of 0 is falsy, like [null]. *)
Definition saveIssueTitle (s : IssuesState) : IssuesState :=
  match editingIssueId s with
  | Some editing =>
      if negb (editing =? 0) && negb (isBlank (tempIssueTitle s)) then
        mkIssuesState
          (map (fun i =>
                  if issue_id i =? editing then
                    mkIssue (issue_id i) (tempIssueTitle s) (issue_status i) (comments i)
                      (issue_createdAt i) (issue_author i)
                  else i)
               (issues s))
          (issueViewMode s) (selectedIssueId s) None (tempIssueTitle s)
          (newIssueTitle s) (newIssueBody s) (newCommentBody s)
      else s
  | None => s
  end.

Definition cancelEditingIssueTitle (s : IssuesState) : IssuesState :=
  mkIssuesState (issues s) (issueViewMode s) (selectedIssueId s) None ""
    (newIssueTitle s) (newIssueBody s) (newCommentBody s).

(** [issues.find((i) => i.id === selectedIssueId)] of [IssuesView]. *)
Definition selectedIssue (l : list Issue) (selected : option Z) : option Issue :=
  match selected with
  | Some n => find (fun i => issue_id i =? n) l
  | None => None
  end.

(** The numbering the tracker keeps: the newest issue first, ids counting
    down to 1. *)
Fixpoint countdown (n : nat) : list Z :=
  match n with
  | O => []
  | S k => Z.of_nat n :: countdown k
  end.

Definition wellNumbered (l : list Issue) : Prop :=
  map issue_id l = countdown (List.length l).

(** The issue list the page starts with. *)
Definition initialIssues (now : Z) : list Issue :=
  [mkIssue 1 "First Empty Bug" open
     [mkComment "c1" "user" "This is an example bug." now (Some true)] now "user"].

End IssueTracker.

(* ===================================================================== *)
(** ** [components/Toast.tsx] *)
(* ===================================================================== *)

Module Toasts.

Inductive ToastType : Type := error_toast | success_toast | warning_toast | info_toast.

Record Toast : Type := mkToast {
  toast_id : string;
  toast_message : string;
  toast_type : ToastType;
  duration : Z
}.

(** [prev.slice(-4)]: the last four elements, or all when there are
    fewer. *)
Definition lastFour (prev : list Toast) : list Toast :=
  skipn (List.length prev - 4)%nat prev.

(** The state update of [showToast]; [now] is [Date.now()], and the
    defaults of the optional parameters are [info] and 2000. *)
Definition showToast (now : Z) (message : string) (type : option ToastType)
    (dur : option Z) (prev : list Toast) : list Toast :=
  (lastFour prev
     ++ [mkToast (JsString.ofZ now) message
           (match type with Some t => t | None => info_toast end)
           (match dur with Some d => d | None => 2000 end)])%list.

Definition removeToast (id : string) (prev : list Toast) : list Toast :=
  filter (fun t => negb (String.eqb (toast_id t) id)) prev.

Definition showError (now : Z) (message : string) (dur : option Z) (prev : list Toast)
    : list Toast :=
  showToast now message (Some error_toast) (Some (match dur with Some d => d | None => 2000 end)) prev.

End Toasts.

(* ===================================================================== *)
(** ** Further concrete inputs *)
(* ===================================================================== *)

Module MoreSamples.

(** A backend error record as [parseBackendErrorResponse] returns it. *)
Definition backendError : JsObject :=
  [ ("error", JStr "ValidationError");
    ("message", JStr "could not connect to the model");
    ("request_id", JStr "req-42");
    ("timestamp", JUndefined);
    ("details", JUndefined) ].

(** The error [createClientErrorFromBackend] makes of it. *)
Definition clientError : JsValue :=
  JError (mkError "Error" "could not connect to the model"
            [ ("backendError", JObj backendError);
              ("requestId", JStr "req-42") ]).

Definition http500 : ErrorObject :=
  mkError "Error" "HTTP 500: {'error': 'E', 'request_id': 'abc-123'}" [].

Definition fetchFailed : ErrorObject := mkError "TypeError" "fetch failed" [].

(** A small tree in the shape of the one the page starts with. *)
Definition sampleFiles : list FileTree.FileNode :=
  [ FileTree.mkFileNode "root" "src" FileTree.folder
      (Some [ FileTree.mkFileNode "1" "main.py" FileTree.file None
                (Some "print('Hello World')");
              FileTree.mkFileNode "2" "utils.py" FileTree.file None (Some "import os");
              FileTree.mkFileNode "folder-1" "components" FileTree.folder
                (Some [ FileTree.mkFileNode "3" "Button.tsx" FileTree.file None
                          (Some "export default function Button() {}") ])
                None ])
      None;
    FileTree.mkFileNode "4" "README.md" FileTree.file None (Some "# Project Title") ].

Definition newFile : FileTree.FileNode :=
  FileTree.mkFileNode "1700000000000" "new_file.py" FileTree.file None (Some "").

Definition sampleFilesState : FileTree.FilesState :=
  FileTree.mkFilesState
    [FileTree.mkProject "p1" "langgraph-fastapi"; FileTree.mkProject "p2" "react-agent-ui"]
    "p1" [("p1", sampleFiles); ("p2", [])] sampleFiles [] "" FileTree.editor.

(** The page as it starts: no tab is open and file 1 is selected. *)
Definition startState : FileTree.FilesState :=
  FileTree.mkFilesState
    [FileTree.mkProject "p1" "langgraph-fastapi"; FileTree.mkProject "p2" "react-agent-ui"]
    "p1" [("p1", sampleFiles); ("p2", [])] sampleFiles [] "1" FileTree.editor.

(** Two tabs are open and the first one is selected. *)
Definition tabsState : FileTree.FilesState :=
  FileTree.mkFilesState
    [FileTree.mkProject "p1" "langgraph-fastapi"; FileTree.mkProject "p2" "react-agent-ui"]
    "p1" [("p1", sampleFiles); ("p2", [])] sampleFiles
    [ FileTree.mkFileNode "3" "Button.tsx" FileTree.file None
        (Some "export default function Button() {}");
      FileTree.mkFileNode "1" "main.py" FileTree.file None (Some "print('Hello World')") ]
    "1" FileTree.editor.

Definition sampleIssuesState : IssueTracker.IssuesState :=
  IssueTracker.mkIssuesState (IssueTracker.initialIssues 1700000000000)
    IssueTracker.detail_view (Some 1) None "" "Crash on save" "Steps to reproduce"
    "Same here".

End MoreSamples.

(* ===================================================================== *)
(** * Properties *)
(* ===================================================================== *)

(** ** The timestamp is a well-formed ISO-8601 date-time *)

Module DateFacts.
Import JsDate.

Lemma digit_cases (n : Z) :
  In (digit n) ["0"; "1"; "2"; "3"; "4"; "5"; "6"; "7"; "8"; "9"]%char.
Proof.
  unfold digit.
  assert (H : 0 <= n mod 10 < 10) by (apply Z.mod_pos_bound; lia).
  destruct (n mod 10) as [|p|p]; [simpl; tauto | | lia].
  do 9 (destruct p as [p|p|]; try (simpl; tauto); try lia).
Qed.

Lemma digitVal_digit (n : Z) : digitVal (digit n) = Some (n mod 10).
Proof.
  unfold digit.
  assert (H : 0 <= n mod 10 < 10) by (apply Z.mod_pos_bound; lia).
  destruct (n mod 10) as [|p|p]; [reflexivity | | lia].
  do 9 (destruct p as [p|p|]; try reflexivity; try lia).
Qed.

Lemma isDigit_digit (n : Z) : isDigit (digit n) = true.
Proof. unfold isDigit. now rewrite digitVal_digit. Qed.

Lemma digit_not_sign (n : Z) :
  Ascii.eqb (digit n) "+" || Ascii.eqb (digit n) "-" = false.
Proof.
  pose proof (digit_cases n) as H. simpl in H.
  repeat (destruct H as [<- | H]; [reflexivity|]). contradiction.
Qed.

Lemma field2_pad (lo hi n : Z) :
  0 <= n < 100 -> lo <= n <= hi ->
  field2 lo hi (digit (n / 10)) (digit n) = true.
Proof.
  intros Hn Hr. unfold field2. rewrite !digitVal_digit.
  assert (E : 10 * ((n / 10) mod 10) + n mod 10 = n).
  { rewrite (Z.mod_small (n / 10) 10) by (split; [apply Z.div_pos|apply Z.div_lt_upper_bound]; lia).
    symmetry. apply Z.div_mod. lia. }
  rewrite E. apply andb_true_intro; split; apply Z.leb_le; lia.
Qed.

Lemma monthOfYear_bounds (doy : Z) :
  0 <= doy <= 365 -> 1 <= monthOfYear doy <= 12.
Proof.
  intros H. unfold monthOfYear, monthFromMarch.
  destruct (Z.ltb_spec ((5 * doy + 2) / 153) 10); Z.div_mod_to_equations; lia.
Qed.

Lemma dayOfMonth_bounds (doy : Z) :
  0 <= doy <= 365 -> 1 <= dayOfMonth doy <= 31.
Proof. intros H. unfold dayOfMonth, monthFromMarch. Z.div_mod_to_equations. lia. Qed.

(** The day of a March-based year lies between 0 and 365. *)
Lemma dayOfYear_bounds (d1 : Z) :
  0 <= d1 < 146097 ->
  let d2 := d1 - 36524 * Z.min 3 (d1 / 36524) in
  let d3 := d2 mod 1461 in
  0 <= d3 - 365 * Z.min 3 (d3 / 365) <= 365.
Proof.
  intros H d2 d3.
  subst d3 d2. Z.div_mod_to_equations. lia.
Qed.

Lemma civil_bounds (days : Z) :
  let '(_, m, d) := civilFromDays days in 1 <= m <= 12 /\ 1 <= d <= 31.
Proof.
  unfold civilFromDays. lazy beta iota zeta.
  assert (R : 0 <= (days + 719468) mod 146097 < 146097)
    by (apply Z.mod_pos_bound; lia).
  pose proof (dayOfYear_bounds _ R) as B. lazy zeta in B.
  split; [apply monthOfYear_bounds | apply dayOfMonth_bounds]; exact B.
Qed.

Lemma list_ascii_app (a b : string) :
  list_ascii_of_string (a ++ b) = (list_ascii_of_string a ++ list_ascii_of_string b)%list.
Proof. induction a as [|c a IH]; simpl; [reflexivity | now rewrite IH]. Qed.

Lemma isIsoTail_fields (m d h mi s f : Z) :
  1 <= m <= 12 -> 1 <= d <= 31 -> 0 <= h <= 23 -> 0 <= mi <= 59 -> 0 <= s <= 59 ->
  isIsoTail (list_ascii_of_string
    ("-" ++ pad 2 m ++ "-" ++ pad 2 d ++ "T" ++ pad 2 h ++ ":" ++ pad 2 mi ++ ":"
      ++ pad 2 s ++ "." ++ pad 3 f ++ "Z")) = true.
Proof.
  intros Hm Hd Hh Hmi Hs. cbn [pad append list_ascii_of_string isIsoTail].
  rewrite !field2_pad by lia. rewrite !isDigit_digit. reflexivity.
Qed.

Lemma isISO8601_year (y : Z) (tail : string) :
  isIsoTail (list_ascii_of_string tail) = true ->
  isISO8601 (isoYear y ++ tail) = true.
Proof.
  intros T. unfold isISO8601, isoYear.
  destruct ((0 <=? y) && (y <=? 9999)).
  - cbn [pad append list_ascii_of_string].
    rewrite digit_not_sign, !isDigit_digit, T. reflexivity.
  - destruct (y <? 0); cbn [pad append list_ascii_of_string Ascii.eqb Bool.eqb orb];
      rewrite ?isDigit_digit, T; reflexivity.
Qed.

Lemma toISOString_wellformed (t : TimeValue) : isISO8601 (toISOString t) = true.
Proof.
  unfold toISOString.
  pose proof (civil_bounds (Day (ms t))) as B.
  destruct (civilFromDays (Day (ms t))) as [[y m] d]. destruct B as [Hm Hd].
  apply isISO8601_year. apply isIsoTail_fields; try assumption.
  - unfold HourFromTime. pose proof (Z.mod_pos_bound (ms t / 3600000) 24). lia.
  - unfold MinFromTime. pose proof (Z.mod_pos_bound (ms t / 60000) 60). lia.
  - unfold SecFromTime. pose proof (Z.mod_pos_bound (ms t / 1000) 60). lia.
Qed.

(** The year of a valid time value fits the six digits of the long form. *)
Lemma year_fits_six_digits (t : TimeValue) :
  let '(y, _, _) := civilFromDays (Day (ms t)) in -999999 <= y <= 999999.
Proof.
  destruct t as [z Hz]. cbn [ms].
  apply andb_prop in Hz as [H1 H2]. apply Z.leb_le in H1, H2.
  unfold maxTimeValue in *. unfold civilFromDays, Day, msPerDay. lazy beta iota zeta.
  destruct (monthOfYear _ <=? 2); Z.div_mod_to_equations; lia.
Qed.

Example toISOString_epoch :
  toISOString (mkTime 0 eq_refl) = "1970-01-01T00:00:00.000Z".
Proof. reflexivity. Qed.

Example toISOString_leap_day :
  toISOString (mkTime 1709251199999 eq_refl) = "2024-02-29T23:59:59.999Z".
Proof. reflexivity. Qed.

Example toISOString_before_epoch :
  toISOString (mkTime (-1) eq_refl) = "1969-12-31T23:59:59.999Z".
Proof. reflexivity. Qed.

Example toISOString_latest :
  toISOString (mkTime 8640000000000000 eq_refl) = "+275760-09-13T00:00:00.000Z".
Proof. reflexivity. Qed.

Example toISOString_earliest :
  toISOString (mkTime (-8640000000000000) eq_refl) = "-271821-04-20T00:00:00.000Z".
Proof. reflexivity. Qed.

Example isISO8601_rejects_month_13 :
  isISO8601 "2024-13-01T00:00:00.000Z" = false.
Proof. reflexivity. Qed.

End DateFacts.

(** ** The error envelope *)

Lemma statusInteger_value (c : HttpStatusCode) :
  int_value (statusInteger c) = statusNumber c.
Proof. destruct c; reflexivity. Qed.

Section Envelope.
Import HttpErrors ApiErrorHandler.

Variable now : JsDate.TimeValue.

Lemma toJSON_fields (h : HttpException) :
  Js.obj_get "error" (toJSON now h) = Some (JStr (error h))
  /\ Js.obj_get "message" (toJSON now h) = Some (JStr (message h))
  /\ Js.obj_get "status_code" (toJSON now h) = Some (JNum (statusInteger (statusCode h)))
  /\ Js.obj_get "timestamp" (toJSON now h) = Some (JStr (JsDate.toISOString now))
  /\ Js.obj_get "details" (toJSON now h) = option_map JObj (details h)
  /\ Js.obj_get "request_id" (toJSON now h) = None.
Proof.
  unfold toJSON. generalize (JsDate.toISOString now) as ts. intros ts.
  destruct (details h); cbn; repeat split; reflexivity.
Qed.

(** Adding [request_id] to the base response leaves the other fields. *)
Lemma with_request_id_fields (h : HttpException) (rid : string) (k : string) :
  String.eqb k "request_id" = false ->
  Js.obj_get k (Js.spread (toJSON now h) [("request_id", JStr rid)])
  = Js.obj_get k (toJSON now h).
Proof.
  intros Hk. unfold toJSON. generalize (JsDate.toISOString now) as ts. intros ts.
  destruct (details h); cbn; rewrite ?Hk;
    repeat (match goal with |- context [String.eqb k ?s] => destruct (String.eqb k s) end;
            try reflexivity).
Qed.

Lemma with_request_id_get (h : HttpException) (rid : string) :
  Js.obj_get "request_id" (Js.spread (toJSON now h) [("request_id", JStr rid)])
  = Some (JStr rid).
Proof.
  unfold toJSON. generalize (JsDate.toISOString now) as ts. intros ts.
  destruct (details h); reflexivity.
Qed.

(** [handleApiError] once the exception it works on is known: the base
    response, with [request_id] added when a backend request id is known
    and its [String] can be taken. *)
Lemma handleApiError_of (thrown : JsValue) (request : option NextRequest)
    (h : HttpException) :
  toHttpException thrown = Returned h ->
  handleApiError now thrown request
  = if Js.truthy (backendRequestId h)
    then rid <- Js.toString (backendRequestId h) ;;
         Returned (NextResponse_json
                     (JObj (Js.spread (toJSON now h) [("request_id", JStr rid)]))
                     (statusNumber (statusCode h)))
    else Returned (NextResponse_json (JObj (toJSON now h)) (statusNumber (statusCode h))).
Proof.
  intros H. unfold handleApiError. rewrite H. cbn [Exc.bind].
  destruct (Js.truthy (backendRequestId h)); [|reflexivity].
  destruct (Js.toString (backendRequestId h)); reflexivity.
Qed.

(** What a returned response was made from. *)
Lemma handleApiError_returned (thrown : JsValue) (request : option NextRequest)
    (response : NextResponse) :
  handleApiError now thrown request = Returned response ->
  exists h,
    toHttpException thrown = Returned h
    /\ status response = statusNumber (statusCode h)
    /\ ((Js.truthy (backendRequestId h) = false
         /\ body response = JObj (toJSON now h))
        \/ (Js.truthy (backendRequestId h) = true
            /\ exists rid,
                 Js.toString (backendRequestId h) = Returned rid
                 /\ body response
                    = JObj (Js.spread (toJSON now h) [("request_id", JStr rid)]))).
Proof.
  intros H. destruct (toHttpException thrown) as [h|x] eqn:E.
  2:{ unfold handleApiError in H. rewrite E in H. discriminate H. }
  rewrite (handleApiError_of _ _ _ E) in H. exists h. split; [reflexivity|].
  destruct (Js.truthy (backendRequestId h)).
  - destruct (Js.toString (backendRequestId h)) as [rid|x] eqn:R; [|discriminate H].
    injection H as <-. split; [reflexivity|]. right. split; [reflexivity|].
    exists rid. split; reflexivity.
  - injection H as <-. split; [reflexivity|]. left. split; reflexivity.
Qed.

(** The fields of a returned envelope, read off the underlying exception. *)
Lemma handleApiError_fields (thrown : JsValue) (request : option NextRequest)
    (response : NextResponse) :
  handleApiError now thrown request = Returned response ->
  exists h envelope,
    toHttpException thrown = Returned h
    /\ status response = statusNumber (statusCode h)
    /\ body response = JObj envelope
    /\ Js.obj_get "error" envelope = Some (JStr (error h))
    /\ Js.obj_get "message" envelope = Some (JStr (message h))
    /\ Js.obj_get "status_code" envelope = Some (JNum (statusInteger (statusCode h)))
    /\ Js.obj_get "timestamp" envelope = Some (JStr (JsDate.toISOString now))
    /\ Js.obj_get "details" envelope = option_map JObj (details h).
Proof.
  intros H. destruct (handleApiError_returned _ _ _ H) as (h & Hh & Hs & Hb).
  destruct (toJSON_fields h) as (He & Hm & Hc & Ht & Hd & _).
  exists h. destruct Hb as [[_ Hb] | [_ (rid & _ & Hb)]]; eexists;
    (split; [exact Hh|]); (split; [exact Hs|]); (split; [exact Hb|]).
  - repeat split; assumption.
  - rewrite !with_request_id_fields by reflexivity. repeat split; assumption.
Qed.

(** A thrown value that is not an [HttpException] is wrapped, when it
    can be wrapped at all, in an exception with status 500 whose details
    hold [originalError] only; the response is then the base response. *)
Lemma toHttpException_wraps (thrown : JsValue) (h : HttpException) :
  isHttpException thrown = false ->
  toHttpException thrown = Returned h ->
  statusCode h = SC500
  /\ error h = "Internal Server Error"
  /\ (exists original, details h = Some [("originalError", JStr original)])
  /\ (forall e, thrown = JError e -> message h = err_message e)
  /\ backendRequestId h = JUndefined.
Proof.
  intros Hnot H.
  destruct thrown as [| |b|n|s|items|props|e|h']; try discriminate Hnot;
    cbn [toHttpException] in H;
    try (destruct (Js.toString _) as [original|x]; [|discriminate H]);
    cbn [Exc.bind] in H; injection H as <-;
    (repeat split; try reflexivity; try (eexists; reflexivity));
    intros e' He'; try discriminate He'.
  injection He' as <-. reflexivity.
Qed.

Lemma handleApiError_non_http (thrown : JsValue) (request : option NextRequest)
    (h : HttpException) :
  isHttpException thrown = false ->
  toHttpException thrown = Returned h ->
  handleApiError now thrown request
  = Returned (NextResponse_json (JObj (toJSON now h)) 500).
Proof.
  intros Hnot H. rewrite (handleApiError_of _ _ _ H).
  destruct (toHttpException_wraps _ _ Hnot H) as (Hs & _ & _ & _ & Hr).
  rewrite Hr, Hs. reflexivity.
Qed.

(** The envelope of every response [handleApiError] returns: a string
    [error], a string [message], an integer [status_code] equal to the
    HTTP status, an ISO-8601 [timestamp], and [details] exactly when the
    underlying exception carries them. *)
Lemma handleApiError_envelope_shape (thrown : JsValue) (request : option NextRequest)
    (response : NextResponse) :
  handleApiError now thrown request = Returned response ->
  exists httpError envelope,
    toHttpException thrown = Returned httpError
    /\ body response = JObj envelope
    /\ (exists s, Js.obj_get "error" envelope = Some (JStr s))
    /\ (exists s, Js.obj_get "message" envelope = Some (JStr s))
    /\ (exists n, Js.obj_get "status_code" envelope = Some (JNum n)
                  /\ int_value n = status response)
    /\ (exists ts, Js.obj_get "timestamp" envelope = Some (JStr ts)
                   /\ JsDate.isISO8601 ts = true)
    /\ Js.obj_get "details" envelope = option_map JObj (details httpError).
Proof.
  intros H.
  destruct (handleApiError_fields _ _ _ H) as (h & env & Hh & Hs & Hb & He & Hm & Hc & Ht & Hd).
  exists h, env. repeat split; eauto.
  - eexists. split; [exact Hc|]. rewrite Hs. apply statusInteger_value.
  - exists (JsDate.toISOString now). split; [exact Ht | apply DateFacts.toISOString_wellformed].
Qed.

End Envelope.

(** ** [String] and [toHttpException] *)

(** The conversion returns for every primitive, for every
    [HttpException], and for an object or error that has no own
    [toString]. *)
Lemma toString_returns (v : JsValue) :
  match v with
  | JUndefined | JNull | JBool _ | JNum _ | JStr _ | JHttp _ => True
  | JObj props => Js.hasOwn "toString" props = false
  | JError e => Js.hasOwn "toString" (err_props e) = false
  | JArr _ => False
  end ->
  exists s, Js.toString v = Returned s.
Proof.
  destruct v as [| |[]|n|s|items|props|e|h]; cbn [Js.toString]; intros H;
    try contradiction; try rewrite H; eexists; reflexivity.
Qed.

(** [toHttpException] returns exactly when its argument is an
    [HttpException] or an [Error], or has a [String]. *)
Lemma toHttpException_returns_iff (thrown : JsValue) :
  (exists h, HttpErrors.toHttpException thrown = Returned h)
  <-> ((exists h, thrown = JHttp h) \/ (exists e, thrown = JError e)
       \/ exists s, Js.toString thrown = Returned s).
Proof.
  split.
  - intros [h H].
    destruct thrown as [| |b|n|s|items|props|e|h']; cbn [HttpErrors.toHttpException] in H;
      try (left; eexists; reflexivity); try (right; left; eexists; reflexivity);
      right; right; (destruct (Js.toString _) as [s'|x]; [exists s'; reflexivity | discriminate H]).
  - intros [[h ->] | [[e ->] | [s H]]]; try (eexists; reflexivity).
    destruct thrown as [| |b|n|s'|items|props|e|h']; cbn [HttpErrors.toHttpException];
      try rewrite H; eexists; reflexivity.
Qed.

(** Where it returns, [toHttpException] returns an [HttpException] on
    which it is the identity. *)
Lemma toHttpException_fixes_result (thrown : JsValue) (h : HttpException) :
  HttpErrors.toHttpException thrown = Returned h ->
  HttpErrors.toHttpException (JHttp h) = Returned h
  /\ (forall h', thrown = JHttp h' -> h = h').
Proof.
  intros H. split; [reflexivity|]. intros h' ->. now injection H as <-.
Qed.

(** The wrapped handler passes a response on, and answers a thrown
    value with whatever [handleApiError] makes of it. *)
Lemma withErrorHandler_cases
    (now : JsDate.TimeValue)
    (handler : ApiErrorHandler.NextRequest -> Outcome ApiErrorHandler.NextResponse)
    (req : ApiErrorHandler.NextRequest) :
  (forall response, handler req = Returned response ->
     ApiErrorHandler.withErrorHandler now handler req = Returned response)
  /\ (forall thrown, handler req = Thrown thrown ->
        ApiErrorHandler.withErrorHandler now handler req
        = ApiErrorHandler.handleApiError now thrown (Some req)).
Proof.
  unfold ApiErrorHandler.withErrorHandler.
  split; intros x H; rewrite H; reflexivity.
Qed.

Example handleApiError_on_undefined :
  ApiErrorHandler.handleApiError Samples.clock JUndefined None
  = Returned
      (ApiErrorHandler.mkResponse 500 [("content-type", "application/json")]
         (JObj [ ("error", JStr "Internal Server Error");
                 ("message", JStr "An unknown error occurred");
                 ("status_code", JNum (statusInteger SC500));
                 ("timestamp", JStr "2023-11-14T22:13:20.000Z");
                 ("details", JObj [("originalError", JStr "undefined")]) ])).
Proof. reflexivity. Qed.

Example handleApiError_with_backend_request_id :
  ApiErrorHandler.handleApiError Samples.clock
    (JHttp (HttpErrors.InternalServerError (Some "Backend failed")
              (Some [("requestId", JNum Samples.fortyTwo)]))) None
  = Returned
      (ApiErrorHandler.mkResponse 500 [("content-type", "application/json")]
         (JObj [ ("error", JStr "Internal Server Error");
                 ("message", JStr "Backend failed");
                 ("status_code", JNum (statusInteger SC500));
                 ("timestamp", JStr "2023-11-14T22:13:20.000Z");
                 ("details", JObj [("requestId", JNum Samples.fortyTwo)]);
                 ("request_id", JStr "42") ])).
Proof. reflexivity. Qed.

Example toString_of_array :
  Js.toString (JArr [JNum Samples.fortyTwo; JNull; JStr "a"; JArr [JBool true; JUndefined]])
  = Returned "42,,a,true,".
Proof. reflexivity. Qed.

Example toString_of_array_with_unprintable :
  Js.toString (JArr [JStr "a"; Samples.unprintable]) = Thrown Js.notPrimitive.
Proof. reflexivity. Qed.

(** C1, at a thrown object whose own [toString] is not a function.  No
    envelope is returned: [String(error)] throws a [TypeError] inside
    [toHttpException] and [handleApiError] lets it pass.  The same
    happens for an [HttpException] whose [details.requestId] is such an
    object, where [String(backendRequestId)] throws. *)
Theorem handleApiError_throws_on_unprintable
    (now : JsDate.TimeValue) (request : option ApiErrorHandler.NextRequest) :
  ApiErrorHandler.handleApiError now Samples.unprintable request
    = Thrown Js.notPrimitive
  /\ ApiErrorHandler.handleApiError now
       (JHttp (HttpErrors.InternalServerError None
                 (Some [("requestId", Samples.unprintable)]))) request
     = Thrown Js.notPrimitive.
Proof. split; reflexivity. Qed.

(** C2, as the code has it.  The envelope of a response that
    [handleApiError] returns carries [request_id] exactly when the
    details of the underlying [HttpException] hold a truthy [requestId]
    or [request_id], and it is then the [String] of that value. *)
Theorem handleApiError_request_id
    (now : JsDate.TimeValue) (error : JsValue)
    (request : option ApiErrorHandler.NextRequest)
    (response : ApiErrorHandler.NextResponse) :
  ApiErrorHandler.handleApiError now error request = Returned response ->
  exists httpError envelope,
    HttpErrors.toHttpException error = Returned httpError
    /\ ApiErrorHandler.body response = JObj envelope
    /\ ((Js.truthy (ApiErrorHandler.backendRequestId httpError) = true
         /\ exists rid,
              Js.toString (ApiErrorHandler.backendRequestId httpError) = Returned rid
              /\ Js.obj_get "request_id" envelope = Some (JStr rid))
        \/ (Js.truthy (ApiErrorHandler.backendRequestId httpError) = false
            /\ Js.obj_get "request_id" envelope = None)).
Proof.
  intros H. destruct (handleApiError_returned _ _ _ _ H) as (h & Hh & _ & Hb).
  exists h. destruct Hb as [[Hf Hb] | [Ht (rid & Hr & Hb)]]; eexists;
    (split; [exact Hh|]); (split; [exact Hb|]).
  - right. split; [exact Hf | apply (toJSON_fields now)].
  - left. split; [exact Ht|]. exists rid. split; [exact Hr | apply with_request_id_get].
Qed.

Lemma handleApiError_request_id_witness :
  exists httpError envelope,
    HttpErrors.toHttpException
      (JHttp (HttpErrors.InternalServerError (Some "Backend failed")
                (Some [("requestId", JNum Samples.fortyTwo)]))) = Returned httpError
    /\ JObj [ ("error", JStr "Internal Server Error");
              ("message", JStr "Backend failed");
              ("status_code", JNum (statusInteger SC500));
              ("timestamp", JStr "2023-11-14T22:13:20.000Z");
              ("details", JObj [("requestId", JNum Samples.fortyTwo)]);
              ("request_id", JStr "42") ] = JObj envelope
    /\ ((Js.truthy (ApiErrorHandler.backendRequestId httpError) = true
         /\ exists rid,
              Js.toString (ApiErrorHandler.backendRequestId httpError) = Returned rid
              /\ Js.obj_get "request_id" envelope = Some (JStr rid))
        \/ (Js.truthy (ApiErrorHandler.backendRequestId httpError) = false
            /\ Js.obj_get "request_id" envelope = None)).
Proof.
  apply (handleApiError_request_id Samples.clock
           (JHttp (HttpErrors.InternalServerError (Some "Backend failed")
                     (Some [("requestId", JNum Samples.fortyTwo)]))) None
           (ApiErrorHandler.mkResponse 500 [("content-type", "application/json")]
              (JObj [ ("error", JStr "Internal Server Error");
                      ("message", JStr "Backend failed");
                      ("status_code", JNum (statusInteger SC500));
                      ("timestamp", JStr "2023-11-14T22:13:20.000Z");
                      ("details", JObj [("requestId", JNum Samples.fortyTwo)]);
                      ("request_id", JStr "42") ]))).
  reflexivity.
Defined.

(** C2 fails as stated: an ordinary thrown [Error] gives an envelope
    without any [request_id]. *)
Lemma handleApiError_request_id_missing :
  ~ (forall (now : JsDate.TimeValue) (error : JsValue)
            (request : option ApiErrorHandler.NextRequest),
       exists response envelope s,
         ApiErrorHandler.handleApiError now error request = Returned response
         /\ ApiErrorHandler.body response = JObj envelope
         /\ Js.obj_get "request_id" envelope = Some (JStr s)).
Proof.
  intros H.
  destruct (H Samples.clock (JError (mkError "Error" "boom" [])) None)
    as (response & envelope & s & Hr & Hb & Hi).
  injection Hr as <-. injection Hb as <-. discriminate Hi.
Qed.

(** C4, at a thrown object whose own [toString] is not a function: it is
    not an [HttpException], and it is answered with no response at all,
    the [TypeError] of [String(error)] leaving [handleApiError]. *)
Theorem non_http_value_without_response
    (now : JsDate.TimeValue) (request : option ApiErrorHandler.NextRequest) :
  HttpErrors.isHttpException Samples.unprintable = false
  /\ ~ (exists response,
          ApiErrorHandler.handleApiError now Samples.unprintable request
          = Returned response).
Proof.
  split; [reflexivity|]. intros [response H]. discriminate H.
Qed.

(** The status numbers of [HttpStatusCode]. *)
Lemma statusNumber_range (c : HttpStatusCode) :
  In (statusNumber c) [400; 401; 403; 404; 405; 409; 422; 429; 500; 502; 503; 504].
Proof. destruct c; simpl; tauto. Qed.

(** C7, as the code has it.  The status of every error envelope, and its
    [status_code] field, is one of the twelve numbers of [HttpStatusCode]:
    400, 401, 403, 404, 405, 409, 422, 429, 500, 502, 503, 504. *)
Theorem envelope_status_in_HttpStatusCode
    (now : JsDate.TimeValue) (error : JsValue)
    (request : option ApiErrorHandler.NextRequest)
    (response : ApiErrorHandler.NextResponse) :
  ApiErrorHandler.handleApiError now error request = Returned response ->
  In (ApiErrorHandler.status response)
     [400; 401; 403; 404; 405; 409; 422; 429; 500; 502; 503; 504]
  /\ exists envelope n,
       ApiErrorHandler.body response = JObj envelope
       /\ Js.obj_get "status_code" envelope = Some (JNum n)
       /\ int_value n = ApiErrorHandler.status response.
Proof.
  intros H.
  destruct (handleApiError_fields _ _ _ _ H) as (h & env & _ & Hs & Hb & _ & _ & Hc & _).
  rewrite Hs. split; [apply statusNumber_range|].
  exists env. eexists. split; [exact Hb|]. split; [exact Hc | apply statusInteger_value].
Qed.

Lemma envelope_status_in_HttpStatusCode_witness :
  In 503 [400; 401; 403; 404; 405; 409; 422; 429; 500; 502; 503; 504]
  /\ exists envelope n,
       JObj [ ("error", JStr "Service Unavailable");
              ("message", JStr "Service unavailable");
              ("status_code", JNum (statusInteger SC503));
              ("timestamp", JStr "2023-11-14T22:13:20.000Z") ] = JObj envelope
       /\ Js.obj_get "status_code" envelope = Some (JNum n)
       /\ int_value n = 503.
Proof.
  apply (envelope_status_in_HttpStatusCode Samples.clock
           (JHttp (HttpErrors.ServiceUnavailableError None None)) None
           (ApiErrorHandler.mkResponse 503 [("content-type", "application/json")]
              (JObj [ ("error", JStr "Service Unavailable");
                      ("message", JStr "Service unavailable");
                      ("status_code", JNum (statusInteger SC503));
                      ("timestamp", JStr "2023-11-14T22:13:20.000Z") ]))).
  reflexivity.
Defined.

(** C7 fails as stated: [validateRequest] rejects a GET where a POST is
    required with status 405, which the seven-code taxonomy lacks. *)
Lemma validateRequest_405_outside_taxonomy :
  exists response,
    ApiErrorHandler.withErrorHandler Samples.clock Samples.postOnly Samples.getRequest
      = Returned response
    /\ ApiErrorHandler.status response = 405
    /\ Js.obj_get "status_code"
         (match ApiErrorHandler.body response with JObj o => o | _ => [] end)
       = Some (JNum (statusInteger SC405))
    /\ ~ In 405 [400; 422; 429; 500; 502; 503; 504].
Proof.
  eexists. split; [reflexivity|]. split; [reflexivity|]. split; [reflexivity|].
  simpl. intros H. repeat (destruct H as [H|H]; [discriminate H|]). exact H.
Qed.

(** C8, at an object whose own [toString] is not a function:
    [toHttpException] returns no [HttpException] for it, the [TypeError]
    of [String(error)] leaving the function. *)
Theorem toHttpException_throws_on_unprintable :
  HttpErrors.isHttpException Samples.unprintable = false
  /\ HttpErrors.toHttpException Samples.unprintable = Thrown Js.notPrimitive
  /\ forall h, HttpErrors.toHttpException Samples.unprintable <> Returned h.
Proof.
  split; [reflexivity|]. split; [reflexivity|]. intros h H. discriminate H.
Qed.

(** C10, at a handler that throws an object whose own [toString] is not
    a function: the wrapped handler returns no response, and rejects
    with the [TypeError] that [handleApiError] throws in the [catch]
    block. *)
Theorem withErrorHandler_rejects_on_unprintable
    (now : JsDate.TimeValue) (req : ApiErrorHandler.NextRequest) :
  ApiErrorHandler.withErrorHandler now (fun _ => Thrown Samples.unprintable) req
    = Thrown Js.notPrimitive
  /\ ~ (exists response,
          ApiErrorHandler.withErrorHandler now (fun _ => Thrown Samples.unprintable) req
          = Returned response).
Proof.
  split; [reflexivity|]. intros [response H]. discriminate H.
Qed.

(** ** The route: upstream failures *)

Section RouteFacts.
Import HttpErrors ApiErrorHandler.

Variable AGENT_URL : option string.
Variable JSON_parse : string -> Outcome JsValue.
Variable handleRequest : NextRequest -> Outcome NextResponse.

(** The [catch] block never returns normally. *)
Lemma onHandlerError_throws (error : JsValue) :
  exists thrown, Route.onHandlerError AGENT_URL JSON_parse error = Thrown thrown.
Proof.
  unfold Route.onHandlerError.
  destruct (Route.asError error) as [[msg be]|]; [|eexists; reflexivity].
  destruct (Js.truthy be); [eexists; reflexivity|].
  destruct (_ || _); [eexists; reflexivity|].
  destruct (JsString.includes msg "timeout"); [eexists; reflexivity|].
  destruct (_ || _); [|eexists; reflexivity].
  destruct (Route.matchJsonBlock msg); [|eexists; reflexivity].
  unfold Exc.tryCatch, Exc.bind.
  destruct (JSON_parse s); [|eexists; reflexivity].
  repeat (match goal with
          | |- context [Js.getProp ?v ?k] => destruct (Js.getProp v k)
          end; [|eexists; reflexivity]).
  destruct (Js.toString _); eexists; reflexivity.
Qed.

(** Whatever the message holds, the HTTP branch ends in the same generic
    error: the error built from the parsed JSON is thrown inside the
    [try] and replaced by the [catch] that follows it. *)
Lemma onHandlerError_http_branch (error : JsValue) (msg : string) (be : JsValue) :
  Route.asError error = Some (msg, be) ->
  Js.truthy be = false ->
  JsString.includes msg "ECONNREFUSED" || JsString.includes msg "connect" = false ->
  JsString.includes msg "timeout" = false ->
  JsString.includes msg "HTTP 500" || JsString.includes msg "Internal server error"
    || JsString.includes msg "HTTP" = true ->
  Route.onHandlerError AGENT_URL JSON_parse error = Thrown (Route.backendServiceError msg).
Proof.
  intros Ha Hb Hc Ht Hh. unfold Route.onHandlerError.
  rewrite Ha, Hb, Hc, Ht, Hh.
  destruct (Route.matchJsonBlock msg); [|reflexivity].
  unfold Exc.tryCatch, Exc.bind.
  destruct (JSON_parse s); [|reflexivity].
  repeat (match goal with
          | |- context [Js.getProp ?v ?k] => destruct (Js.getProp v k)
          end; [|reflexivity]).
  destruct (Js.toString _); reflexivity.
Qed.

(** A timeout is answered with 502 (Bad Gateway). *)
Lemma POST_timeout_status (now : JsDate.TimeValue) (req : NextRequest) (e : ErrorObject) :
  handleRequest req = Thrown (JError e) ->
  Js.truthy (Js.prop "backendError" (err_props e)) = false ->
  JsString.includes (err_message e) "ECONNREFUSED"
    || JsString.includes (err_message e) "connect" = false ->
  JsString.includes (err_message e) "timeout" = true ->
  exists response,
    Route.POST AGENT_URL JSON_parse handleRequest now req = Returned response
    /\ status response = 502.
Proof.
  intros Hh Hb Hc Ht.
  unfold Route.POST, withErrorHandler, Route.routeHandler, Exc.tryCatch.
  rewrite Hh. unfold Route.onHandlerError, Route.asError.
  rewrite Hb, Hc, Ht. eexists. split; reflexivity.
Qed.

End RouteFacts.

Example matchRequestId_in_message :
  Route.matchRequestId "HTTP 500: {'request_id': 'abc-123', 'error': 'E'}" = Some "abc-123".
Proof. reflexivity. Qed.

Example matchJsonBlock_in_message :
  Route.matchJsonBlock "HTTP 500: {'a': {'b': 1}} and } more" = Some "{'a': {'b': 1}} and }".
Proof. reflexivity. Qed.

(** An HTTP 500 from the agent: status 500, and the request id found in
    the message is passed on as [request_id]. *)
Example POST_backend_500 :
  exists response,
    Route.POST None Samples.noJson
      (fun _ => Thrown (JError (mkError "Error" "HTTP 500: {'request_id': 'abc-123'}" [])))
      Samples.clock Samples.postRequest = Returned response
    /\ ApiErrorHandler.status response = 500
    /\ Js.obj_get "request_id"
         (match ApiErrorHandler.body response with JObj o => o | _ => [] end)
       = Some (JStr "abc-123").
Proof. eexists. repeat split; reflexivity. Qed.

(** C3, as the code has it.  When the call to the agent service fails
    with an error whose message contains ECONNREFUSED or connect (the
    service cannot be reached or refuses the connection) and that is
    not already tagged as a backend error, the boundary answers with
    status 503 and the error name Service Unavailable. *)
Theorem POST_connect_failure_is_503
    (AGENT_URL : option string) (JSON_parse : string -> Outcome JsValue)
    (handleRequest : ApiErrorHandler.NextRequest -> Outcome ApiErrorHandler.NextResponse)
    (now : JsDate.TimeValue) (req : ApiErrorHandler.NextRequest) (e : ErrorObject) :
  handleRequest req = Thrown (JError e) ->
  Js.truthy (Js.prop "backendError" (err_props e)) = false ->
  JsString.includes (err_message e) "ECONNREFUSED"
    || JsString.includes (err_message e) "connect" = true ->
  exists response,
    Route.POST AGENT_URL JSON_parse handleRequest now req = Returned response
    /\ ApiErrorHandler.status response = 503
    /\ exists envelope,
         ApiErrorHandler.body response = JObj envelope
         /\ Js.obj_get "error" envelope = Some (JStr "Service Unavailable")
         /\ Js.obj_get "status_code" envelope = Some (JNum (statusInteger SC503))
         /\ int_value (statusInteger SC503) = 503.
Proof.
  intros Hh Hb Hc.
  unfold Route.POST, ApiErrorHandler.withErrorHandler, Route.routeHandler, Exc.tryCatch.
  rewrite Hh. unfold Route.onHandlerError, Route.asError.
  rewrite Hb, Hc.
  eexists. split; [reflexivity|]. split; [reflexivity|].
  eexists. split; [reflexivity|]. repeat split; reflexivity.
Qed.

Lemma POST_connect_failure_is_503_witness :
  exists response,
    Route.POST None Samples.noJson (fun _ => Thrown Samples.connectionRefused)
      Samples.clock Samples.postRequest = Returned response
    /\ ApiErrorHandler.status response = 503
    /\ exists envelope,
         ApiErrorHandler.body response = JObj envelope
         /\ Js.obj_get "error" envelope = Some (JStr "Service Unavailable")
         /\ Js.obj_get "status_code" envelope = Some (JNum (statusInteger SC503))
         /\ int_value (statusInteger SC503) = 503.
Proof.
  apply (POST_connect_failure_is_503 None Samples.noJson
           (fun _ => Thrown Samples.connectionRefused) Samples.clock Samples.postRequest
           (mkError "Error" "connect ECONNREFUSED 127.0.0.1:8123" []));
    reflexivity.
Defined.

(** C3 fails as stated: an unreachable host is answered with 503, not
    502, and a timed-out call with 502, not 504. *)
Lemma POST_status_pairing_fails :
  (exists response,
     Route.POST None Samples.noJson (fun _ => Thrown Samples.hostUnreachable)
       Samples.clock Samples.postRequest = Returned response
     /\ ApiErrorHandler.status response = 503)
  /\ 503 <> 502
  /\ (exists response,
        Route.POST None Samples.noJson (fun _ => Thrown Samples.timedOut)
          Samples.clock Samples.postRequest = Returned response
        /\ ApiErrorHandler.status response = 502)
  /\ 502 <> 504.
Proof.
  split; [eexists; split; reflexivity|]. split; [discriminate|].
  split; [eexists; split; reflexivity | discriminate].
Qed.

(** ** Parsing a backend error response *)

Section BackendFacts.
Import BackendErrorHandler.

Lemma parse_ok_is_null (response : Response) :
  ok response = true -> parseBackendErrorResponse response = Returned None.
Proof. intros H. unfold parseBackendErrorResponse. rewrite H. reflexivity. Qed.

Lemma parse_never_throws (response : Response) :
  exists r, parseBackendErrorResponse response = Returned r.
Proof.
  unfold parseBackendErrorResponse, Exc.tryCatch.
  destruct (negb (ok response)); [|eexists; reflexivity].
  match goal with |- context [match ?c with Returned _ => _ | Thrown _ => _ end] =>
    destruct c end; eexists; reflexivity.
Qed.

Lemma parse_not_json (response : Response) (reason : JsValue) :
  ok response = false -> json response = Thrown reason ->
  parseBackendErrorResponse response = Returned (Some (genericError response))
  /\ Js.obj_get "error" (genericError response) = Some (JStr "Unknown Error")
  /\ Js.obj_get "request_id" (genericError response)
     = Some (orUndefined (headers_get "X-Request-ID" (headers response))).
Proof.
  intros Hok Hj. unfold parseBackendErrorResponse. rewrite Hok, Hj.
  repeat split; reflexivity.
Qed.

Lemma parse_backend_format (response : Response) (data : JsObject) :
  ok response = false -> json response = Returned (JObj data) ->
  Js.truthy (Js.prop "error" data) = true ->
  Js.truthy (Js.prop "message" data) = true ->
  parseBackendErrorResponse response
  = Returned (Some [ ("error", Js.prop "error" data);
                     ("message", Js.prop "message" data);
                     ("request_id", Js.prop "request_id" data);
                     ("timestamp", Js.prop "timestamp" data);
                     ("details", Js.prop "details" data) ]).
Proof.
  intros Hok Hj He Hm. unfold parseBackendErrorResponse. rewrite Hok, Hj.
  cbn. rewrite He, Hm. reflexivity.
Qed.

Lemma parse_other_object (response : Response) (data : JsObject) :
  ok response = false -> json response = Returned (JObj data) ->
  Js.truthy (Js.prop "error" data) && Js.truthy (Js.prop "message" data) = false ->
  parseBackendErrorResponse response = Returned None.
Proof.
  intros Hok Hj H. unfold parseBackendErrorResponse. rewrite Hok, Hj. cbn.
  destruct (Js.truthy (Js.prop "error" data)); [|reflexivity].
  simpl in H. rewrite H. reflexivity.
Qed.

(** A JSON body that is a string, a number, a boolean or an array has
    neither field, and the answer is [null]. *)
Lemma parse_other_json (response : Response) (data : JsValue) :
  ok response = false -> json response = Returned data ->
  match data with
  | JBool _ | JNum _ | JStr _ | JArr _ => True
  | _ => False
  end ->
  parseBackendErrorResponse response = Returned None.
Proof.
  intros Hok Hj H. unfold parseBackendErrorResponse. rewrite Hok, Hj.
  destruct data; try contradiction; reflexivity.
Qed.

End BackendFacts.

(** C9, at the body [null].  The body parses as JSON and has neither
    [error] nor [message], yet the answer is the generic record and not
    [null]: reading [data.error] throws inside the [try], and the [catch]
    meant for bodies that are not JSON takes over. *)
Theorem parse_null_body_is_not_null :
  let response :=
    BackendErrorHandler.mkResponse 500 "Internal Server Error" [] "http://localhost:8123/explain"
      (Returned JNull) in
  BackendErrorHandler.ok response = false
  /\ BackendErrorHandler.parseBackendErrorResponse response
     = Returned (Some [ ("error", JStr "Unknown Error");
                        ("message", JStr "HTTP 500: Internal Server Error");
                        ("request_id", JUndefined) ])
  /\ BackendErrorHandler.parseBackendErrorResponse response <> Returned None.
Proof. repeat split; try reflexivity. discriminate. Qed.

(** ** The pipeline: order, append-only results, short circuit *)

Section PipelineFacts.
Import Pipeline.

Variable extract : Request -> string.
Variable run_checks : CodeArtifact -> list Finding.
Variable extract_structure : CodeArtifact -> StructuralSummary.
Variable reason : StageName -> PipelineRun -> option string.

#[local] Abbreviation exec := (executeStage extract run_checks extract_structure reason).
#[local] Abbreviation runS := (runStage extract run_checks extract_structure reason).
#[local] Abbreviation step1 := (step extract run_checks extract_structure reason).
#[local] Abbreviation stepsN := (steps extract run_checks extract_structure reason).

(** What every stage hands back: a result under its own name that is
    [done] without an error or [failed] with one, and a trace in which
    it is the only stage that starts. *)
Lemma executeStage_shape (s : StageName) (req : Request) (r : PipelineRun) :
  let o := exec s req r in
  stage_name (result o) = s
  /\ startedStages (events o) = [s]
  /\ ((status (result o) = done /\ stage_error (result o) = None)
      \/ (status (result o) = failed /\ stage_error (result o) <> None)).
Proof.
  destruct s; cbn - [JsString.trim];
    unfold entryStage, validationStage, analysisStage, summaryStage.
  - destruct (String.eqb _ ""); cbn; repeat split; auto; right; split; [auto | discriminate].
  - destruct (code r); cbn; repeat split; auto; right; split; [auto | discriminate].
  - destruct (code r); cbn; repeat split; auto; right; split; [auto | discriminate].
  - destruct (reason Summary r); cbn; repeat split; auto; right; split; [auto | discriminate].
Qed.

Lemma startedStages_app (a b : list Event) :
  startedStages (a ++ b) = (startedStages a ++ startedStages b)%list.
Proof. unfold startedStages. apply flat_map_app. Qed.

Lemma filter_skipped (ss : list StageName) :
  filter wasExecuted (map skippedResult ss) = [].
Proof. induction ss as [|s ss IH]; [reflexivity | exact IH]. Qed.

(** Running a stage only ever appends to the results. *)
Lemma runStage_appends (s : StageName) (req : Request) (c : Config) :
  exists added,
    stage_results (run (runS s req c)) = (stage_results (run c) ++ added)%list
    /\ added <> [].
Proof.
  unfold runStage.
  destruct (stage_error _); cbn [run stage_results];
    eexists; (split; [reflexivity | discriminate]).
Qed.

Lemma runStage_Inv (s : StageName) (req : Request) (c : Config) :
  map stage_name (stage_results (run c)) = stages_before s ->
  startedStages (trace c) = stages_before s ->
  map stage_name (filter wasExecuted (stage_results (run c))) = startedStages (trace c) ->
  terminal_error (run c) = None ->
  Inv (runS s req c).
Proof.
  intros Hn Hs Hf Ht.
  destruct (executeStage_shape s req (run c)) as (On & Oe & Os).
  unfold Inv, runStage.
  destruct Os as [[Hd He] | [Hd He]].
  - rewrite He. cbn [run state trace stage_results terminal_error].
    rewrite map_app, Hn, startedStages_app, Oe, Hs, filter_app, map_app, Hf, Hs.
    cbn [filter map]. unfold wasExecuted at 1. rewrite Hd. cbn [map]. rewrite On.
    repeat split; try exact Ht; destruct s; try reflexivity; discriminate.
  - destruct (stage_error (result _)) as [err|] eqn:E; [|now elim He].
    cbn [run state trace stage_results terminal_error].
    rewrite map_app, Hn, startedStages_app, Oe, Hs, filter_app, map_app, Hf, Hs.
    cbn [filter map]. unfold wasExecuted at 1. rewrite Hd, filter_skipped. cbn [map].
    rewrite On, map_map. cbn [stage_name skippedResult]. rewrite map_id.
    repeat split; try congruence; try (destruct s; reflexivity).
    exists (stages_after s). destruct s; reflexivity.
Qed.

Lemma Inv_initial (req : Request) : Inv (initial req).
Proof.
  unfold Inv; cbn. repeat split; try reflexivity; discriminate.
Qed.

Lemma step_Inv (req : Request) (c : Config) : Inv c -> Inv (step1 req c).
Proof.
  intros (Hn & Hf & Hok & Hbad). unfold step.
  destruct (state c) eqn:Est; cbn [processed] in *;
    try (destruct Hok as [Hs Ht]; [discriminate|]).
  - unfold Inv. cbn [state run trace processed]. repeat split; auto; discriminate.
  - apply runStage_Inv; assumption.
  - apply runStage_Inv; assumption.
  - apply runStage_Inv; assumption.
  - apply runStage_Inv; assumption.
  - unfold Inv. rewrite Est. cbn [processed]. repeat split; auto; discriminate.
  - destruct (Hbad eq_refl) as [Hb1 Hb2].
    unfold Inv. rewrite Est. cbn [processed]. repeat split; auto; congruence.
Qed.

Lemma steps_Inv (n : nat) (req : Request) (c : Config) : Inv c -> Inv (stepsN n req c).
Proof.
  revert c. induction n as [|n IH]; intros c H; [exact H|].
  cbn [steps]. apply IH. apply step_Inv. exact H.
Qed.

Lemma runStage_statuses (s : StageName) (req : Request) (c : Config) :
  map status (stage_results (run c)) = map (fun _ => done) (stages_before s) ->
  startedStages (trace c) = stages_before s ->
  statusesOk (runS s req c).
Proof.
  intros Hst Hs.
  destruct (executeStage_shape s req (run c)) as (On & Oe & Os).
  unfold statusesOk, runStage.
  destruct Os as [[Hd He] | [Hd He]].
  - rewrite He. cbn [run state trace stage_results].
    rewrite map_app, Hst. cbn [map]. rewrite Hd.
    split; [intros _; destruct s; reflexivity | destruct s; discriminate].
  - destruct (stage_error (result _)) as [err|] eqn:E; [|now elim He].
    cbn [run state trace stage_results].
    split; [intros H; now elim H|]. intros _. exists s.
    rewrite startedStages_app, Oe, Hs, map_app, Hst. cbn [map]. rewrite Hd, map_map.
    split; reflexivity.
Qed.

Lemma statusesOk_initial (req : Request) : statusesOk (initial req).
Proof. unfold statusesOk; cbn. split; [reflexivity | discriminate]. Qed.

Lemma step_statuses (req : Request) (c : Config) :
  Inv c -> statusesOk c -> statusesOk (step1 req c).
Proof.
  intros (_ & _ & Hok & _) (Hd & Hf). unfold step.
  destruct (state c) eqn:Est; cbn [processed] in *;
    try (destruct Hok as [Hs _]; [discriminate|]);
    try (apply runStage_statuses; [apply Hd; discriminate | exact Hs]).
  - unfold statusesOk. cbn [state run trace processed].
    split; [intros _; apply Hd; discriminate | discriminate].
  - unfold statusesOk. rewrite Est. cbn [processed].
    split; [intros _; apply Hd; discriminate | discriminate].
  - unfold statusesOk. rewrite Est. split; [intros H; now elim H | exact Hf].
Qed.

Lemma steps_statuses (n : nat) (req : Request) (c : Config) :
  Inv c -> statusesOk c -> statusesOk (stepsN n req c).
Proof.
  revert c. induction n as [|n IH]; intros c HI HS; [exact HS|].
  cbn [steps]. apply IH; [apply step_Inv; exact HI | apply step_statuses; assumption].
Qed.

(** On code that is not blank, with a reasoning model that answers the
    Summary stage, no transition fails: no [terminal_error] is set, and
    from the Validation stage on the run holds a code artifact. *)
Lemma step_healthy (req : Request) (c : Config) :
  JsString.trim (extract req) <> "" ->
  (forall r, reason Summary r <> None) ->
  terminal_error (run c) = None
  /\ state c <> run_failed
  /\ (code (run c) = None -> state c = pending \/ state c = extracting) ->
  terminal_error (run (step1 req c)) = None
  /\ state (step1 req c) <> run_failed
  /\ (code (run (step1 req c)) = None ->
      state (step1 req c) = pending \/ state (step1 req c) = extracting).
Proof.
  intros Hcode Hmodel (Ht & Hs & Hc). unfold step.
  destruct (state c) eqn:Est.
  - cbn [run state]. split; [exact Ht|]. split; [discriminate | intros _; now right].
  - unfold runStage. cbn [executeStage]. unfold entryStage.
    destruct (String.eqb_spec (JsString.trim (extract req)) "") as [E|_]; [now elim Hcode|].
    cbn [result stage_error extracted run state state_after terminal_error code].
    split; [exact Ht|]. split; discriminate.
  - destruct (code (run c)) as [a|] eqn:Ec; [|destruct (Hc eq_refl); discriminate].
    unfold runStage. cbn [executeStage]. unfold validationStage. rewrite Ec.
    cbn [result stage_error extracted run state state_after terminal_error code].
    rewrite ?Ec. split; [exact Ht|]. split; discriminate.
  - destruct (code (run c)) as [a|] eqn:Ec; [|destruct (Hc eq_refl); discriminate].
    unfold runStage. cbn [executeStage]. unfold analysisStage. rewrite Ec.
    cbn [result stage_error extracted run state state_after terminal_error code].
    rewrite ?Ec. split; [exact Ht|]. split; discriminate.
  - destruct (code (run c)) as [a|] eqn:Ec; [|destruct (Hc eq_refl); discriminate].
    unfold runStage. cbn [executeStage]. unfold summaryStage.
    destruct (reason Summary (run c)) eqn:R; [|now elim (Hmodel (run c))].
    cbn [result stage_error extracted run state state_after terminal_error code].
    rewrite ?Ec. split; [exact Ht|]. split; discriminate.
  - rewrite Est. split; [exact Ht|]. split; [discriminate | exact Hc].
  - now elim Hs.
Qed.

(** A run on code that is not blank, with a reasoning model that
    answers the Summary stage, ends without [terminal_error]. *)
Lemma orchestrate_completes (req : Request) :
  JsString.trim (extract req) <> "" ->
  (forall r, reason Summary r <> None) ->
  terminal_error (run (orchestrate extract run_checks extract_structure reason req)) = None.
Proof.
  intros Hcode Hmodel. unfold orchestrate.
  assert (H : forall n c,
            terminal_error (run c) = None
            /\ state c <> run_failed
            /\ (code (run c) = None -> state c = pending \/ state c = extracting) ->
            terminal_error (run (stepsN n req c)) = None).
  { induction n as [|n IH]; intros c Hc; [exact (proj1 Hc)|].
    cbn [steps]. apply IH. now apply step_healthy. }
  apply H. cbn. split; [reflexivity|]. split; [discriminate | intros _; now left].
Qed.

Lemma step_appends (req : Request) (c : Config) :
  exists added, stage_results (run (step1 req c)) = (stage_results (run c) ++ added)%list.
Proof.
  unfold step.
  destruct (state c);
    try (exists []; cbn [run]; now rewrite app_nil_r);
    match goal with
    | |- context [runStage _ _ _ _ ?s req c] =>
        destruct (runStage_appends s req c) as (added & H & _); exists added; exact H
    end.
Qed.

(** Once a terminal state is reached nothing changes any more. *)
Lemma step_terminal (req : Request) (c : Config) :
  isTerminal (state c) = true -> step1 req c = c.
Proof.
  unfold step. destruct (state c); try discriminate; reflexivity.
Qed.

(** Each transition brings the run one step closer to a terminal state. *)
Lemma step_rank (req : Request) (c : Config) :
  (rank (state (step1 req c)) <= pred (rank (state c)))%nat.
Proof.
  unfold step.
  destruct (state c) eqn:E; rewrite ?E; cbn [rank state pred]; try lia;
    unfold runStage; cbv zeta;
    match goal with |- context [stage_error ?r] => destruct (stage_error r) end;
    cbn [rank state state_after]; lia.
Qed.

Lemma steps_rank (n : nat) (req : Request) (c : Config) :
  (rank (state (stepsN n req c)) <= rank (state c) - n)%nat.
Proof.
  revert c. induction n as [|n IH]; intros c; cbn [steps]; [lia|].
  pose proof (IH (step1 req c)) as A. pose proof (step_rank req c) as B.
  lia.
Qed.

End PipelineFacts.

(** C5.  Within one run the stages are dealt with in the order Entry,
    Validation, Analysis, Summary, each leaving exactly one result in the
    run record: at every point of the run the results are those of the
    stages dealt with so far, and the results only ever grow at the end,
    so no earlier result is changed.  While the run has not failed the
    stages that started are exactly those dealt with, each with the
    status [done], and no [terminal_error] is set; a run that ends
    without [terminal_error] has started all four stages in order and
    all four are [done], and a run ends so whenever the code is not blank
    and the reasoning model answers the Summary stage.  Once [terminal_error] is set the run is in its
    failed state and no transition does anything any more; the stages
    before the failing one are [done], the failing one is [failed] and is
    the last that started, and those after it are [skipped].  The stages
    that executed are always, in order, those whose result is not
    [skipped]. *)
Theorem pipeline_order_append_only
    (extract : Pipeline.Request -> string)
    (run_checks : Pipeline.CodeArtifact -> list Pipeline.Finding)
    (extract_structure : Pipeline.CodeArtifact -> Pipeline.StructuralSummary)
    (reason : Pipeline.StageName -> Pipeline.PipelineRun -> option string)
    (req : Pipeline.Request) (n : nat) :
  let step := Pipeline.step extract run_checks extract_structure reason req in
  let c := Pipeline.steps extract run_checks extract_structure reason n req
             (Pipeline.initial req) in
  let final := Pipeline.orchestrate extract run_checks extract_structure reason req in
  map Pipeline.stage_name (Pipeline.stage_results (Pipeline.run final))
    = Pipeline.pipelineOrder
  /\ Pipeline.isTerminal (Pipeline.state final) = true
  /\ (exists rest,
        (map Pipeline.stage_name (Pipeline.stage_results (Pipeline.run c)) ++ rest)%list
        = Pipeline.pipelineOrder)
  /\ (exists rest,
        (Pipeline.startedStages (Pipeline.trace c) ++ rest)%list = Pipeline.pipelineOrder)
  /\ Pipeline.startedStages (Pipeline.trace c)
     = map Pipeline.stage_name
         (filter Pipeline.wasExecuted (Pipeline.stage_results (Pipeline.run c)))
  /\ (exists added,
        Pipeline.stage_results (Pipeline.run (step c))
        = (Pipeline.stage_results (Pipeline.run c) ++ added)%list)
  /\ (Pipeline.terminal_error (Pipeline.run c) <> None ->
        step c = c /\ Pipeline.state c = Pipeline.run_failed)
  /\ map Pipeline.stage_name (Pipeline.stage_results (Pipeline.run c))
     = Pipeline.processed (Pipeline.state c)
  /\ (Pipeline.state c <> Pipeline.run_failed ->
        Pipeline.startedStages (Pipeline.trace c) = Pipeline.processed (Pipeline.state c)
        /\ Pipeline.terminal_error (Pipeline.run c) = None
        /\ map Pipeline.status (Pipeline.stage_results (Pipeline.run c))
           = map (fun _ => Pipeline.done) (Pipeline.processed (Pipeline.state c)))
  /\ (Pipeline.terminal_error (Pipeline.run final) = None ->
        Pipeline.state final = Pipeline.completed
        /\ Pipeline.startedStages (Pipeline.trace final) = Pipeline.pipelineOrder
        /\ map Pipeline.status (Pipeline.stage_results (Pipeline.run final))
           = [Pipeline.done; Pipeline.done; Pipeline.done; Pipeline.done])
  /\ (Pipeline.terminal_error (Pipeline.run final) <> None ->
        Pipeline.state final = Pipeline.run_failed
        /\ exists s,
             Pipeline.startedStages (Pipeline.trace final)
             = (Pipeline.stages_before s ++ [s])%list
             /\ map Pipeline.status (Pipeline.stage_results (Pipeline.run final))
                = (map (fun _ => Pipeline.done) (Pipeline.stages_before s)
                   ++ Pipeline.failed
                      :: map (fun _ => Pipeline.skipped) (Pipeline.stages_after s))%list)
  /\ (JsString.trim (extract req) <> "" ->
      (forall r, reason Pipeline.Summary r <> None) ->
      Pipeline.terminal_error (Pipeline.run final) = None).
Proof.
  intros step c final.
  assert (Ic : Pipeline.Inv c) by (apply steps_Inv, Inv_initial).
  assert (If : Pipeline.Inv final) by (apply steps_Inv, Inv_initial).
  assert (Sc : Pipeline.statusesOk c)
    by (apply steps_statuses; [apply Inv_initial | apply statusesOk_initial]).
  assert (Sf : Pipeline.statusesOk final)
    by (apply steps_statuses; [apply Inv_initial | apply statusesOk_initial]).
  assert (Rf : (Pipeline.rank (Pipeline.state final) <= 0)%nat)
    by (apply (steps_rank extract run_checks extract_structure reason 5 req
                 (Pipeline.initial req))).
  assert (Tf : Pipeline.isTerminal (Pipeline.state final) = true)
    by (destruct (Pipeline.state final); cbn in Rf; try lia; reflexivity).
  destruct If as (Fn & _ & Fok & Fbad). destruct Ic as (Cn & Cf & Cok & Cbad).
  destruct Sc as (Cd & _). destruct Sf as (Fd & Ffail).
  split.
  { rewrite Fn. destruct (Pipeline.state final); try discriminate Tf; reflexivity. }
  split; [exact Tf|].
  split.
  { rewrite Cn. destruct (Pipeline.state c); cbn; eexists; reflexivity. }
  split.
  { destruct (Pipeline.state c) eqn:E;
      try (destruct Cok as [-> _]; [discriminate | cbn; eexists; reflexivity]).
    apply Cbad. reflexivity. }
  split; [symmetry; exact Cf|].
  split; [apply step_appends|].
  split.
  { intros Hterm.
    assert (E : Pipeline.state c = Pipeline.run_failed).
    { destruct (Pipeline.state c) eqn:E; try reflexivity;
        destruct Cok as [_ Hnone]; try discriminate; contradiction. }
    split; [|exact E].
    apply step_terminal. rewrite E. reflexivity. }
  split; [exact Cn|].
  split.
  { intros Hne. destruct (Cok Hne) as [Hs Ht]. auto. }
  split.
  { intros Hnone.
    assert (E : Pipeline.state final = Pipeline.completed).
    { destruct (Pipeline.state final) eqn:E; try discriminate Tf; [reflexivity|].
      destruct (Fbad eq_refl) as [Hbad _]. contradiction. }
    assert (Hne : Pipeline.state final <> Pipeline.run_failed)
      by (rewrite E; discriminate).
    split; [exact E|]. destruct (Fok Hne) as [Hs _].
    rewrite Hs, (Fd Hne), E. split; reflexivity. }
  split; [|apply orchestrate_completes].
  intros Hsome.
  assert (E : Pipeline.state final = Pipeline.run_failed).
  { destruct (Pipeline.state final) eqn:E; try discriminate Tf; [|reflexivity].
    destruct Fok as [_ Hnone]; [discriminate | contradiction]. }
  split; [exact E | exact (Ffail E)].
Qed.

Lemma pipeline_order_append_only_witness :
  (let step := Pipeline.step Samples.extractMessage Samples.noFindings
                 Samples.emptyStructure Samples.modelDown Samples.blankRequest in
   let c := Pipeline.steps Samples.extractMessage Samples.noFindings
              Samples.emptyStructure Samples.modelDown 2 Samples.blankRequest
              (Pipeline.initial Samples.blankRequest) in
   step c = c /\ Pipeline.state c = Pipeline.run_failed)
  /\ (let final := Pipeline.orchestrate Samples.extractMessage Samples.noFindings
                     Samples.emptyStructure Samples.modelUp Samples.codeRequest in
      Pipeline.state final = Pipeline.completed
      /\ Pipeline.startedStages (Pipeline.trace final) = Pipeline.pipelineOrder
      /\ map Pipeline.status (Pipeline.stage_results (Pipeline.run final))
         = [Pipeline.done; Pipeline.done; Pipeline.done; Pipeline.done]).
Proof.
  split.
  - intros step c.
    pose proof (pipeline_order_append_only Samples.extractMessage Samples.noFindings
                  Samples.emptyStructure Samples.modelDown Samples.blankRequest 2) as H.
    cbv zeta in H. destruct H as (_ & _ & _ & _ & _ & _ & H & _).
    apply H. vm_compute. discriminate.
  - intros final.
    pose proof (pipeline_order_append_only Samples.extractMessage Samples.noFindings
                  Samples.emptyStructure Samples.modelUp Samples.codeRequest 0) as H.
    cbv zeta in H. destruct H as (_ & _ & _ & _ & _ & _ & _ & _ & _ & H & _ & G).
    apply H. apply G; [vm_compute; discriminate | intros r; discriminate].
Defined.

(** C6.  When the code is empty after trimming, the run ends at the Entry
    stage with [terminal_error] set to the input error, Entry is the only
    stage that starts, and the run makes no tool call and no call of the
    reasoning model. *)
Theorem empty_input_stops_at_entry
    (extract : Pipeline.Request -> string)
    (run_checks : Pipeline.CodeArtifact -> list Pipeline.Finding)
    (extract_structure : Pipeline.CodeArtifact -> Pipeline.StructuralSummary)
    (reason : Pipeline.StageName -> Pipeline.PipelineRun -> option string)
    (req : Pipeline.Request) :
  JsString.trim (extract req) = "" ->
  let final := Pipeline.orchestrate extract run_checks extract_structure reason req in
  Pipeline.terminal_error (Pipeline.run final)
    = Some (Pipeline.InputError "no code provided")
  /\ Pipeline.state final = Pipeline.run_failed
  /\ Pipeline.startedStages (Pipeline.trace final) = [Pipeline.Entry]
  /\ filter Pipeline.isToolCall (Pipeline.trace final) = []
  /\ filter Pipeline.isModelCall (Pipeline.trace final) = []
  /\ map Pipeline.status (Pipeline.stage_results (Pipeline.run final))
     = [Pipeline.failed; Pipeline.skipped; Pipeline.skipped; Pipeline.skipped]
  /\ Pipeline.code (Pipeline.run final) = None.
Proof.
  intros Hempty final. subst final.
  unfold Pipeline.orchestrate.
  cbn [Pipeline.steps Pipeline.step Pipeline.initial Pipeline.state].
  match goal with
  | |- context [Pipeline.runStage ?a ?b ?c ?d Pipeline.Entry req ?c0] =>
      assert (E : Pipeline.state (Pipeline.runStage a b c d Pipeline.Entry req c0)
                  = Pipeline.run_failed
                  /\ Pipeline.runStage a b c d Pipeline.Entry req c0
                     = Pipeline.mkConfig Pipeline.run_failed
                         (Pipeline.mkRun (Pipeline.request_id req) (Pipeline.received_at req)
                            None
                            (Pipeline.mkResult Pipeline.Entry Pipeline.failed None None None
                               (Some (Pipeline.InputError "no code provided"))
                             :: map Pipeline.skippedResult
                                  [Pipeline.Validation; Pipeline.Analysis; Pipeline.Summary])
                            (Some (Pipeline.InputError "no code provided")))
                         [Pipeline.StageStarted Pipeline.Entry])
        by (unfold Pipeline.runStage, Pipeline.executeStage, Pipeline.entryStage;
            rewrite Hempty; split; reflexivity)
  end.
  destruct E as [_ ->].
  repeat split; reflexivity.
Qed.

Lemma empty_input_stops_at_entry_witness :
  let final := Pipeline.orchestrate Samples.extractMessage Samples.noFindings
                 Samples.emptyStructure Samples.modelDown Samples.blankRequest in
  Pipeline.terminal_error (Pipeline.run final)
    = Some (Pipeline.InputError "no code provided")
  /\ Pipeline.state final = Pipeline.run_failed
  /\ Pipeline.startedStages (Pipeline.trace final) = [Pipeline.Entry]
  /\ filter Pipeline.isToolCall (Pipeline.trace final) = []
  /\ filter Pipeline.isModelCall (Pipeline.trace final) = []
  /\ map Pipeline.status (Pipeline.stage_results (Pipeline.run final))
     = [Pipeline.failed; Pipeline.skipped; Pipeline.skipped; Pipeline.skipped]
  /\ Pipeline.code (Pipeline.run final) = None.
Proof.
  apply (empty_input_stops_at_entry Samples.extractMessage Samples.noFindings
           Samples.emptyStructure Samples.modelDown Samples.blankRequest).
  reflexivity.
Defined.

(* ===================================================================== *)
(** * Further properties of the error library and the route *)
(* ===================================================================== *)

(** X1.  [createErrorResponse] builds exactly the body that [toJSON]
    gives for an [HttpException] constructed from the same arguments: the
    two tables of error names, the one of the class and the one of the
    module, agree on every status code. *)
Theorem createErrorResponse_is_toJSON
    (now : JsDate.TimeValue) (sc : HttpStatusCode) (msg : string)
    (err : option string) (dts : option JsObject) :
  HttpErrors.moduleGetDefaultErrorName sc = HttpErrors.getDefaultErrorName sc
  /\ HttpErrors.createErrorResponse now sc msg err dts
     = HttpErrors.toJSON now (HttpErrors.newHttpException sc msg err dts).
Proof.
  assert (T : HttpErrors.moduleGetDefaultErrorName sc = HttpErrors.getDefaultErrorName sc)
    by (destruct sc; reflexivity).
  split; [exact T|].
  unfold HttpErrors.createErrorResponse, HttpErrors.toJSON.
  cbn [HttpErrors.newHttpException error message statusCode details].
  rewrite T. reflexivity.
Qed.

(** X2.  Every status code has a name in the table, so the fallback
    [Unknown Error] is never used: the error name of a constructed
    exception is the label passed in when that is a non-empty string, and
    the table's name for the status code otherwise; it is never empty. *)
Theorem newHttpException_error_name
    (sc : HttpStatusCode) (msg : string) (err : option string) (dts : option JsObject) :
  let h := HttpErrors.newHttpException sc msg err dts in
  HttpErrors.getDefaultErrorName sc = HttpErrors.errorNames sc
  /\ HttpErrors.getDefaultErrorName sc <> "Unknown Error"
  /\ error h <> ""
  /\ error h = match err with
               | Some e => if String.eqb e "" then HttpErrors.errorNames sc else e
               | None => HttpErrors.errorNames sc
               end.
Proof.
  intros h. subst h.
  assert (T : HttpErrors.getDefaultErrorName sc = HttpErrors.errorNames sc)
    by (destruct sc; reflexivity).
  split; [exact T|]. split; [destruct sc; discriminate|].
  cbn [HttpErrors.newHttpException error]. rewrite T.
  destruct err as [e|].
  - unfold HttpErrors.strOr. destruct (String.eqb_spec e "") as [->|Hne].
    + split; [destruct sc; discriminate | reflexivity].
    + split; [exact Hne | reflexivity].
  - split; [destruct sc; discriminate | reflexivity].
Qed.

(** X3.  Each predefined error class carries the status code of its name,
    and the label it passes to the base class is the table's name for that
    status code; the details are passed through. *)
Theorem predefined_classes_match_table
    (msg : string) (omsg : option string) (dts : option JsObject) :
  Forall (fun ch : HttpStatusCode * HttpException =>
            statusCode (snd ch) = fst ch
            /\ error (snd ch) = HttpErrors.getDefaultErrorName (fst ch)
            /\ details (snd ch) = dts)
    [ (SC400, HttpErrors.BadRequestError msg dts);
      (SC401, HttpErrors.UnauthorizedError omsg dts);
      (SC403, HttpErrors.ForbiddenError omsg dts);
      (SC404, HttpErrors.NotFoundError omsg dts);
      (SC409, HttpErrors.ConflictError msg dts);
      (SC422, HttpErrors.UnprocessableEntityError msg dts);
      (SC429, HttpErrors.TooManyRequestsError omsg dts);
      (SC500, HttpErrors.InternalServerError omsg dts);
      (SC502, HttpErrors.BadGatewayError omsg dts);
      (SC503, HttpErrors.ServiceUnavailableError omsg dts);
      (SC504, HttpErrors.GatewayTimeoutError omsg dts) ].
Proof. repeat (constructor; [repeat split; reflexivity|]). constructor. Qed.

(** X4.  The request id of an envelope comes from [details.requestId]
    when that is truthy, otherwise from [details.request_id] when that is
    truthy, and is absent otherwise; where it is present it is the
    [String] of the value it comes from. *)
Theorem request_id_precedence
    (now : JsDate.TimeValue) (h : HttpException) (dts : JsObject)
    (request : option ApiErrorHandler.NextRequest)
    (response : ApiErrorHandler.NextResponse) :
  details h = Some dts ->
  ApiErrorHandler.handleApiError now (JHttp h) request = Returned response ->
  exists envelope,
    ApiErrorHandler.body response = JObj envelope
    /\ if Js.truthy (Js.prop "requestId" dts)
       then exists rid, Js.toString (Js.prop "requestId" dts) = Returned rid
                        /\ Js.obj_get "request_id" envelope = Some (JStr rid)
       else if Js.truthy (Js.prop "request_id" dts)
            then exists rid, Js.toString (Js.prop "request_id" dts) = Returned rid
                             /\ Js.obj_get "request_id" envelope = Some (JStr rid)
            else Js.obj_get "request_id" envelope = None.
Proof.
  intros Hd H.
  destruct (handleApiError_returned _ _ _ _ H) as (h' & Hh & _ & Hb).
  cbn [HttpErrors.toHttpException] in Hh. injection Hh as <-.
  unfold ApiErrorHandler.backendRequestId, ApiErrorHandler.optProp, Js.or in Hb.
  rewrite Hd in Hb.
  destruct (Js.truthy (Js.prop "requestId" dts)) eqn:E1.
  - rewrite E1 in Hb. destruct Hb as [[Hf _] | [_ (rid & Hr & Hb)]]; [discriminate Hf|].
    eexists. split; [exact Hb|]. exists rid. split; [exact Hr | apply with_request_id_get].
  - destruct (Js.truthy (Js.prop "request_id" dts)) eqn:E2.
    + destruct Hb as [[Hf _] | [_ (rid & Hr & Hb)]]; [discriminate Hf|].
      eexists. split; [exact Hb|]. exists rid. split; [exact Hr | apply with_request_id_get].
    + destruct Hb as [[_ Hb] | [Ht _]]; [|discriminate Ht].
      eexists. split; [exact Hb | apply (toJSON_fields now)].
Qed.

Lemma request_id_precedence_witness :
  exists envelope,
    JObj [ ("error", JStr "Internal Server Error");
           ("message", JStr "Internal server error");
           ("status_code", JNum (statusInteger SC500));
           ("timestamp", JStr "2023-11-14T22:13:20.000Z");
           ("details", JObj [("request_id", JStr "late"); ("requestId", JNum Samples.fortyTwo)]);
           ("request_id", JStr "42") ] = JObj envelope
    /\ exists rid, Returned "42" = Returned rid
                   /\ Js.obj_get "request_id" envelope = Some (JStr rid).
Proof.
  apply (request_id_precedence Samples.clock
           (HttpErrors.InternalServerError None
              (Some [("request_id", JStr "late"); ("requestId", JNum Samples.fortyTwo)]))
           [("request_id", JStr "late"); ("requestId", JNum Samples.fortyTwo)] None
           (ApiErrorHandler.mkResponse 500 [("content-type", "application/json")]
              (JObj [ ("error", JStr "Internal Server Error");
                      ("message", JStr "Internal server error");
                      ("status_code", JNum (statusInteger SC500));
                      ("timestamp", JStr "2023-11-14T22:13:20.000Z");
                      ("details", JObj [("request_id", JStr "late");
                                        ("requestId", JNum Samples.fortyTwo)]);
                      ("request_id", JStr "42") ])));
    reflexivity.
Defined.

(** X5.  A thrown value that is not an [HttpException] never yields a
    [request_id] in the envelope, whatever properties it carries: the
    details of the wrapping error hold [originalError] only. *)
Theorem non_http_error_has_no_request_id
    (now : JsDate.TimeValue) (thrown : JsValue)
    (request : option ApiErrorHandler.NextRequest)
    (response : ApiErrorHandler.NextResponse) :
  HttpErrors.isHttpException thrown = false ->
  ApiErrorHandler.handleApiError now thrown request = Returned response ->
  exists envelope,
    ApiErrorHandler.body response = JObj envelope
    /\ Js.obj_get "request_id" envelope = None
    /\ exists original,
         Js.obj_get "details" envelope = Some (JObj [("originalError", JStr original)]).
Proof.
  intros Hnot H.
  destruct (handleApiError_returned _ _ _ _ H) as (h & Hh & _ & _).
  rewrite (handleApiError_non_http now _ request _ Hnot Hh) in H. injection H as <-.
  destruct (toHttpException_wraps _ _ Hnot Hh) as (_ & _ & (original & Hd) & _).
  destruct (toJSON_fields now h) as (_ & _ & _ & _ & Hdt & Hr).
  eexists. split; [reflexivity|]. split; [exact Hr|].
  exists original. rewrite Hdt, Hd. reflexivity.
Qed.

Lemma non_http_error_has_no_request_id_witness :
  exists envelope,
    JObj [ ("error", JStr "Internal Server Error");
           ("message", JStr "could not connect to the model");
           ("status_code", JNum (statusInteger SC500));
           ("timestamp", JStr "2023-11-14T22:13:20.000Z");
           ("details", JObj [("originalError", JStr "Error")]) ] = JObj envelope
    /\ Js.obj_get "request_id" envelope = None
    /\ exists original,
         Js.obj_get "details" envelope = Some (JObj [("originalError", JStr original)]).
Proof.
  apply (non_http_error_has_no_request_id Samples.clock MoreSamples.clientError None
           (ApiErrorHandler.mkResponse 500 [("content-type", "application/json")]
              (JObj [ ("error", JStr "Internal Server Error");
                      ("message", JStr "could not connect to the model");
                      ("status_code", JNum (statusInteger SC500));
                      ("timestamp", JStr "2023-11-14T22:13:20.000Z");
                      ("details", JObj [("originalError", JStr "Error")]) ])));
    reflexivity.
Defined.

(** X6.  Whatever [validateRequest] throws is an [HttpException] with
    status 405, the error name [Method Not Allowed] and no details, and it
    is thrown only for a request whose method differs from a required,
    non-empty method. *)
Theorem validateRequest_throws_only_405
    (req : ApiErrorHandler.NextRequest) (options : option ApiErrorHandler.ValidateOptions)
    (thrown : JsValue) :
  ApiErrorHandler.validateRequest req options = Thrown thrown ->
  exists h required,
    thrown = JHttp h
    /\ statusCode h = SC405
    /\ error h = "Method Not Allowed"
    /\ details h = None
    /\ message h = "Method " ++ ApiErrorHandler.method req ++ " not allowed. Expected " ++ required
    /\ option_map ApiErrorHandler.requiredMethod options = Some (Some required)
    /\ required <> ""
    /\ ApiErrorHandler.method req <> required.
Proof.
  unfold ApiErrorHandler.validateRequest.
  destruct options as [o|]; [|discriminate].
  destruct (ApiErrorHandler.requiredMethod o) as [required|] eqn:Er; [|discriminate].
  destruct (String.eqb_spec required "") as [->|Hne]; [discriminate|].
  destruct (String.eqb_spec (ApiErrorHandler.method req) required) as [E|Hm]; [discriminate|].
  cbn [negb andb]. intros H. injection H as <-.
  eexists. exists required. repeat split; try reflexivity; try assumption.
  cbn [option_map]. now rewrite Er.
Qed.

Lemma validateRequest_throws_only_405_witness :
  exists h required,
    JHttp (HttpErrors.newHttpException SC405 "Method GET not allowed. Expected POST"
             (Some "Method Not Allowed") None) = JHttp h
    /\ statusCode h = SC405
    /\ error h = "Method Not Allowed"
    /\ details h = None
    /\ message h = "Method " ++ ApiErrorHandler.method Samples.getRequest
                     ++ " not allowed. Expected " ++ required
    /\ option_map ApiErrorHandler.requiredMethod
         (Some (ApiErrorHandler.mkOptions (Some "POST") None None)) = Some (Some required)
    /\ required <> ""
    /\ ApiErrorHandler.method Samples.getRequest <> required.
Proof.
  apply (validateRequest_throws_only_405 Samples.getRequest
           (Some (ApiErrorHandler.mkOptions (Some "POST") None None))).
  reflexivity.
Defined.

(** X7.  [validateRequest] returns normally exactly when no options are
    given, no method is required, the required method is the empty string,
    or the request has the required method; body and header requirements
    are never enforced. *)
Theorem validateRequest_accepts_iff
    (req : ApiErrorHandler.NextRequest) (options : option ApiErrorHandler.ValidateOptions) :
  ApiErrorHandler.validateRequest req options = Returned tt
  <-> (match options with
       | Some o =>
           match ApiErrorHandler.requiredMethod o with
           | Some required => required = "" \/ ApiErrorHandler.method req = required
           | None => True
           end
       | None => True
       end).
Proof.
  unfold ApiErrorHandler.validateRequest.
  destruct options as [o|]; [|tauto].
  destruct (ApiErrorHandler.requiredMethod o) as [required|]; [|tauto].
  destruct (String.eqb_spec required "") as [->|Hne]; cbn [negb andb]; [tauto|].
  destruct (String.eqb_spec (ApiErrorHandler.method req) required) as [E|Hm];
    cbn [negb]; split; intros H; try reflexivity; try tauto; try discriminate.
Qed.

Lemma validateRequest_accepts_iff_witness :
  ApiErrorHandler.validateRequest Samples.postRequest
    (Some (ApiErrorHandler.mkOptions (Some "POST") None (Some ["x-api-key"])))
  = Returned tt.
Proof.
  apply (proj2 (validateRequest_accepts_iff Samples.postRequest
                  (Some (ApiErrorHandler.mkOptions (Some "POST") None (Some ["x-api-key"]))))).
  right. reflexivity.
Defined.


(** ** More on parsing backend error responses *)

(** X8.  Neither [parseBackendErrorResponse] nor
    [handleBackendErrorResponse] ever throws, whatever the response and
    its body, and the second returns what the first returns. *)
Theorem backend_error_parsing_never_throws
    (response : BackendErrorHandler.Response) (context : option JsObject) :
  (exists r, BackendErrorHandler.parseBackendErrorResponse response = Returned r)
  /\ BackendErrorHandler.handleBackendErrorResponse response context
     = BackendErrorHandler.parseBackendErrorResponse response.
Proof.
  destruct (parse_never_throws response) as [r Hr]. split; [exists r; exact Hr|].
  unfold BackendErrorHandler.handleBackendErrorResponse. rewrite Hr. reflexivity.
Qed.

(** X9.  The parser answers [null] exactly when the response is ok, or
    when the body is JSON whose [error] can be read and is falsy, or whose
    [error] is truthy and whose [message] is falsy. *)
Theorem parse_returns_null_iff (response : BackendErrorHandler.Response) :
  BackendErrorHandler.parseBackendErrorResponse response = Returned None
  <-> (BackendErrorHandler.ok response = true
       \/ exists data e,
            BackendErrorHandler.json response = Returned data
            /\ Js.getProp data "error" = Returned e
            /\ (Js.truthy e = false
                \/ exists m, Js.getProp data "message" = Returned m /\ Js.truthy m = false)).
Proof.
  unfold BackendErrorHandler.parseBackendErrorResponse, Exc.tryCatch, Exc.bind.
  destruct (BackendErrorHandler.ok response); cbn [negb].
  { split; [intros _; left; reflexivity | reflexivity]. }
  destruct (BackendErrorHandler.json response) as [data|x].
  2:{ split; [discriminate|]. intros [H|(d & e & H & _)]; discriminate. }
  destruct (Js.getProp data "error") as [e|x] eqn:Ee.
  2:{ split; [discriminate|]. intros [H|(d & e & Hd & He & _)]; [discriminate|].
      injection Hd as <-. rewrite Ee in He. discriminate. }
  destruct (Js.truthy e) eqn:Te.
  2:{ split; [|reflexivity]. intros _. right. exists data, e. auto. }
  destruct (Js.getProp data "message") as [m|x] eqn:Em.
  2:{ split; [discriminate|]. intros [H|(d & e' & Hd & He & [Hf|(m & Hm & _)])];
        try discriminate; injection Hd as <-.
      - rewrite Ee in He. injection He as <-. rewrite Te in Hf. discriminate.
      - rewrite Em in Hm. discriminate. }
  destruct (Js.truthy m) eqn:Tm.
  - repeat (match goal with
            | |- context [Js.getProp data ?k] => destruct (Js.getProp data k)
            end).
    all: split; [discriminate|].
    all: intros [H|(d & e' & Hd & He & [Hf|(m' & Hm & Hf)])]; try discriminate;
      injection Hd as <-.
    all: try (rewrite Ee in He; injection He as <-; rewrite Te in Hf; discriminate).
    all: try (rewrite Em in Hm; injection Hm as <-; rewrite Tm in Hf; discriminate).
  - split; [|reflexivity]. intros _. right. exists data, e.
    repeat split; auto. right. exists m. auto.
Qed.

Lemma parse_returns_null_iff_witness :
  BackendErrorHandler.parseBackendErrorResponse
    (BackendErrorHandler.mkResponse 200 "OK" [] "/explain" (Returned JNull))
  = Returned None.
Proof.
  apply (proj2 (parse_returns_null_iff
                  (BackendErrorHandler.mkResponse 200 "OK" [] "/explain" (Returned JNull)))).
  left. reflexivity.
Defined.


(** X10.  A record the parser returns always has a truthy [error] and a
    truthy [message], and always has a [request_id] property (possibly
    [undefined]). *)
Theorem parsed_record_has_error_and_message
    (response : BackendErrorHandler.Response) (record : JsObject) :
  BackendErrorHandler.parseBackendErrorResponse response = Returned (Some record) ->
  Js.truthy (Js.prop "error" record) = true
  /\ Js.truthy (Js.prop "message" record) = true
  /\ exists rid, Js.obj_get "request_id" record = Some rid.
Proof.
  unfold BackendErrorHandler.parseBackendErrorResponse, Exc.tryCatch, Exc.bind.
  destruct (BackendErrorHandler.ok response); cbn [negb]; [discriminate|].
  assert (G : Js.truthy (Js.prop "error" (BackendErrorHandler.genericError response)) = true
              /\ Js.truthy (Js.prop "message" (BackendErrorHandler.genericError response)) = true
              /\ exists rid, Js.obj_get "request_id" (BackendErrorHandler.genericError response)
                             = Some rid).
  { repeat split; try reflexivity. eexists; reflexivity. }
  destruct (BackendErrorHandler.json response) as [data|x];
    [|intros H; injection H as <-; exact G].
  destruct (Js.getProp data "error") as [e|x];
    [|intros H; injection H as <-; exact G].
  destruct (Js.truthy e) eqn:Te; [|discriminate].
  destruct (Js.getProp data "message") as [m|x];
    [|intros H; injection H as <-; exact G].
  destruct (Js.truthy m) eqn:Tm; [|discriminate].
  repeat (match goal with
          | |- context [Js.getProp data ?k] => destruct (Js.getProp data k)
          end; [|intros H; injection H as <-; exact G]).
  intros H. injection H as <-. cbn. repeat split; try assumption. eexists; reflexivity.
Qed.

Lemma parsed_record_has_error_and_message_witness :
  Js.truthy (Js.prop "error" MoreSamples.backendError) = true
  /\ Js.truthy (Js.prop "message" MoreSamples.backendError) = true
  /\ exists rid, Js.obj_get "request_id" MoreSamples.backendError = Some rid.
Proof.
  apply (parsed_record_has_error_and_message
           (BackendErrorHandler.mkResponse 422 "Unprocessable Entity" [] "/explain"
              (Returned (JObj [ ("message", JStr "could not connect to the model");
                                ("request_id", JStr "req-42");
                                ("error", JStr "ValidationError") ])))).
  reflexivity.
Defined.

(** ** More on the route *)

(** The captured run of the request-id pattern is made of id characters. *)
Lemma takeId_chars (s : string) :
  forallb Route.isIdChar (list_ascii_of_string (Route.takeId s)) = true.
Proof.
  induction s as [|c s IH]; [reflexivity|].
  cbn [Route.takeId]. destruct (Route.isIdChar c) eqn:E; [|reflexivity].
  cbn [list_ascii_of_string forallb]. now rewrite E, IH.
Qed.

Lemma requestIdAt_valid (s id : string) :
  Route.requestIdAt s = Some id ->
  id <> "" /\ forallb Route.isIdChar (list_ascii_of_string id) = true.
Proof.
  unfold Route.requestIdAt.
  destruct (String.eqb _ "request_id"); [|discriminate].
  destruct (JsString.trimStart _) as [|c rest]; [discriminate|].
  destruct (Ascii.eqb_spec c ":"%char) as [->|Hc].
  2:{ destruct c as [[] [] [] [] [] [] [] []]; try discriminate; now elim Hc. }
  pose proof (takeId_chars (Route.skipQuote (JsString.trimStart rest))) as T.
  destruct (Route.takeId _) as [|a t]; [discriminate|].
  intros H. injection H as <-. split; [discriminate | exact T].
Qed.

(** X11.  A request id found by the route's pattern is never empty and
    holds no quote, no white space and no closing brace. *)
Theorem matchRequestId_valid (s id : string) :
  Route.matchRequestId s = Some id ->
  id <> "" /\ forallb Route.isIdChar (list_ascii_of_string id) = true.
Proof.
  induction s as [|c s IH]; cbn [Route.matchRequestId].
  - destruct (Route.requestIdAt "") eqn:E; [|discriminate].
    intros H. injection H as <-. now apply requestIdAt_valid in E.
  - destruct (Route.requestIdAt (String c s)) eqn:E.
    + intros H. injection H as <-. now apply requestIdAt_valid in E.
    + exact IH.
Qed.

Lemma matchRequestId_valid_witness :
  "abc-123" <> ""
  /\ forallb Route.isIdChar (list_ascii_of_string "abc-123") = true.
Proof.
  apply (matchRequestId_valid "HTTP 500: {'error': 'E', 'request_id': 'abc-123'}").
  reflexivity.
Defined.

Lemma matchRequestId_nonempty (s id : string) :
  Route.matchRequestId s = Some id -> exists c t, id = String c t.
Proof.
  induction s as [|c s IH]; cbn [Route.matchRequestId].
  - destruct (Route.requestIdAt "") eqn:E; [|discriminate].
    intros H. injection H as <-. apply requestIdAt_valid in E as [E _].
    destruct s; [now elim E | eexists; eexists; reflexivity].
  - destruct (Route.requestIdAt (String c s)) as [i|] eqn:E; [|exact IH].
    intros H. injection H as <-. apply requestIdAt_valid in E as [E _].
    destruct i; [now elim E | eexists; eexists; reflexivity].
Qed.

(** What the [catch] block throws for a plain [Error] is the error
    itself or one of three exceptions, and each of them is answered, with
    status 500, 502 or 503. *)
Lemma onHandlerError_answer
    (AGENT_URL : option string) (JSON_parse : string -> Outcome JsValue)
    (now : JsDate.TimeValue) (e : ErrorObject)
    (request : option ApiErrorHandler.NextRequest) :
  exists thrown response,
    Route.onHandlerError AGENT_URL JSON_parse (JError e) = Thrown thrown
    /\ ApiErrorHandler.handleApiError now thrown request = Returned response
    /\ In (ApiErrorHandler.status response) [500; 502; 503].
Proof.
  destruct (Js.truthy (Js.prop "backendError" (err_props e))) eqn:Eb.
  { exists (JError e). eexists. unfold Route.onHandlerError. cbn [Route.asError].
    rewrite Eb. split; [reflexivity|]. split; [reflexivity | left; reflexivity]. }
  destruct (JsString.includes (err_message e) "ECONNREFUSED"
            || JsString.includes (err_message e) "connect") eqn:Ec.
  { eexists. eexists. unfold Route.onHandlerError. cbn [Route.asError]. rewrite Eb, Ec.
    split; [reflexivity|]. split; [reflexivity | right; right; left; reflexivity]. }
  destruct (JsString.includes (err_message e) "timeout") eqn:Et.
  { eexists. eexists. unfold Route.onHandlerError. cbn [Route.asError].
    rewrite Eb, Ec, Et.
    split; [reflexivity|]. split; [reflexivity | right; left; reflexivity]. }
  destruct (JsString.includes (err_message e) "HTTP 500"
            || JsString.includes (err_message e) "Internal server error"
            || JsString.includes (err_message e) "HTTP") eqn:Eh.
  - rewrite (onHandlerError_http_branch AGENT_URL JSON_parse (JError e) (err_message e)
               (Js.prop "backendError" (err_props e))) by auto.
    unfold Route.backendServiceError.
    destruct (Route.matchRequestId (err_message e)) as [id|] eqn:Em;
      [destruct (matchRequestId_nonempty _ _ Em) as [c [t ->]]|];
      eexists; eexists; (split; [reflexivity|]); (split; [reflexivity | left; reflexivity]).
  - exists (JError e). eexists. unfold Route.onHandlerError. cbn [Route.asError].
    rewrite Eb, Ec, Et, Eh.
    split; [reflexivity|]. split; [reflexivity | left; reflexivity].
Qed.

(** The envelope for a plain [Error]. *)
Lemma plain_error_envelope
    (now : JsDate.TimeValue) (e : ErrorObject)
    (request : option ApiErrorHandler.NextRequest) :
  exists response,
    ApiErrorHandler.handleApiError now (JError e) request = Returned response
    /\ ApiErrorHandler.status response = 500
    /\ exists envelope,
         ApiErrorHandler.body response = JObj envelope
         /\ Js.obj_get "message" envelope = Some (JStr (err_message e))
         /\ Js.obj_get "request_id" envelope = None.
Proof.
  eexists. split; [reflexivity|]. split; [reflexivity|].
  eexists. split; [reflexivity|]. split; reflexivity.
Qed.

(** X12.  The route's [catch] block never produces a response of its own:
    the inner handler returns a response exactly when CopilotKit's
    [handleRequest] returned that response. *)
Theorem routeHandler_returns_iff
    (AGENT_URL : option string) (JSON_parse : string -> Outcome JsValue)
    (handleRequest : ApiErrorHandler.NextRequest -> Outcome ApiErrorHandler.NextResponse)
    (req : ApiErrorHandler.NextRequest) (response : ApiErrorHandler.NextResponse) :
  Route.routeHandler AGENT_URL JSON_parse handleRequest req = Returned response
  <-> handleRequest req = Returned response.
Proof.
  unfold Route.routeHandler, Exc.tryCatch.
  destruct (handleRequest req) as [r|thrown]; [tauto|].
  destruct (onHandlerError_throws AGENT_URL JSON_parse thrown) as [t ->].
  split; discriminate.
Qed.

Lemma routeHandler_returns_iff_witness :
  Route.routeHandler None Samples.noJson (fun _ => Returned Samples.okResponse)
    Samples.postRequest = Returned Samples.okResponse.
Proof.
  apply (proj2 (routeHandler_returns_iff None Samples.noJson
                  (fun _ => Returned Samples.okResponse) Samples.postRequest
                  Samples.okResponse)).
  reflexivity.
Defined.


(** X13.  When the upstream call throws anything that is not an
    [HttpException], every answer of the route has status 500, 502 or
    503; and the route answers unless the thrown value is neither an
    [Error] nor a value that has a [String]. *)
Theorem POST_error_status_range
    (AGENT_URL : option string) (JSON_parse : string -> Outcome JsValue)
    (handleRequest : ApiErrorHandler.NextRequest -> Outcome ApiErrorHandler.NextResponse)
    (now : JsDate.TimeValue) (req : ApiErrorHandler.NextRequest) (thrown : JsValue) :
  handleRequest req = Thrown thrown ->
  HttpErrors.isHttpException thrown = false ->
  (forall response,
     Route.POST AGENT_URL JSON_parse handleRequest now req = Returned response ->
     In (ApiErrorHandler.status response) [500; 502; 503])
  /\ ((exists response,
         Route.POST AGENT_URL JSON_parse handleRequest now req = Returned response)
      <-> ((exists e, thrown = JError e) \/ exists s, Js.toString thrown = Returned s)).
Proof.
  intros Hh Hnot.
  unfold Route.POST, ApiErrorHandler.withErrorHandler, Route.routeHandler, Exc.tryCatch.
  rewrite Hh.
  destruct thrown as [| |b|n|s|items|props|e|h]; try discriminate Hnot.
  8:{ destruct (onHandlerError_answer AGENT_URL JSON_parse now e (Some req))
        as (thrown & response & -> & Hr & Hs).
      rewrite Hr. split.
      - intros response' H. injection H as <-. exact Hs.
      - split; [intros _; left; exists e; reflexivity | intros _; exists response; reflexivity]. }
  all: cbn [Route.onHandlerError Route.asError].
  all: match goal with
       | |- context [ApiErrorHandler.handleApiError ?n ?t ?r] =>
           pose proof (handleApiError_returned n t r) as R;
           pose proof (fun h => handleApiError_non_http n t r h eq_refl) as N;
           pose proof (toHttpException_returns_iff t) as I
       end.
  all: split;
    [ intros response H; destruct (R _ H) as (h & Hh' & _);
      rewrite (N h Hh') in H; injection H as <-; left; reflexivity |].
  all: split;
    [ intros [response H]; destruct (R _ H) as (h & Hh' & _);
      destruct (proj1 I (ex_intro _ h Hh')) as [[h' E] | [[e E] | S]];
      [discriminate E | discriminate E | right; exact S]
    | intros [[e E] | S]; [discriminate E|];
      destruct (proj2 I (or_intror (or_intror S))) as [h Hh'];
      rewrite (N h Hh'); eexists; reflexivity ].
Qed.

Lemma POST_error_status_range_witness :
  (forall response,
     Route.POST None Samples.noJson (fun _ => Thrown (JError MoreSamples.fetchFailed))
       Samples.clock Samples.postRequest = Returned response ->
     In (ApiErrorHandler.status response) [500; 502; 503])
  /\ ((exists response,
         Route.POST None Samples.noJson (fun _ => Thrown (JError MoreSamples.fetchFailed))
           Samples.clock Samples.postRequest = Returned response)
      <-> ((exists e, JError MoreSamples.fetchFailed = JError e)
           \/ exists s, Js.toString (JError MoreSamples.fetchFailed) = Returned s)).
Proof.
  apply (POST_error_status_range None Samples.noJson
           (fun _ => Thrown (JError MoreSamples.fetchFailed)) Samples.clock
           Samples.postRequest (JError MoreSamples.fetchFailed));
    reflexivity.
Defined.

(** X14.  An upstream error whose message mentions HTTP (or an internal
    server error), and neither a connection failure nor a timeout, is
    always answered with status 500 and the fixed message of the route,
    whether or not the message holds JSON and whatever that JSON says; the
    envelope carries a [request_id] exactly when the route's pattern finds
    one in the message, and its details keep the original message. *)
Theorem POST_http_error_is_generic
    (AGENT_URL : option string) (JSON_parse : string -> Outcome JsValue)
    (handleRequest : ApiErrorHandler.NextRequest -> Outcome ApiErrorHandler.NextResponse)
    (now : JsDate.TimeValue) (req : ApiErrorHandler.NextRequest) (e : ErrorObject) :
  handleRequest req = Thrown (JError e) ->
  Js.truthy (Js.prop "backendError" (err_props e)) = false ->
  JsString.includes (err_message e) "ECONNREFUSED"
    || JsString.includes (err_message e) "connect" = false ->
  JsString.includes (err_message e) "timeout" = false ->
  JsString.includes (err_message e) "HTTP 500"
    || JsString.includes (err_message e) "Internal server error"
    || JsString.includes (err_message e) "HTTP" = true ->
  exists response,
    Route.POST AGENT_URL JSON_parse handleRequest now req = Returned response
    /\ ApiErrorHandler.status response = 500
    /\ exists envelope,
         ApiErrorHandler.body response = JObj envelope
         /\ Js.obj_get "message" envelope
            = Some (JStr "Backend service error. Please check backend logs for details.")
         /\ Js.obj_get "request_id" envelope
            = option_map JStr (Route.matchRequestId (err_message e))
         /\ exists dts,
              Js.obj_get "details" envelope = Some (JObj dts)
              /\ Js.obj_get "originalError" dts = Some (JStr (err_message e)).
Proof.
  intros Hh Hb Hc Ht Hp.
  unfold Route.POST, ApiErrorHandler.withErrorHandler, Route.routeHandler, Exc.tryCatch.
  rewrite Hh.
  rewrite (onHandlerError_http_branch AGENT_URL JSON_parse (JError e) (err_message e)
             (Js.prop "backendError" (err_props e))) by auto.
  unfold Route.backendServiceError.
  destruct (Route.matchRequestId (err_message e)) as [id|] eqn:Em.
  - destruct (matchRequestId_nonempty _ _ Em) as [c [t ->]].
    eexists. split; [reflexivity|]. split; [reflexivity|]. eexists. split; [reflexivity|].
    repeat split; try reflexivity. eexists. split; reflexivity.
  - eexists. split; [reflexivity|]. split; [reflexivity|]. eexists. split; [reflexivity|].
    repeat split; try reflexivity. eexists. split; reflexivity.
Qed.

Lemma POST_http_error_is_generic_witness :
  exists response,
    Route.POST None Samples.noJson (fun _ => Thrown (JError MoreSamples.http500))
      Samples.clock Samples.postRequest = Returned response
    /\ ApiErrorHandler.status response = 500
    /\ exists envelope,
         ApiErrorHandler.body response = JObj envelope
         /\ Js.obj_get "message" envelope
            = Some (JStr "Backend service error. Please check backend logs for details.")
         /\ Js.obj_get "request_id" envelope
            = option_map JStr (Route.matchRequestId (err_message MoreSamples.http500))
         /\ exists dts,
              Js.obj_get "details" envelope = Some (JObj dts)
              /\ Js.obj_get "originalError" dts = Some (JStr (err_message MoreSamples.http500)).
Proof.
  apply (POST_http_error_is_generic None Samples.noJson
           (fun _ => Thrown (JError MoreSamples.http500)) Samples.clock Samples.postRequest
           MoreSamples.http500);
    reflexivity.
Defined.

(** X15.  An upstream error whose message mentions a timeout, and no
    connection failure, is answered with status 502, the error name Bad
    Gateway and the details [{timeout: true}]. *)
Theorem POST_timeout_is_502
    (AGENT_URL : option string) (JSON_parse : string -> Outcome JsValue)
    (handleRequest : ApiErrorHandler.NextRequest -> Outcome ApiErrorHandler.NextResponse)
    (now : JsDate.TimeValue) (req : ApiErrorHandler.NextRequest) (e : ErrorObject) :
  handleRequest req = Thrown (JError e) ->
  Js.truthy (Js.prop "backendError" (err_props e)) = false ->
  JsString.includes (err_message e) "ECONNREFUSED"
    || JsString.includes (err_message e) "connect" = false ->
  JsString.includes (err_message e) "timeout" = true ->
  exists response,
    Route.POST AGENT_URL JSON_parse handleRequest now req = Returned response
    /\ ApiErrorHandler.status response = 502
    /\ exists envelope,
         ApiErrorHandler.body response = JObj envelope
         /\ Js.obj_get "error" envelope = Some (JStr "Bad Gateway")
         /\ Js.obj_get "details" envelope = Some (JObj [("timeout", JBool true)])
         /\ Js.obj_get "request_id" envelope = None.
Proof.
  intros Hh Hb Hc Ht.
  unfold Route.POST, ApiErrorHandler.withErrorHandler, Route.routeHandler, Exc.tryCatch.
  rewrite Hh. unfold Route.onHandlerError, Route.asError. rewrite Hb, Hc, Ht.
  eexists. split; [reflexivity|]. split; [reflexivity|].
  eexists. split; [reflexivity|]. repeat split; reflexivity.
Qed.

Lemma POST_timeout_is_502_witness :
  exists response,
    Route.POST None Samples.noJson (fun _ => Thrown Samples.timedOut)
      Samples.clock Samples.postRequest = Returned response
    /\ ApiErrorHandler.status response = 502
    /\ exists envelope,
         ApiErrorHandler.body response = JObj envelope
         /\ Js.obj_get "error" envelope = Some (JStr "Bad Gateway")
         /\ Js.obj_get "details" envelope = Some (JObj [("timeout", JBool true)])
         /\ Js.obj_get "request_id" envelope = None.
Proof.
  apply (POST_timeout_is_502 None Samples.noJson (fun _ => Thrown Samples.timedOut)
           Samples.clock Samples.postRequest
           (mkError "FetchError" "network timeout at: http://localhost:8123/explain" []));
    reflexivity.
Defined.

(** X16.  An upstream [Error] whose message matches none of the route's
    patterns is passed on unchanged: the answer has status 500 and keeps
    the message of the error. *)
Theorem POST_unmatched_error_passes_through
    (AGENT_URL : option string) (JSON_parse : string -> Outcome JsValue)
    (handleRequest : ApiErrorHandler.NextRequest -> Outcome ApiErrorHandler.NextResponse)
    (now : JsDate.TimeValue) (req : ApiErrorHandler.NextRequest) (e : ErrorObject) :
  handleRequest req = Thrown (JError e) ->
  JsString.includes (err_message e) "ECONNREFUSED"
    || JsString.includes (err_message e) "connect" = false ->
  JsString.includes (err_message e) "timeout" = false ->
  JsString.includes (err_message e) "HTTP 500"
    || JsString.includes (err_message e) "Internal server error"
    || JsString.includes (err_message e) "HTTP" = false ->
  exists response,
    Route.POST AGENT_URL JSON_parse handleRequest now req = Returned response
    /\ ApiErrorHandler.handleApiError now (JError e) (Some req) = Returned response
    /\ ApiErrorHandler.status response = 500
    /\ exists envelope,
         ApiErrorHandler.body response = JObj envelope
         /\ Js.obj_get "message" envelope = Some (JStr (err_message e)).
Proof.
  intros Hh Hc Ht Hp.
  unfold Route.POST, ApiErrorHandler.withErrorHandler, Route.routeHandler, Exc.tryCatch.
  rewrite Hh. unfold Route.onHandlerError, Route.asError. rewrite Hc, Ht, Hp.
  assert (E : (if Js.truthy (Js.prop "backendError" (err_props e))
               then @Thrown ApiErrorHandler.NextResponse (JError e)
               else Thrown (JError e)) = Thrown (JError e))
    by (destruct (Js.truthy _); reflexivity).
  rewrite E. eexists. split; [reflexivity|]. split; [reflexivity|]. split; [reflexivity|].
  eexists. split; reflexivity.
Qed.

Lemma POST_unmatched_error_passes_through_witness :
  exists response,
    Route.POST None Samples.noJson (fun _ => Thrown (JError MoreSamples.fetchFailed))
      Samples.clock Samples.postRequest = Returned response
    /\ ApiErrorHandler.handleApiError Samples.clock (JError MoreSamples.fetchFailed)
         (Some Samples.postRequest) = Returned response
    /\ ApiErrorHandler.status response = 500
    /\ exists envelope,
         ApiErrorHandler.body response = JObj envelope
         /\ Js.obj_get "message" envelope = Some (JStr (err_message MoreSamples.fetchFailed)).
Proof.
  apply (POST_unmatched_error_passes_through None Samples.noJson
           (fun _ => Thrown (JError MoreSamples.fetchFailed)) Samples.clock
           Samples.postRequest MoreSamples.fetchFailed);
    reflexivity.
Defined.

(** What [createClientErrorFromBackend] returns: an [Error] tagged with
    the backend error, whose message is the [String] of the backend's
    message, or empty when there is none. *)
Lemma createClientErrorFromBackend_returned (backendError : JsObject) (made : JsValue) :
  BackendErrorHandler.createClientErrorFromBackend backendError = Returned made ->
  exists text,
    made = JError (mkError "Error" text
                     [ ("backendError", JObj backendError);
                       ("requestId", Js.prop "request_id" backendError) ])
    /\ match Js.prop "message" backendError with
       | JUndefined => text = ""
       | _ => Js.toString (Js.prop "message" backendError) = Returned text
       end.
Proof.
  unfold BackendErrorHandler.createClientErrorFromBackend, BackendErrorHandler.newError.
  destruct (Js.prop "message" backendError) as [| |b|n|s|items|props|e|h] eqn:Em;
    try (destruct (Js.toString _) as [text|x] eqn:Et);
    cbn [Exc.bind err_name err_message]; intros H; try discriminate H;
    injection H as <-; eexists; split; reflexivity.
Qed.

(** X17.  An error made by [createClientErrorFromBackend] goes through the
    route untouched, whatever its message says: the answer has status 500,
    its message is the backend's message as a string, and the backend's
    request id is not passed on. *)
Theorem backend_error_through_route
    (AGENT_URL : option string) (JSON_parse : string -> Outcome JsValue)
    (handleRequest : ApiErrorHandler.NextRequest -> Outcome ApiErrorHandler.NextResponse)
    (now : JsDate.TimeValue) (req : ApiErrorHandler.NextRequest) (backendError : JsObject)
    (made : JsValue) :
  BackendErrorHandler.createClientErrorFromBackend backendError = Returned made ->
  handleRequest req = Thrown made ->
  exists response,
    Route.POST AGENT_URL JSON_parse handleRequest now req = Returned response
    /\ ApiErrorHandler.status response = 500
    /\ exists envelope text,
         ApiErrorHandler.body response = JObj envelope
         /\ Js.obj_get "message" envelope = Some (JStr text)
         /\ match Js.prop "message" backendError with
            | JUndefined => text = ""
            | _ => Js.toString (Js.prop "message" backendError) = Returned text
            end
         /\ Js.obj_get "request_id" envelope = None.
Proof.
  intros Hm Hh.
  destruct (createClientErrorFromBackend_returned _ _ Hm) as (text & -> & Ht).
  unfold Route.POST, ApiErrorHandler.withErrorHandler, Route.routeHandler, Exc.tryCatch.
  rewrite Hh.
  set (e := mkError "Error" text _).
  assert (T : Route.onHandlerError AGENT_URL JSON_parse (JError e) = Thrown (JError e))
    by reflexivity.
  rewrite T.
  destruct (plain_error_envelope now e (Some req)) as (response & Hr & Hs & env & Hb & Hmsg & Hid).
  exists response. split; [exact Hr|]. split; [exact Hs|].
  exists env, text. repeat split; assumption.
Qed.

Lemma backend_error_through_route_witness :
  exists response,
    Route.POST None Samples.noJson (fun _ => Thrown MoreSamples.clientError)
      Samples.clock Samples.postRequest = Returned response
    /\ ApiErrorHandler.status response = 500
    /\ exists envelope text,
         ApiErrorHandler.body response = JObj envelope
         /\ Js.obj_get "message" envelope = Some (JStr text)
         /\ match Js.prop "message" MoreSamples.backendError with
            | JUndefined => text = ""
            | _ => Js.toString (Js.prop "message" MoreSamples.backendError) = Returned text
            end
         /\ Js.obj_get "request_id" envelope = None.
Proof.
  apply (backend_error_through_route None Samples.noJson
           (fun _ => Thrown MoreSamples.clientError)
           Samples.clock Samples.postRequest MoreSamples.backendError
           MoreSamples.clientError);
    reflexivity.
Defined.

(** [includes] with a one-character needle looks at each character. *)
Lemma includes_char (c d : ascii) (s : string) :
  JsString.includes (String c s) (String d "")
  = Ascii.eqb c d || JsString.includes s (String d "").
Proof.
  cbn [JsString.includes String.prefix].
  destruct (ascii_dec d c) as [->|Hne].
  - rewrite Ascii.eqb_refl. now destruct s.
  - destruct (Ascii.eqb_spec c d) as [->|_]; [now elim Hne|].
    reflexivity.
Qed.

Lemma upToLastBrace_none (s : string) :
  Route.upToLastBrace s = None -> JsString.includes s "}" = false.
Proof.
  induction s as [|c s IH]; [reflexivity|].
  cbn [Route.upToLastBrace]. destruct (Route.upToLastBrace s); [discriminate|].
  destruct (Ascii.eqb c "}") eqn:E; [discriminate|].
  intros _. rewrite includes_char, E, IH; reflexivity.
Qed.

Lemma upToLastBrace_some (s t : string) :
  Route.upToLastBrace s = Some t ->
  exists mid post,
    s = mid ++ "}" ++ post /\ t = mid ++ "}" /\ JsString.includes post "}" = false.
Proof.
  revert t. induction s as [|c s IH]; intros t; [discriminate|].
  cbn [Route.upToLastBrace]. destruct (Route.upToLastBrace s) as [t'|] eqn:E.
  - intros H. injection H as <-.
    destruct (IH t' eq_refl) as (mid & post & -> & -> & Hp).
    exists (String c mid), post. repeat split; assumption.
  - destruct (Ascii.eqb_spec c "}"%char) as [->|_]; [|discriminate].
    intros H. injection H as <-.
    exists "", s. repeat split. now apply upToLastBrace_none.
Qed.

Lemma matchJsonBlock_has_brace (s t : string) :
  Route.matchJsonBlock s = Some t -> Route.upToLastBrace s <> None.
Proof.
  induction s as [|c s IH]; [discriminate|].
  cbn [Route.matchJsonBlock Route.upToLastBrace].
  destruct (Route.upToLastBrace s) as [u|]; [discriminate|].
  destruct (Ascii.eqb c "{"); intros H; now apply IH in H.
Qed.

(** X18.  What the route takes for the JSON part of an error message runs
    from the first opening brace to the last closing brace of the message:
    nothing before it holds an opening brace and nothing after it a closing
    one. *)
Theorem matchJsonBlock_spans_braces (s t : string) :
  Route.matchJsonBlock s = Some t ->
  exists pre mid post,
    s = pre ++ "{" ++ mid ++ "}" ++ post
    /\ t = "{" ++ mid ++ "}"
    /\ JsString.includes pre "{" = false
    /\ JsString.includes post "}" = false.
Proof.
  revert t. induction s as [|c s IH]; intros t; [discriminate|].
  cbn [Route.matchJsonBlock].
  destruct (Ascii.eqb_spec c "{"%char) as [->|Hc].
  - destruct (Route.upToLastBrace s) as [u|] eqn:E.
    + intros H. injection H as <-.
      destruct (upToLastBrace_some _ _ E) as (mid & post & -> & -> & Hp).
      exists "", mid, post. repeat split. exact Hp.
    + intros H. apply matchJsonBlock_has_brace in H. now elim H.
  - intros H. destruct (IH t H) as (pre & mid & post & -> & -> & Hpre & Hpost).
    exists (String c pre), mid, post. repeat split; [|exact Hpost].
    rewrite includes_char, Hpre.
    destruct (Ascii.eqb_spec c "{"%char) as [->|_]; [now elim Hc | reflexivity].
Qed.

Lemma matchJsonBlock_spans_braces_witness :
  exists pre mid post,
    "HTTP 500: {'a': {'b': 1}} and } more" = pre ++ "{" ++ mid ++ "}" ++ post
    /\ "{'a': {'b': 1}} and }" = "{" ++ mid ++ "}"
    /\ JsString.includes pre "{" = false
    /\ JsString.includes post "}" = false.
Proof.
  apply (matchJsonBlock_spans_braces "HTTP 500: {'a': {'b': 1}} and } more").
  reflexivity.
Defined.

(* ===================================================================== *)
(** * The file tree of the page *)
(* ===================================================================== *)

Section FileTreeFacts.
Import FileTree.

(** Induction over a tree whose children are a list of trees. *)
Lemma FileNode_forest_ind (P : FileNode -> Prop) :
  (forall id name type content, P (mkFileNode id name type None content)) ->
  (forall id name type l content,
     Forall P l -> P (mkFileNode id name type (Some l) content)) ->
  forall n, P n.
Proof.
  intros Hleaf Hfolder. fix IH 1. intros [id name type [l|] content].
  - apply Hfolder. induction l as [|x r IHr]; constructor; [apply IH | exact IHr].
  - apply Hleaf.
Qed.

Lemma firstSome_cons {A B : Type} (f : A -> option B) (x : A) (l : list A) :
  firstSome f (x :: l) = match f x with Some y => Some y | None => firstSome f l end.
Proof. reflexivity. Qed.

Lemma firstSome_app {A B : Type} (f : A -> option B) (a b : list A) :
  firstSome f (a ++ b)
  = match firstSome f a with Some y => Some y | None => firstSome f b end.
Proof.
  induction a as [|x a IH]; [reflexivity|].
  cbn [app]. rewrite !firstSome_cons. destruct (f x); [reflexivity | exact IH].
Qed.

(** Searching a mapped list, when the search commutes with the map on
    every element up to a view [g] of the result. *)
Lemma firstSome_map_view {A B C : Type} (f f' : A -> option B) (u : A -> A)
    (g g' : B -> C) (l : list A) :
  Forall (fun x => option_map g' (f' (u x)) = option_map g (f x)) l ->
  option_map g' (firstSome f' (map u l)) = option_map g (firstSome f l).
Proof.
  induction 1 as [|x l Hx _ IH]; [reflexivity|].
  cbn [map]. rewrite !firstSome_cons.
  destruct (f' (u x)) as [y'|], (f x) as [y|]; cbn in Hx |- *; try discriminate;
    [exact Hx | exact IH].
Qed.

Lemma findInNode_id (id : string) (n m : FileNode) :
  findInNode id n = Some m -> node_id m = id.
Proof.
  revert m. induction n as [nid name type content | nid name type l content IH]
    using FileNode_forest_ind; intros m; cbn [findInNode].
  - destruct (String.eqb_spec nid id) as [->|_]; [|discriminate].
    intros H. injection H as <-. reflexivity.
  - destruct (String.eqb_spec nid id) as [->|_].
    + intros H. injection H as <-. reflexivity.
    + induction IH as [|x r Hx _ IHr]; [discriminate|].
      rewrite firstSome_cons. destruct (findInNode id x) as [y|] eqn:E.
      * intros H. injection H as <-. now apply Hx.
      * exact IHr.
Qed.

Lemma firstSome_map_eq {A B : Type} (f f' : A -> option B) (u : A -> A)
    (g : B -> B) (l : list A) :
  Forall (fun x => f' (u x) = option_map g (f x)) l ->
  firstSome f' (map u l) = option_map g (firstSome f l).
Proof.
  induction 1 as [|x l Hx _ IH]; [reflexivity|].
  cbn [map]. rewrite !firstSome_cons, Hx.
  destruct (f x); [reflexivity | exact IH].
Qed.

(** After an update, the search for the same id finds the updated node. *)
Lemma findInNode_updateContentIn (id c : string) (n : FileNode) :
  findInNode id (updateContentIn id c n) = option_map (withContent c) (findInNode id n).
Proof.
  induction n as [nid name type content | nid name type l content IH]
    using FileNode_forest_ind; cbn [updateContentIn findInNode].
  - destruct (String.eqb nid id) eqn:E; cbn [findInNode]; rewrite E; reflexivity.
  - destruct (String.eqb nid id) eqn:E; cbn [findInNode]; rewrite E; [reflexivity|].
    now apply firstSome_map_eq.
Qed.

Lemma findInNode_renameIn (id newName : string) (n : FileNode) :
  findInNode id (renameIn id newName n) = option_map (withName newName) (findInNode id n).
Proof.
  induction n as [nid name type content | nid name type l content IH]
    using FileNode_forest_ind; cbn [renameIn findInNode].
  - destruct (String.eqb nid id) eqn:E; cbn [findInNode]; rewrite E; reflexivity.
  - destruct (String.eqb nid id) eqn:E; cbn [findInNode]; rewrite E; [reflexivity|].
    now apply firstSome_map_eq.
Qed.

(** An update for one id leaves what is found under any other id as it
    was, children apart. *)
Lemma findInNode_updateContentIn_other (id other c : string) (n : FileNode) :
  other <> id ->
  option_map nodeLabel (findInNode other (updateContentIn id c n))
  = option_map nodeLabel (findInNode other n).
Proof.
  intros Hne.
  induction n as [nid name type content | nid name type l content IH]
    using FileNode_forest_ind; cbn [updateContentIn findInNode].
  - destruct (String.eqb_spec nid id) as [->|_]; cbn [findInNode]; [|reflexivity].
    destruct (String.eqb_spec id other) as [E|_]; [now elim Hne | reflexivity].
  - destruct (String.eqb_spec nid id) as [->|_]; cbn [findInNode].
    + destruct (String.eqb_spec id other) as [E|_]; [now elim Hne | reflexivity].
    + destruct (String.eqb nid other); [reflexivity|].
      now apply firstSome_map_view.
Qed.

(** An update for an id that is not in the tree changes nothing. *)
Lemma updateContentIn_absent (id c : string) (n : FileNode) :
  findInNode id n = None -> updateContentIn id c n = n.
Proof.
  induction n as [nid name type content | nid name type l content IH]
    using FileNode_forest_ind; cbn [updateContentIn findInNode].
  - destruct (String.eqb nid id); [discriminate | reflexivity].
  - destruct (String.eqb nid id); [discriminate|].
    intros H. f_equal. f_equal.
    induction IH as [|x r Hx _ IHr]; [reflexivity|].
    rewrite firstSome_cons in H. destruct (findInNode id x) eqn:E; [discriminate|].
    cbn [map]. rewrite (Hx eq_refl), (IHr H). reflexivity.
Qed.

Lemma renameIn_absent (id newName : string) (n : FileNode) :
  findInNode id n = None -> renameIn id newName n = n.
Proof.
  induction n as [nid name type content | nid name type l content IH]
    using FileNode_forest_ind; cbn [renameIn findInNode].
  - destruct (String.eqb nid id); [discriminate | reflexivity].
  - destruct (String.eqb nid id); [discriminate|].
    intros H. f_equal. f_equal.
    induction IH as [|x r Hx _ IHr]; [reflexivity|].
    rewrite firstSome_cons in H. destruct (findInNode id x) eqn:E; [discriminate|].
    cbn [map]. rewrite (Hx eq_refl), (IHr H). reflexivity.
Qed.

Lemma map_absent (f : FileNode -> FileNode) (id : string) (l : list FileNode) :
  (forall n, findInNode id n = None -> f n = n) ->
  firstSome (findInNode id) l = None -> map f l = l.
Proof.
  intros Hf. induction l as [|x r IH]; [reflexivity|].
  rewrite firstSome_cons. destruct (findInNode id x) eqn:E; [discriminate|].
  intros H. cbn [map]. rewrite (Hf x E), (IH H). reflexivity.
Qed.

(** [deleteIn] on a folder is [deleteNode] on its children. *)
Lemma deleteIn_folder (id nid name : string) (type : NodeType) (l : list FileNode)
    (content : option string) :
  deleteIn id (mkFileNode nid name type (Some l) content)
  = mkFileNode nid name type (Some (deleteNode l id)) content.
Proof.
  cbn [deleteIn]. f_equal. f_equal. unfold deleteNode.
  induction l as [|x r IH]; [reflexivity|].
  cbn [filter]. destruct (negb (String.eqb (node_id x) id)); [|exact IH].
  cbn [map]. now rewrite IH.
Qed.

Lemma findInNode_deleteIn (id : string) (n : FileNode) :
  node_id n <> id -> findInNode id (deleteIn id n) = None.
Proof.
  induction n as [nid name type content | nid name type l content IH]
    using FileNode_forest_ind; intros Hne.
  - cbn [deleteIn findInNode]. cbn [node_id] in Hne.
    destruct (String.eqb_spec nid id); [contradiction | reflexivity].
  - rewrite deleteIn_folder. cbn [findInNode]. cbn [node_id] in Hne.
    destruct (String.eqb_spec nid id); [contradiction|].
    unfold deleteNode. induction IH as [|x r Hx _ IHr]; [reflexivity|].
    cbn [filter]. destruct (String.eqb_spec (node_id x) id) as [E|E]; cbn [negb].
    + exact IHr.
    + cbn [map]. rewrite firstSome_cons, (Hx E). exact IHr.
Qed.

End FileTreeFacts.

(** X19.  Changing the content of a file and then looking the file up
    gives the file with the new content, and nothing when the id is not in
    the tree. *)
Theorem findFile_updateFileContent
    (nodes : list FileTree.FileNode) (id newContent : string) :
  FileTree.findFile (FileTree.updateFileContent nodes id newContent) id
  = option_map (FileTree.withContent newContent) (FileTree.findFile nodes id).
Proof.
  unfold FileTree.findFile, FileTree.updateFileContent.
  apply firstSome_map_eq. apply Forall_forall. intros n _.
  apply findInNode_updateContentIn.
Qed.

(** X20.  Renaming a node and then looking it up gives the node under its
    new name, and nothing when the id is not in the tree. *)
Theorem findFile_renameNode
    (nodes : list FileTree.FileNode) (id newName : string) :
  FileTree.findFile (FileTree.renameNode nodes id newName) id
  = option_map (FileTree.withName newName) (FileTree.findFile nodes id).
Proof.
  unfold FileTree.findFile, FileTree.renameNode.
  apply firstSome_map_eq. apply Forall_forall. intros n _.
  apply findInNode_renameIn.
Qed.

(** X21.  Changing the content of one file leaves every node found under
    another id with the same id, name, type and content. *)
Theorem updateFileContent_keeps_other_files
    (nodes : list FileTree.FileNode) (id other newContent : string) :
  other <> id ->
  option_map FileTree.nodeLabel
    (FileTree.findFile (FileTree.updateFileContent nodes id newContent) other)
  = option_map FileTree.nodeLabel (FileTree.findFile nodes other).
Proof.
  intros Hne. unfold FileTree.findFile, FileTree.updateFileContent.
  apply firstSome_map_view. apply Forall_forall. intros n _.
  now apply findInNode_updateContentIn_other.
Qed.

Lemma updateFileContent_keeps_other_files_witness :
  option_map FileTree.nodeLabel
    (FileTree.findFile (FileTree.updateFileContent MoreSamples.sampleFiles "1" "x = 1") "3")
  = option_map FileTree.nodeLabel (FileTree.findFile MoreSamples.sampleFiles "3").
Proof.
  apply (updateFileContent_keeps_other_files MoreSamples.sampleFiles "1" "3" "x = 1").
  discriminate.
Defined.


(** X22.  Updating or renaming under an id that [findFile] does not find
    leaves the tree exactly as it was. *)
Theorem update_and_rename_absent
    (nodes : list FileTree.FileNode) (id text : string) :
  FileTree.findFile nodes id = None ->
  FileTree.updateFileContent nodes id text = nodes
  /\ FileTree.renameNode nodes id text = nodes.
Proof.
  intros H. split.
  - apply (map_absent _ id); [apply updateContentIn_absent | exact H].
  - apply (map_absent _ id); [apply renameIn_absent | exact H].
Qed.

Lemma update_and_rename_absent_witness :
  FileTree.updateFileContent MoreSamples.sampleFiles "missing" "x = 1"
    = MoreSamples.sampleFiles
  /\ FileTree.renameNode MoreSamples.sampleFiles "missing" "x = 1" = MoreSamples.sampleFiles.
Proof.
  apply (update_and_rename_absent MoreSamples.sampleFiles "missing" "x = 1").
  reflexivity.
Defined.


(** X23.  After [deleteNode] no node with the deleted id is left anywhere
    in the tree. *)
Theorem findFile_deleteNode (nodes : list FileTree.FileNode) (id : string) :
  FileTree.findFile (FileTree.deleteNode nodes id) id = None.
Proof.
  unfold FileTree.findFile, FileTree.deleteNode.
  induction nodes as [|x r IH]; [reflexivity|].
  cbn [filter]. destruct (String.eqb_spec (FileTree.node_id x) id) as [E|E]; cbn [negb].
  - exact IH.
  - cbn [map]. rewrite firstSome_cons, (findInNode_deleteIn id x E). exact IH.
Qed.

Section AddChildFacts.
Import FileTree.

Variable parentId : string.
Variable newNode : FileNode.

#[local] Abbreviation isParent :=
  (fun n : FileNode => String.eqb (node_id n) parentId && isFolder (node_type n)).

Lemma nodesOf_folder (nid name : string) (type : NodeType) (l : list FileNode)
    (content : option string) :
  nodesOf (mkFileNode nid name type (Some l) content)
  = mkFileNode nid name type (Some l) content :: flat_map nodesOf l.
Proof. reflexivity. Qed.

Lemma findInNode_fresh (id : string) (n : FileNode) :
  ~ In id (map node_id (nodesOf n)) -> findInNode id n = None.
Proof.
  induction n as [nid name type content | nid name type l content IH]
    using FileNode_forest_ind.
  - cbn. intros H. destruct (String.eqb_spec nid id) as [E|_]; [|reflexivity].
    elim H. left; exact E.
  - rewrite nodesOf_folder. cbn [map node_id In findInNode]. intros H.
    destruct (String.eqb_spec nid id) as [E|_]; [elim H; left; exact E|].
    assert (Hl : ~ In id (map node_id (flat_map nodesOf l))) by tauto. clear H.
    induction IH as [|x r Hx _ IHr]; [reflexivity|].
    cbn [flat_map] in Hl. rewrite map_app, in_app_iff in Hl.
    rewrite firstSome_cons, Hx by tauto. apply IHr. tauto.
Qed.

Lemma firstSome_fresh (id : string) (l : list FileNode) :
  ~ In id (map node_id (flat_map nodesOf l)) -> firstSome (findInNode id) l = None.
Proof.
  induction l as [|x r IH]; [reflexivity|].
  cbn [flat_map]. rewrite map_app, in_app_iff. intros H.
  rewrite firstSome_cons, findInNode_fresh by tauto. apply IH. tauto.
Qed.

Lemma addChildIn_no_folder (n : FileNode) :
  existsb isParent (nodesOf n) = false -> addChildIn parentId newNode n = n.
Proof.
  induction n as [nid name type content | nid name type l content IH]
    using FileNode_forest_ind.
  - cbn. rewrite orb_false_r. intros ->. reflexivity.
  - rewrite nodesOf_folder. cbn [existsb node_id node_type addChildIn].
    intros H. apply orb_false_iff in H as [-> H]. f_equal. f_equal.
    induction IH as [|x r Hx _ IHr]; [reflexivity|].
    cbn [flat_map] in H. rewrite existsb_app in H. apply orb_false_iff in H as [H1 H2].
    cbn [map]. rewrite (Hx H1), (IHr H2). reflexivity.
Qed.

Lemma findInNode_self (n : FileNode) : findInNode (node_id n) n = Some n.
Proof. destruct n as [nid name type ch content]. cbn. now rewrite String.eqb_refl. Qed.

Lemma findInNode_addChildIn (n : FileNode) :
  existsb isParent (nodesOf n) = true ->
  ~ In (node_id newNode) (map node_id (nodesOf n)) ->
  findInNode (node_id newNode) (addChildIn parentId newNode n) = Some newNode.
Proof.
  induction n as [nid name type content | nid name type l content IH]
    using FileNode_forest_ind.
  - cbn. rewrite orb_false_r. intros -> H.
    assert (Hn : String.eqb nid (node_id newNode) = false)
      by (destruct (String.eqb_spec nid (node_id newNode)); [elim H; left; assumption | reflexivity]).
    cbn [findInNode]. rewrite Hn, firstSome_cons, findInNode_self. reflexivity.
  - rewrite nodesOf_folder. cbn [existsb map In node_id node_type addChildIn].
    intros He Hf.
    assert (Hn : String.eqb nid (node_id newNode) = false)
      by (destruct (String.eqb_spec nid (node_id newNode)); [elim Hf; left; assumption | reflexivity]).
    assert (Hl : ~ In (node_id newNode) (map node_id (flat_map nodesOf l))) by tauto.
    clear Hf.
    destruct (String.eqb nid parentId && isFolder type) eqn:Ep.
    + cbn [findInNode]. rewrite Hn, firstSome_app, firstSome_fresh by exact Hl.
      rewrite firstSome_cons, findInNode_self. reflexivity.
    + cbn [orb] in He. cbn [findInNode]. rewrite Hn.
      induction IH as [|x r Hx _ IHr]; [discriminate|].
      cbn [flat_map] in He, Hl. rewrite existsb_app in He.
      rewrite map_app, in_app_iff in Hl.
      cbn [map]. rewrite firstSome_cons.
      destruct (existsb isParent (nodesOf x)) eqn:Ex.
      * rewrite Hx by tauto. reflexivity.
      * rewrite (addChildIn_no_folder x Ex), findInNode_fresh by tauto.
        apply IHr; [exact He | tauto].
Qed.

End AddChildFacts.

(** X24.  When some folder of the tree has the parent id and the id of
    the new node is not yet used, the new node can be found in the tree
    after [addChildNode]; when no folder has the parent id, the tree is
    left as it was. *)
Theorem addChildNode_adds_under_folder
    (nodes : list FileTree.FileNode) (parentId : string) (newNode : FileTree.FileNode) :
  (FileTree.hasFolder parentId nodes = true ->
   ~ In (FileTree.node_id newNode) (FileTree.allIds nodes) ->
   FileTree.findFile (FileTree.addChildNode nodes parentId newNode)
     (FileTree.node_id newNode) = Some newNode)
  /\ (FileTree.hasFolder parentId nodes = false ->
      FileTree.addChildNode nodes parentId newNode = nodes).
Proof.
  unfold FileTree.hasFolder, FileTree.allIds, FileTree.allNodes, FileTree.findFile,
    FileTree.addChildNode.
  split.
  - induction nodes as [|x r IH]; [discriminate|].
    cbn [flat_map]. rewrite existsb_app, map_app. intros He Hf.
    rewrite in_app_iff in Hf. cbn [map]. rewrite firstSome_cons.
    destruct (existsb _ (FileTree.nodesOf x)) eqn:Ex.
    + rewrite findInNode_addChildIn by tauto. reflexivity.
    + rewrite (addChildIn_no_folder parentId newNode x Ex), findInNode_fresh by tauto.
      apply IH; [exact He | tauto].
  - induction nodes as [|x r IH]; [reflexivity|].
    cbn [flat_map]. rewrite existsb_app. intros H.
    apply orb_false_iff in H as [H1 H2]. cbn [map].
    rewrite (addChildIn_no_folder parentId newNode x H1), (IH H2). reflexivity.
Qed.

Lemma addChildNode_adds_under_folder_witness :
  FileTree.findFile
    (FileTree.addChildNode MoreSamples.sampleFiles "folder-1" MoreSamples.newFile)
    (FileTree.node_id MoreSamples.newFile) = Some MoreSamples.newFile
  /\ FileTree.addChildNode MoreSamples.sampleFiles "4" MoreSamples.newFile
     = MoreSamples.sampleFiles.
Proof.
  split.
  - apply (proj1 (addChildNode_adds_under_folder MoreSamples.sampleFiles "folder-1"
                    MoreSamples.newFile)); [reflexivity|].
    cbn. intros H. repeat (destruct H as [H|H]; [discriminate H|]). exact H.
  - apply (proj2 (addChildNode_adds_under_folder MoreSamples.sampleFiles "4"
                    MoreSamples.newFile)).
    reflexivity.
Defined.


(* ===================================================================== *)
(** * Tabs, projects, issues and toasts *)
(* ===================================================================== *)

Section TabFacts.
Import FileTree.

Lemma in_ids_filter (id other : string) (l : list FileNode) :
  In other (map node_id l) -> other <> id ->
  In other (map node_id (filter (fun f => negb (String.eqb (node_id f) id)) l)).
Proof.
  intros Hin Hne. apply in_map_iff in Hin as (f & <- & Hf).
  apply in_map_iff. exists f. split; [reflexivity|].
  apply filter_In. split; [exact Hf|].
  destruct (String.eqb_spec (node_id f) id); [contradiction | reflexivity].
Qed.

Lemma not_in_ids_filter (id : string) (l : list FileNode) :
  ~ In id (map node_id (filter (fun f => negb (String.eqb (node_id f) id)) l)).
Proof.
  intros Hin. apply in_map_iff in Hin as (f & E & Hf).
  apply filter_In in Hf as [_ Hf]. rewrite E, String.eqb_refl in Hf. discriminate.
Qed.

Lemma last_some_in (l : list FileNode) (f : FileNode) :
  last (map Some l) None = Some f -> In f l.
Proof.
  induction l as [|x r IH]; [discriminate|].
  cbn [map last]. destruct r as [|y r'].
  - cbn. intros H. injection H as <-. now left.
  - intros H. right. apply IH. exact H.
Qed.

Lemma map_get_set_same (k : string) (v : list FileNode) (m : list (string * list FileNode)) :
  map_get k (map_set k v m) = Some v.
Proof.
  induction m as [|[k' v'] m IH]; cbn [map_set map_get].
  - now rewrite String.eqb_refl.
  - destruct (String.eqb k k') eqn:E; cbn [map_get].
    + now rewrite String.eqb_refl.
    + rewrite E. exact IH.
Qed.

Lemma map_get_set_other (k k2 : string) (v : list FileNode)
    (m : list (string * list FileNode)) :
  k <> k2 -> map_get k (map_set k2 v m) = map_get k m.
Proof.
  intros Hne. induction m as [|[k' v'] m IH]; cbn [map_set map_get].
  - destruct (String.eqb_spec k k2); [contradiction | reflexivity].
  - destruct (String.eqb_spec k2 k') as [<-|E2]; cbn [map_get].
    + destruct (String.eqb_spec k k2); [contradiction | reflexivity].
    + destruct (String.eqb k k'); [reflexivity | exact IH].
Qed.

End TabFacts.

(** X25.  Closing a tab removes the file from the open tabs; and closing
    a tab, selecting a file, deleting a node and switching project all keep
    the selected tab among the open tabs (or leave no tab selected) when it
    was so before.  It is so, whatever the state before, after selecting a
    file that is not the readme, after switching to another project, and
    after closing or deleting the selected file. *)
Theorem tab_handlers_keep_selection_open
    (s : FileTree.FilesState) (fileId : string) (f : FileTree.FileNode) :
  (FileTree.selectionOpen s ->
     FileTree.selectionOpen (FileTree.handleCloseTab fileId s)
     /\ FileTree.selectionOpen (FileTree.handleSelectFile f s)
     /\ FileTree.selectionOpen (FileTree.handleDeleteNode fileId s)
     /\ FileTree.selectionOpen (FileTree.handleSwitchProject fileId s))
  /\ ~ In fileId
        (map FileTree.node_id (FileTree.openFiles (FileTree.handleCloseTab fileId s)))
  /\ (JsString.toLowerCase (FileTree.node_name f) <> "readme.md" ->
        FileTree.selectionOpen (FileTree.handleSelectFile f s)
        /\ FileTree.selectedFileId (FileTree.handleSelectFile f s) = FileTree.node_id f)
  /\ (fileId <> FileTree.activeProjectId s ->
        FileTree.selectionOpen (FileTree.handleSwitchProject fileId s))
  /\ FileTree.selectionOpen (FileTree.handleCloseTab (FileTree.selectedFileId s) s)
  /\ FileTree.selectionOpen (FileTree.handleDeleteNode (FileTree.selectedFileId s) s).
Proof.
  assert (Close : forall id,
            FileTree.selectedFileId s = id \/ FileTree.selectionOpen s ->
            FileTree.selectionOpen (FileTree.handleCloseTab id s)).
  { intros id H. unfold FileTree.selectionOpen in *. unfold FileTree.handleCloseTab.
    cbn [FileTree.selectedFileId FileTree.openFiles].
    destruct (String.eqb_spec (FileTree.selectedFileId s) id) as [E|E].
    - destruct (last _ None) as [g|] eqn:L; [|left; reflexivity].
      right. apply in_map. now apply last_some_in.
    - destruct H as [H|[H|H]]; [contradiction | left; exact H
                                | right; now apply in_ids_filter]. }
  assert (Select : JsString.toLowerCase (FileTree.node_name f) <> "readme.md" ->
            FileTree.selectionOpen (FileTree.handleSelectFile f s)
            /\ FileTree.selectedFileId (FileTree.handleSelectFile f s) = FileTree.node_id f).
  { intros Hn. unfold FileTree.selectionOpen, FileTree.handleSelectFile.
    destruct (String.eqb_spec (JsString.toLowerCase (FileTree.node_name f)) "readme.md");
      [contradiction|].
    cbn [FileTree.selectedFileId FileTree.openFiles]. split; [|reflexivity].
    right. destruct (existsb _ (FileTree.openFiles s)) eqn:Ex.
    - apply existsb_exists in Ex as (o & Ho & Eo). apply String.eqb_eq in Eo.
      rewrite <- Eo. now apply in_map.
    - rewrite map_app, in_app_iff. right. now left. }
  assert (Delete : forall id,
            FileTree.selectedFileId s = id \/ FileTree.selectionOpen s ->
            FileTree.selectionOpen (FileTree.handleDeleteNode id s)).
  { intros id H. unfold FileTree.selectionOpen in *. unfold FileTree.handleDeleteNode.
    cbn [FileTree.selectedFileId FileTree.openFiles].
    destruct (String.eqb_spec (FileTree.selectedFileId s) id) as [E|E];
      [left; reflexivity|].
    destruct H as [H|[H|H]]; [contradiction | left; exact H
                              | right; now apply in_ids_filter]. }
  assert (Switch : fileId <> FileTree.activeProjectId s ->
            FileTree.selectionOpen (FileTree.handleSwitchProject fileId s)).
  { intros Hne. unfold FileTree.handleSwitchProject.
    destruct (String.eqb_spec fileId (FileTree.activeProjectId s)); [contradiction|].
    left. reflexivity. }
  split.
  { intros H. split; [apply Close; right; exact H|].
    split.
    { destruct (String.eqb_spec (JsString.toLowerCase (FileTree.node_name f)) "readme.md")
        as [E|E]; [|apply Select; exact E].
      unfold FileTree.handleSelectFile. rewrite E. cbn [String.eqb Ascii.eqb Bool.eqb].
      exact H. }
    split; [apply Delete; right; exact H|].
    destruct (String.eqb_spec fileId (FileTree.activeProjectId s)) as [E|E];
      [|apply Switch; exact E].
    unfold FileTree.handleSwitchProject. rewrite E, String.eqb_refl. exact H. }
  split.
  { unfold FileTree.handleCloseTab. cbn [FileTree.openFiles]. apply not_in_ids_filter. }
  split; [exact Select|]. split; [exact Switch|].
  split; [apply Close | apply Delete]; left; reflexivity.
Qed.

Lemma tab_handlers_keep_selection_open_witness :
  (FileTree.selectionOpen (FileTree.handleCloseTab "1" MoreSamples.tabsState)
   /\ FileTree.selectionOpen
        (FileTree.handleSelectFile MoreSamples.newFile MoreSamples.tabsState)
   /\ FileTree.selectionOpen (FileTree.handleDeleteNode "1" MoreSamples.tabsState)
   /\ FileTree.selectionOpen (FileTree.handleSwitchProject "1" MoreSamples.tabsState))
  /\ FileTree.selectedFileId (FileTree.handleCloseTab "1" MoreSamples.tabsState) = "3"
  /\ map FileTree.node_id
       (FileTree.openFiles (FileTree.handleCloseTab "1" MoreSamples.tabsState)) = ["3"]
  /\ ~ FileTree.selectionOpen MoreSamples.startState
  /\ FileTree.selectionOpen
       (FileTree.handleSelectFile MoreSamples.newFile MoreSamples.startState)
  /\ FileTree.selectedFileId
       (FileTree.handleSelectFile MoreSamples.newFile MoreSamples.startState)
     = "1700000000000".
Proof.
  split.
  { apply (proj1 (tab_handlers_keep_selection_open MoreSamples.tabsState "1"
                    MoreSamples.newFile)).
    right. simpl. right. left. reflexivity. }
  split; [reflexivity|]. split; [reflexivity|].
  split.
  { intros [H|H]; [discriminate H | exact H]. }
  apply (proj1 (proj2 (proj2 (tab_handlers_keep_selection_open MoreSamples.startState "1"
                                MoreSamples.newFile)))).
  simpl. discriminate.
Defined.


(** X26.  Switching to another project and back restores the files of the
    project one started in, and every handler that edits the file tree
    leaves the active project's entry of the project map equal to the
    files on display. *)
Theorem project_files_are_kept
    (s : FileTree.FilesState) (other : string) (newFiles : list FileTree.FileNode)
    (id text : string) (now : Z) (type : FileTree.NodeType) :
  other <> FileTree.activeProjectId s ->
  let back := FileTree.handleSwitchProject (FileTree.activeProjectId s)
                (FileTree.handleSwitchProject other s) in
  FileTree.files back = FileTree.files s
  /\ FileTree.activeProjectId back = FileTree.activeProjectId s
  /\ Forall (fun s' => FileTree.map_get (FileTree.activeProjectId s')
                         (FileTree.projectFilesMap s') = Some (FileTree.files s'))
       [ back;
         FileTree.updateFiles newFiles s;
         FileTree.handleRenameNode id text s;
         FileTree.handleCreateNode now id type s;
         FileTree.handleDeleteNode id s ].
Proof.
  intros Hne back.
  assert (Hne' : FileTree.activeProjectId s <> other) by congruence.
  assert (B : back
              = FileTree.mkFilesState (FileTree.projects s) (FileTree.activeProjectId s)
                  (FileTree.map_set other
                     (match FileTree.map_get other
                              (FileTree.map_set (FileTree.activeProjectId s)
                                 (FileTree.files s) (FileTree.projectFilesMap s)) with
                      | Some f => f
                      | None => []
                      end)
                     (FileTree.map_set (FileTree.activeProjectId s) (FileTree.files s)
                        (FileTree.projectFilesMap s)))
                  (FileTree.files s) [] "" FileTree.editor).
  { subst back. unfold FileTree.handleSwitchProject at 2.
    destruct (String.eqb_spec other (FileTree.activeProjectId s)) as [E|_]; [contradiction|].
    cbv zeta. unfold FileTree.handleSwitchProject.
    cbn [FileTree.activeProjectId FileTree.files FileTree.projectFilesMap FileTree.projects].
    destruct (String.eqb_spec (FileTree.activeProjectId s) other) as [E|_]; [contradiction|].
    cbv zeta.
    rewrite (map_get_set_other (FileTree.activeProjectId s) other) by exact Hne'.
    rewrite map_get_set_same. reflexivity. }
  rewrite B. cbn [FileTree.activeProjectId FileTree.files FileTree.projectFilesMap].
  split; [reflexivity|]. split; [reflexivity|].
  repeat constructor; cbn; try apply map_get_set_same.
  rewrite (map_get_set_other (FileTree.activeProjectId s) other) by exact Hne'.
  apply map_get_set_same.
Qed.

Lemma project_files_are_kept_witness :
  FileTree.files
    (FileTree.handleSwitchProject "p1"
       (FileTree.handleSwitchProject "p2" MoreSamples.sampleFilesState))
  = MoreSamples.sampleFiles.
Proof.
  apply (project_files_are_kept MoreSamples.sampleFilesState "p2" [] "1" "main2.py" 0
           FileTree.file).
  discriminate.
Defined.


Section IssueFacts.
Import IssueTracker.

Lemma countdown_bounds (n : nat) (z : Z) :
  In z (countdown n) -> 1 <= z <= Z.of_nat n.
Proof.
  induction n as [|k IH]; [contradiction|].
  cbn [countdown In]. intros [<-|H]; [lia|]. apply IH in H. lia.
Qed.

Lemma countdown_NoDup (n : nat) : NoDup (countdown n).
Proof.
  induction n as [|k IH]; cbn [countdown]; constructor; [|exact IH].
  intros H. apply countdown_bounds in H. lia.
Qed.

Lemma find_map_same_id (f : Issue -> Issue) (n : Z) (l : list Issue) :
  (forall x, issue_id (f x) = issue_id x) ->
  find (fun i => issue_id i =? n) (map f l)
  = option_map f (find (fun i => issue_id i =? n) l).
Proof.
  intros Hf. induction l as [|x r IH]; [reflexivity|].
  cbn [map find]. rewrite Hf. destruct (issue_id x =? n); [reflexivity | exact IH].
Qed.

Lemma map_same_id (f : Issue -> Issue) (l : list Issue) :
  (forall x, issue_id (f x) = issue_id x) ->
  wellNumbered l -> wellNumbered (map f l).
Proof.
  unfold wellNumbered. intros Hf H. rewrite map_map, length_map, <- H.
  apply map_ext. exact Hf.
Qed.

End IssueFacts.

(** X27.  The tracker numbers its issues from 1 upwards, newest first: the
    initial list is numbered so, and creating an issue, adding a comment
    and saving a title keep it so; hence no two issues share an id. *)
Theorem issue_numbering_is_kept (now : Z) (s : IssueTracker.IssuesState) :
  IssueTracker.wellNumbered (IssueTracker.initialIssues now)
  /\ (IssueTracker.wellNumbered (IssueTracker.issues s) ->
      IssueTracker.wellNumbered (IssueTracker.issues (IssueTracker.handleCreateIssue now s))
      /\ IssueTracker.wellNumbered (IssueTracker.issues (IssueTracker.handleAddComment now s))
      /\ IssueTracker.wellNumbered (IssueTracker.issues (IssueTracker.saveIssueTitle s))
      /\ NoDup (map IssueTracker.issue_id
                  (IssueTracker.issues (IssueTracker.handleCreateIssue now s)))).
Proof.
  split; [reflexivity|]. intros H.
  assert (C : IssueTracker.wellNumbered
                (IssueTracker.issues (IssueTracker.handleCreateIssue now s))).
  { unfold IssueTracker.handleCreateIssue.
    destruct (IssueTracker.isBlank _); [exact H|].
    cbv zeta. cbn [IssueTracker.issues]. unfold IssueTracker.wellNumbered in *.
    cbn [map List.length IssueTracker.countdown IssueTracker.issue_id].
    rewrite H. f_equal. lia. }
  repeat split.
  - exact C.
  - unfold IssueTracker.handleAddComment.
    destruct (IssueTracker.selectedIssueId s); [|exact H].
    destruct (IssueTracker.isBlank _); [exact H|].
    cbn [IssueTracker.issues]. apply map_same_id; [|exact H].
    intros x. now destruct (IssueTracker.issue_id x =? z).
  - unfold IssueTracker.saveIssueTitle.
    destruct (IssueTracker.editingIssueId s); [|exact H].
    destruct (_ && _); [|exact H].
    cbn [IssueTracker.issues]. apply map_same_id; [|exact H].
    intros x. now destruct (IssueTracker.issue_id x =? z).
  - unfold IssueTracker.wellNumbered in C. rewrite C. apply countdown_NoDup.
Qed.

Lemma issue_numbering_is_kept_witness :
  NoDup (map IssueTracker.issue_id
           (IssueTracker.issues
              (IssueTracker.handleCreateIssue 1700000000001 MoreSamples.sampleIssuesState))).
Proof.
  apply (proj2 (issue_numbering_is_kept 1700000000001 MoreSamples.sampleIssuesState)).
  reflexivity.
Defined.


(** X28.  With an issue selected and a non-blank comment typed, adding the
    comment appends it to the selected issue, leaves every other issue as
    it was, and clears the comment box. *)
Theorem handleAddComment_touches_selected_only
    (now : Z) (s : IssueTracker.IssuesState) (selected : Z) :
  IssueTracker.selectedIssueId s = Some selected ->
  IssueTracker.isBlank (IssueTracker.newCommentBody s) = false ->
  let s' := IssueTracker.handleAddComment now s in
  IssueTracker.selectedIssue (IssueTracker.issues s') (Some selected)
  = option_map
      (fun i => IssueTracker.mkIssue (IssueTracker.issue_id i) (IssueTracker.title i)
                  (IssueTracker.issue_status i)
                  (IssueTracker.comments i
                     ++ [IssueTracker.mkComment (JsString.ofZ now) "user"
                           (IssueTracker.newCommentBody s) now None])%list
                  (IssueTracker.issue_createdAt i) (IssueTracker.issue_author i))
      (IssueTracker.selectedIssue (IssueTracker.issues s) (Some selected))
  /\ (forall other, other <> selected ->
        IssueTracker.selectedIssue (IssueTracker.issues s') (Some other)
        = IssueTracker.selectedIssue (IssueTracker.issues s) (Some other))
  /\ IssueTracker.newCommentBody s' = ""
  /\ List.length (IssueTracker.issues s') = List.length (IssueTracker.issues s).
Proof.
  intros Hsel Hbody s'. subst s'. unfold IssueTracker.handleAddComment.
  rewrite Hsel, Hbody.
  cbn [IssueTracker.issues IssueTracker.newCommentBody IssueTracker.selectedIssue].
  split; [|split; [|split; [reflexivity | apply length_map]]].
  - rewrite find_map_same_id by (intros x; now destruct (IssueTracker.issue_id x =? selected)).
    destruct (find _ (IssueTracker.issues s)) as [i|] eqn:F; [|reflexivity].
    apply find_some in F as [_ F]. cbn [option_map]. now rewrite F.
  - intros other Hne.
    rewrite find_map_same_id by (intros x; now destruct (IssueTracker.issue_id x =? selected)).
    destruct (find _ (IssueTracker.issues s)) as [i|] eqn:F; [|reflexivity].
    apply find_some in F as [_ F]. apply Z.eqb_eq in F. cbn [option_map].
    destruct (Z.eqb_spec (IssueTracker.issue_id i) selected); [congruence | reflexivity].
Qed.

Lemma handleAddComment_touches_selected_only_witness :
  IssueTracker.newCommentBody
    (IssueTracker.handleAddComment 1700000000001 MoreSamples.sampleIssuesState) = ""
  /\ List.length
       (IssueTracker.issues
          (IssueTracker.handleAddComment 1700000000001 MoreSamples.sampleIssuesState))
     = List.length (IssueTracker.issues MoreSamples.sampleIssuesState).
Proof.
  apply (handleAddComment_touches_selected_only 1700000000001
           MoreSamples.sampleIssuesState 1); reflexivity.
Defined.


(** X29.  A blank title creates nothing.  Otherwise exactly one issue is
    added; in a tracker numbered as above the new issue is found under its
    own id, the next free number, and every issue that could be found
    before is still found under its id. *)
Theorem handleCreateIssue_adds_one
    (now : Z) (s : IssueTracker.IssuesState) :
  let s' := IssueTracker.handleCreateIssue now s in
  (IssueTracker.isBlank (IssueTracker.newIssueTitle s) = true -> s' = s)
  /\ (IssueTracker.isBlank (IssueTracker.newIssueTitle s) = false ->
      IssueTracker.wellNumbered (IssueTracker.issues s) ->
      List.length (IssueTracker.issues s') = S (List.length (IssueTracker.issues s))
      /\ (exists i,
            IssueTracker.selectedIssue (IssueTracker.issues s')
              (Some (Z.of_nat (List.length (IssueTracker.issues s)) + 1)) = Some i
            /\ IssueTracker.title i = IssueTracker.newIssueTitle s
            /\ map IssueTracker.content (IssueTracker.comments i)
               = [IssueTracker.newIssueBody s])
      /\ (forall n i,
            IssueTracker.selectedIssue (IssueTracker.issues s) (Some n) = Some i ->
            IssueTracker.selectedIssue (IssueTracker.issues s') (Some n) = Some i)).
Proof.
  intros s'. subst s'. unfold IssueTracker.handleCreateIssue. split.
  - intros ->. reflexivity.
  - intros -> W. cbv zeta.
    cbn [IssueTracker.issues IssueTracker.selectedIssue find List.length
           IssueTracker.issue_id].
    rewrite Z.eqb_refl. split; [reflexivity|]. split.
    + eexists. split; [reflexivity|]. split; reflexivity.
    + intros n i F. pose proof F as F'. apply find_some in F' as [Hin Hid].
      apply Z.eqb_eq in Hid.
      assert (B : 1 <= n <= Z.of_nat (List.length (IssueTracker.issues s))).
      { apply (countdown_bounds _ n). unfold IssueTracker.wellNumbered in W.
        rewrite <- W, <- Hid. now apply in_map. }
      destruct (Z.eqb_spec (Z.of_nat (List.length (IssueTracker.issues s)) + 1) n);
        [lia | exact F].
Qed.

Lemma handleCreateIssue_adds_one_witness :
  List.length
    (IssueTracker.issues
       (IssueTracker.handleCreateIssue 1700000000001 MoreSamples.sampleIssuesState))
  = 2%nat.
Proof.
  apply (proj2 (handleCreateIssue_adds_one 1700000000001 MoreSamples.sampleIssuesState));
    reflexivity.
Defined.


(** X30.  However many toasts there were, after [showToast] there are at
    most five; the new toast is the last one; and while four or fewer were
    showing none of them is dropped. *)
Theorem showToast_keeps_at_most_five
    (now : Z) (message : string) (type : option Toasts.ToastType) (dur : option Z)
    (prev : list Toasts.Toast) :
  let next := Toasts.showToast now message type dur prev in
  (List.length next <= 5)%nat
  /\ List.length next = S (Nat.min (List.length prev) 4)
  /\ (exists t, last (map Some next) None = Some t
                /\ Toasts.toast_id t = JsString.ofZ now
                /\ Toasts.toast_message t = message)
  /\ ((List.length prev <= 4)%nat -> exists t, next = (prev ++ [t])%list).
Proof.
  intros next. subst next. unfold Toasts.showToast, Toasts.lastFour.
  rewrite length_app, length_skipn. cbn [List.length].
  split; [lia|]. split; [lia|]. split.
  - eexists. rewrite map_app. cbn [map]. rewrite last_last.
    split; [reflexivity|]. split; reflexivity.
  - intros H. replace (List.length prev - 4)%nat with 0%nat by lia.
    cbn [skipn]. eexists. reflexivity.
Qed.

Lemma showToast_keeps_at_most_five_witness :
  exists t,
    Toasts.showToast 1700000000001 "Backend service unavailable"
      (Some Toasts.error_toast) None []
    = ([] ++ [t])%list.
Proof.
  apply (showToast_keeps_at_most_five 1700000000001 "Backend service unavailable"
           (Some Toasts.error_toast) None []).
  cbn. lia.
Defined.

